(** * Vanishing Tic Tac Toe: the two game engines, embedded and verified

    The repository holds two engines for the same game:
    - [Backend]: src/backend/game_logic.py (symbols X/O, enum state,
      [make_move] returns a bool);
    - [Main]: src/Back-End-Game-Logic/game_logic_main.py (symbols X/Y,
      string status, [make_move] returns a dict).

    Python values are modelled as they are in the source: coordinates are
    unbounded integers ([Z]), the board is a list of lists indexed the
    Python way (negative indices count from the end, anything else out of
    range raises IndexError), a raised exception is [None] in the option
    monad, and the object state is passed explicitly. *)

From stdpp Require Import base decidable option list strings gmap.
From Stdlib Require Import ZArith Lia.

Open Scope Z_scope.

(** ** Python list primitives *)

Module Py.

(** Index normalisation of [list.__getitem__]: [0 <= i < n] is taken as
    it is, [-n <= i < 0] counts from the end, anything else raises. *)
Definition norm_index (n : nat) (i : Z) : option nat :=
  if bool_decide (0 ≤ i < Z.of_nat n) then Some (Z.to_nat i)
  else if bool_decide (- Z.of_nat n ≤ i < 0) then Some (Z.to_nat (Z.of_nat n + i))
  else None.

(** [l[i]] *)
Definition getitem {A} (l : list A) (i : Z) : option A :=
  k ← norm_index (length l) i; l !! k.

(** [l[i] = v] *)
Definition setitem {A} (l : list A) (i : Z) (v : A) : option (list A) :=
  k ← norm_index (length l) i; Some (<[k:=v]> l).

(** [l.pop(i)]: the removed element and the remaining list. *)
Definition pop {A} (l : list A) (i : Z) : option (A * list A) :=
  k ← norm_index (length l) i; x ← l !! k; Some (x, delete k l).

(** [range(3)] *)
Definition range3 : list Z := [0; 1; 2].

(** [all(f(x) for x in xs)]: stops at the first false element. *)
Fixpoint all_gen {A} (f : A → option bool) (xs : list A) : option bool :=
  match xs with
  | [] => Some true
  | x :: xs' => b ← f x; if b : bool then all_gen f xs' else Some false
  end.

(** [for x in xs: if body(x): return r(x)], followed by [rest]. *)
Fixpoint for_return {A R} (body : A → option (option R)) (xs : list A)
    (rest : option R) : option R :=
  match xs with
  | [] => rest
  | x :: xs' =>
      t ← body x;
      match t with
      | Some r => Some r
      | None => for_return body xs' rest
      end
  end.

(** [grid[r][c]] and [grid[r][c] = v] on a list of lists. *)
Definition getitem2 {A} (grid : list (list A)) (r c : Z) : option A :=
  row ← getitem grid r; getitem row c.

Definition setitem2 {A} (grid : list (list A)) (r c : Z) (v : A)
    : option (list (list A)) :=
  row ← getitem grid r; row' ← setitem row c v; setitem grid r row'.

(** A [dict]: its items in insertion order, one per key. *)
Definition dict (K V : Type) : Type := list (K * V).

(** [k in d] *)
Fixpoint contains {K V} `{!EqDecision K} (d : dict K V) (k : K) : bool :=
  match d with
  | [] => false
  | (k', _) :: d' => if decide (k' = k) then true else contains d' k
  end.

(** [d[k]]: raises KeyError on a missing key. *)
Fixpoint dict_getitem {K V} `{!EqDecision K} (d : dict K V) (k : K) : option V :=
  match d with
  | [] => None
  | (k', v) :: d' => if decide (k' = k) then Some v else dict_getitem d' k
  end.

(** [d[k] = v]: a present key keeps its place, a new one goes last. *)
Fixpoint dict_setitem {K V} `{!EqDecision K} (d : dict K V) (k : K) (v : V) : dict K V :=
  match d with
  | [] => [(k, v)]
  | (k', v') :: d' =>
      if decide (k' = k) then (k', v) :: d' else (k', v') :: dict_setitem d' k v
  end.

(** [del d[k]]: raises KeyError on a missing key. *)
Fixpoint dict_delitem {K V} `{!EqDecision K} (d : dict K V) (k : K) : option (dict K V) :=
  match d with
  | [] => None
  | (k', v') :: d' =>
      if decide (k' = k) then Some d'
      else d'' ← dict_delitem d' k; Some ((k', v') :: d'')
  end.

(** [list(d.keys())] *)
Definition keys {K V} (d : dict K V) : list K := d.*1.

End Py.

(** ** Board geometry *)

(** A 3x3 grid: what both constructors build and every move keeps. *)
Definition wf_grid {A} (g : list (list A)) : Prop :=
  length g = 3%nat ∧ Forall (λ row, length row = 3%nat) g.

Definition in_range (r c : Z) : Prop := (0 ≤ r ≤ 2) ∧ (0 ≤ c ≤ 2).

#[global] Instance in_range_dec r c : Decision (in_range r c).
Proof. unfold in_range. apply _. Defined.

Definition all_cells : list (Z * Z) :=
  [(0,0); (0,1); (0,2); (1,0); (1,1); (1,2); (2,0); (2,1); (2,2)].

(** The eight lines, in the order the source checks them: rows, columns,
    main diagonal, anti-diagonal. *)
Definition rows : list (list (Z * Z)) :=
  (λ r, (λ c, (r, c)) <$> Py.range3) <$> Py.range3.
Definition columns : list (list (Z * Z)) :=
  (λ c, (λ r, (r, c)) <$> Py.range3) <$> Py.range3.
Definition diagonal : list (Z * Z) := (λ i, (i, i)) <$> Py.range3.
Definition anti_diagonal : list (Z * Z) := (λ i, (i, 2 - i)) <$> Py.range3.
Definition lines : list (list (Z * Z)) :=
  rows ++ columns ++ [diagonal; anti_diagonal].

(** Every cell of the line [l] holds [v]. *)
Definition owns {A} (g : list (list A)) (v : A) (l : list (Z * Z)) : Prop :=
  Forall (λ rc, Py.getitem2 g rc.1 rc.2 = Some v) l.

(** [v] fills one of the eight lines. *)
Definition has_line {A} (g : list (list A)) (v : A) : Prop :=
  Exists (owns g v) lines.

#[global] Instance owns_dec {A} `{!EqDecision A} (g : list (list A)) v l :
  Decision (owns g v l).
Proof. unfold owns. apply _. Defined.

#[global] Instance has_line_dec {A} `{!EqDecision A} (g : list (list A)) v :
  Decision (has_line g v).
Proof. unfold has_line. apply _. Defined.

(** The cells of [g] that hold [v], in row-major order. *)
Definition cells_with {A} `{!EqDecision A} (g : list (list A)) (v : A) : list (Z * Z) :=
  filter (λ rc, Py.getitem2 g rc.1 rc.2 = Some v) all_cells.

(** The cells of [g] that hold something else than [e]. *)
Definition occupied {A} `{!EqDecision A} (g : list (list A)) (e : A) : list (Z * Z) :=
  filter (λ rc, Py.getitem2 g rc.1 rc.2 ≠ Some e) all_cells.

(** The vanish rule, as an effect on one player's history ([h] before,
    [h'] after) and on the cells of the board ([cell] before, [cell'] after)
    of a move that places [mark] at [(row, col)]. *)
Definition vanish_effect {V} (h h' : list (Z * Z))
    (cell cell' : Z → Z → option V) (mark empty : V) (row col : Z) : Prop :=
  (length h = 3%nat →
   ∃ oldest rest,
     h = oldest :: rest ∧ h' = rest ++ [(row, col)] ∧ length h' = 3%nat ∧
     ∀ r c, in_range r c →
       cell' r c =
         if decide ((r, c) = (row, col)) then Some mark
         else if decide ((r, c) = oldest) then Some empty
         else cell r c) ∧
  ((length h < 3)%nat →
   h' = h ++ [(row, col)] ∧ length h' = S (length h) ∧
   ∀ r c, in_range r c →
     cell' r c = if decide ((r, c) = (row, col)) then Some mark else cell r c).

(** The number of accepted attempts among the flags of a run. *)
Definition successes (oks : list bool) : nat :=
  length (filter (λ ok : bool, ok = true) oks).

(** ** src/backend/game_logic.py *)

Module Backend.

Inductive Player := X | O | EMPTY.

Definition value (p : Player) : string :=
  match p with X => "X" | O => "O" | EMPTY => " " end.

Inductive GameState := IN_PROGRESS | X_WINS | O_WINS | DRAW.

#[global] Instance Player_eq_dec : EqDecision Player.
Proof. solve_decision. Defined.

#[global] Instance GameState_eq_dec : EqDecision GameState.
Proof. solve_decision. Defined.

Record InfiniteTicTacToe := mkGame {
  board : list (list string);
  move_history_x : list (Z * Z);
  move_history_o : list (Z * Z);
  current_player : Player;
  state : GameState
}.

(** [__init__]: the object a constructor call returns. *)
Definition init : InfiniteTicTacToe :=
  {| board := (λ _, (λ _, value EMPTY) <$> Py.range3) <$> Py.range3;
     move_history_x := [];
     move_history_o := [];
     current_player := X;
     state := IN_PROGRESS |}.

(** [is_valid_move]: state, then bounds, then the cell. *)
Definition is_valid_move (self : InfiniteTicTacToe) (row col : Z) : option bool :=
  if bool_decide (state self ≠ IN_PROGRESS) then Some false
  else if bool_decide (row < 0) || bool_decide (row > 2)
          || bool_decide (col < 0) || bool_decide (col > 2) then Some false
  else
    v ← Py.getitem2 (board self) row col;
    if bool_decide (v ≠ value EMPTY) then Some false else Some true.

(** [_check_win]: the three rows, the three columns, the two diagonals;
    each [all(...)] stops at the first cell that differs. *)
Definition _check_win (b : list (list string)) (player : Player) : option bool :=
  let symbol := value player in
  let is_symbol r c := v ← Py.getitem2 b r c; Some (bool_decide (v = symbol)) in
  let when (t : bool) : option bool := if t then Some true else None in
  Py.for_return
    (λ row, t ← Py.all_gen (λ col, is_symbol row col) Py.range3; Some (when t))
    Py.range3
    (Py.for_return
      (λ col, t ← Py.all_gen (λ row, is_symbol row col) Py.range3; Some (when t))
      Py.range3
      (d1 ← Py.all_gen (λ i, is_symbol i i) Py.range3;
       if d1 : bool then Some true else
       d2 ← Py.all_gen (λ i, is_symbol i (2 - i)) Py.range3;
       if d2 : bool then Some true else Some false)).

(** [_check_draw]: [False] at the first empty cell, else [True]. *)
Definition _check_draw (b : list (list string)) : option bool :=
  Py.for_return
    (λ row,
       Py.for_return
         (λ col, v ← Py.getitem2 b row col;
                 Some (if bool_decide (v = value EMPTY) then Some (Some false) else None))
         Py.range3 (Some None))
    Py.range3
    (Some true).

(** [make_move].  [len(move_history) >= 3] is written [3 ≤ length].
    [move_history] is an alias of the current player's list,
    so [pop] and [append] change that player's field of the object: the
    updated list is written back to the field it was taken from. *)
Definition make_move (self : InfiniteTicTacToe) (row col : Z)
    : option (bool * InfiniteTicTacToe) :=
  valid ← is_valid_move self row col;
  if negb valid then Some (false, self) else
  let by_x := bool_decide (current_player self = X) in
  let move_history := if by_x then move_history_x self else move_history_o self in
  '(board1, move_history1) ←
    (if bool_decide (3 ≤ length move_history)%nat then
       '(oldest_row, oldest_col) ← Py.getitem move_history 0;
       board' ← Py.setitem2 (board self) oldest_row oldest_col (value EMPTY);
       popped ← Py.pop move_history 0;
       Some (board', popped.2)
     else Some (board self, move_history)) : option (list (list string) * list (Z * Z));
  board2 ← Py.setitem2 board1 row col (value (current_player self));
  let move_history2 := move_history1 ++ [(row, col)] in
  win ← _check_win board2 (current_player self);
  state' ←
    (if win : bool then
       Some (if bool_decide (current_player self = X) then X_WINS else O_WINS)
     else
       draw ← _check_draw board2;
       Some (if draw : bool then DRAW else state self)) : option GameState;
  Some (true,
        {| board := board2;
           move_history_x := if by_x then move_history2 else move_history_x self;
           move_history_o := if by_x then move_history_o self else move_history2;
           current_player := if bool_decide (current_player self = X) then O else X;
           state := state' |}).

(** [reset] *)
Definition reset (self : InfiniteTicTacToe) : InfiniteTicTacToe :=
  {| board := (λ _, (λ _, value EMPTY) <$> Py.range3) <$> Py.range3;
     move_history_x := [];
     move_history_o := [];
     current_player := X;
     state := IN_PROGRESS |}.

Definition get_oldest_piece_position (self : InfiniteTicTacToe) (player : Player)
    : option (Z * Z) :=
  let move_history :=
    if bool_decide (player = X) then move_history_x self else move_history_o self in
  if bool_decide (0 < length move_history)%nat then Py.getitem move_history 0 else None.

(** A sequence of move attempts: the flags returned, and the final object. *)
Fixpoint play (self : InfiniteTicTacToe) (moves : list (Z * Z))
    : option (list bool * InfiniteTicTacToe) :=
  match moves with
  | [] => Some ([], self)
  | (row, col) :: moves' =>
      '(ok, self') ← make_move self row col;
      '(oks, self'') ← play self' moves';
      Some (ok :: oks, self'')
  end.

(** The states a game object can be in: created, then any sequence of
    [make_move] (with any integers) and [reset]. *)
Inductive reachable : InfiniteTicTacToe → Prop :=
| reachable_init : reachable init
| reachable_move self row col ok self' :
    reachable self → make_move self row col = Some (ok, self') → reachable self'
| reachable_reset self : reachable self → reachable (reset self).

Definition get_move_history (self : InfiniteTicTacToe) (player : Player) : list (Z * Z) :=
  if bool_decide (player = X) then move_history_x self
  else if bool_decide (player = O) then move_history_o self
  else [].

(** The expression that switches the turn. *)
Definition switch (p : Player) : Player := if bool_decide (p = X) then O else X.

(** The expression that names the winner's state. *)
Definition wins (p : Player) : GameState :=
  if bool_decide (p = X) then X_WINS else O_WINS.

(** A move attempt passes [is_valid_move]. *)
Definition valid (self : InfiniteTicTacToe) (row col : Z) : Prop :=
  state self = IN_PROGRESS ∧ in_range row col ∧
  Py.getitem2 (board self) row col = Some (value EMPTY).

#[global] Instance valid_dec self row col : Decision (valid self row col).
Proof. unfold valid. apply _. Defined.

(** The piece the next move of the current player removes: the head of
    that player's history once it holds three, else none. *)
Definition vanishing (self : InfiniteTicTacToe) : option (Z * Z) :=
  let h := get_move_history self (current_player self) in
  if bool_decide (3 ≤ length h)%nat then head h else None.

(** The entries of the current player's history that survive the move. *)
Definition kept (self : InfiniteTicTacToe) : list (Z * Z) :=
  let h := get_move_history self (current_player self) in
  if bool_decide (3 ≤ length h)%nat then tail h else h.

(** No cell of the board is empty. *)
Definition full (b : list (list string)) : Prop :=
  Forall (λ rc, Py.getitem2 b rc.1 rc.2 ≠ Some (value EMPTY)) all_cells.

(** What an accepted move at [(row, col)] does to the object. *)
Record placed (self : InfiniteTicTacToe) (row col : Z) (self' : InfiniteTicTacToe) : Prop := {
  placed_wf : wf_grid (board self');
  placed_board : ∀ r c, in_range r c →
    Py.getitem2 (board self') r c =
      if decide ((r, c) = (row, col)) then Some (value (current_player self))
      else if decide (vanishing self = Some (r, c)) then Some (value EMPTY)
      else Py.getitem2 (board self) r c;
  placed_mover :
    get_move_history self' (current_player self) = kept self ++ [(row, col)];
  placed_other : ∀ p, p ≠ current_player self →
    get_move_history self' p = get_move_history self p;
  placed_player : current_player self' = switch (current_player self);
  placed_state :
    state self' =
      if decide (has_line (board self') (value (current_player self)))
      then wins (current_player self)
      else if decide (full (board self')) then DRAW else state self
}.

(** Board and histories agree, and the bounds that follow from it. *)
Record consistent (self : InfiniteTicTacToe) : Prop := {
  cons_wf : wf_grid (board self);
  cons_cells : ∀ r c, in_range r c →
    ∃ p, Py.getitem2 (board self) r c = Some (value p);
  cons_marks : ∀ p r c, p ≠ EMPTY → in_range r c →
    Py.getitem2 (board self) r c = Some (value p) ↔ (r, c) ∈ get_move_history self p;
  cons_range : ∀ p rc, rc ∈ get_move_history self p → in_range rc.1 rc.2;
  cons_nodup : ∀ p, NoDup (get_move_history self p);
  cons_length : ∀ p, (length (get_move_history self p) ≤ 3)%nat;
  cons_player : current_player self ≠ EMPTY;
  cons_quiet : state self = IN_PROGRESS →
    ∀ p, p ≠ EMPTY → ¬ has_line (board self) (value p);
  cons_no_draw : state self ≠ DRAW
}.

(** The object after X(0,0) O(1,1) X(0,1) O(2,2) X(2,0) O(1,0). *)
Definition six_moves : InfiniteTicTacToe :=
  {| board := [["X"; "X"; " "]; ["O"; "O"; " "]; ["X"; " "; "O"]];
     move_history_x := [(0,0); (0,1); (2,0)];
     move_history_o := [(1,1); (2,2); (1,0)];
     current_player := X;
     state := IN_PROGRESS |}.

(** The object after X(0,0) O(1,1) X(0,1) O(1,0) X(0,2): X has won. *)
Definition x_won : InfiniteTicTacToe :=
  {| board := [["X"; "X"; "X"]; ["O"; "O"; " "]; [" "; " "; " "]];
     move_history_x := [(0,0); (0,1); (0,2)];
     move_history_o := [(1,1); (1,0)];
     current_player := O;
     state := X_WINS |}.

(** The getters. *)
Definition get_board (self : InfiniteTicTacToe) : list (list string) := board self.

Definition get_current_player (self : InfiniteTicTacToe) : Player := current_player self.

Definition get_game_state (self : InfiniteTicTacToe) : GameState := state self.

(** [GameState.value] *)
Definition state_value (st : GameState) : string :=
  match st with
  | IN_PROGRESS => "in_progress"
  | X_WINS => "x_wins"
  | O_WINS => "o_wins"
  | DRAW => "draw"
  end.

(** The state a board shows by itself: a line of X, a line of O, or
    neither. *)
Definition shown (b : list (list string)) : GameState :=
  if decide (has_line b (value X)) then X_WINS
  else if decide (has_line b (value O)) then O_WINS
  else IN_PROGRESS.

(** What a recorded win of [p] stands for: [p] owns a line, the other
    player owns none, and the turn has passed to the other player. *)
Definition won_by (self : InfiniteTicTacToe) (p : Player) : Prop :=
  has_line (board self) (value p) ∧
  ¬ has_line (board self) (value (switch p)) ∧
  current_player self = switch p.

(** The accepted moves of X ([q = X]) and of O among [n] accepted moves
    that alternate, [first] moving first. *)
Definition turns (first q : Player) (n : nat) : nat :=
  if bool_decide (q = first) then ((n + 1) / 2)%nat else (n / 2)%nat.

End Backend.


(** ** src/Back-End-Game-Logic/game_logic_main.py *)

Module Main.

(** Board cells are [None], ['X'] or ['Y']. *)
Abbreviation cell := (option string).

Record InfiniteTicTacToe := mkGame {
  board : list (list cell);
  player_moves : gmap string (list (Z * Z));
  current_player : string;
  game_status : string;
  total_moves : Z
}.

(** The dict returned by [make_move]: the keys present depend on the
    ['success'] flag, which is the constructor here. *)
Inductive MoveResult :=
| Failure (message : string) (board : list (list cell))
| Success (message : string) (board : list (list cell))
          (removed_piece : option (Z * Z)) (current_player : string)
          (game_status : string) (winner : option string).

Definition success (r : MoveResult) : bool :=
  match r with Failure _ _ => false | Success _ _ _ _ _ _ => true end.

Definition init : InfiniteTicTacToe :=
  {| board := (λ _, (λ _, None) <$> Py.range3) <$> Py.range3;
     player_moves := <["Y" := []]> (<["X" := []]> ∅);
     current_player := "X";
     game_status := "ongoing";
     total_moves := 0 |}.

Definition get_oldest_piece_for_player (self : InfiniteTicTacToe) (player : string)
    : option (Z * Z) :=
  match player_moves self !! player with
  | Some moves => if bool_decide (0 < length moves)%nat then Py.getitem moves 0 else None
  | None => None
  end.

(** [self.player_moves[player]] raises KeyError on a missing key. *)
Definition will_remove_piece (self : InfiniteTicTacToe) (player : string) : option bool :=
  moves ← player_moves self !! player;
  Some (bool_decide (3 ≤ length moves)%nat).

Definition _is_valid_position (row col : Z) : bool :=
  bool_decide (0 ≤ row) && bool_decide (row ≤ 2)
  && (bool_decide (0 ≤ col) && bool_decide (col ≤ 2)).

(** Truth value of [None] or a string: only a non-empty string is true. *)
Definition truthy (w : option string) : bool :=
  match w with Some s => bool_decide (s ≠ EmptyString) | None => false end.

(** [_check_winner]: rows, columns, main diagonal, anti-diagonal; a chained
    comparison [a == b == c] reads [c] only when [a == b]. *)
Definition _check_winner (b : list (list cell)) : option (option string) :=
  Py.for_return
    (λ row : list cell,
       r0 ← Py.getitem row 0; r1 ← Py.getitem row 1;
       if bool_decide (r0 = r1) then
         r2 ← Py.getitem row 2;
         Some (if bool_decide (r1 = r2) && bool_decide (r0 ≠ None) then Some r0 else None)
       else Some None)
    b
    (Py.for_return
       (λ col : Z,
          c0 ← Py.getitem2 b 0 col; c1 ← Py.getitem2 b 1 col;
          if bool_decide (c0 = c1) then
            c2 ← Py.getitem2 b 2 col;
            if bool_decide (c1 = c2) then
              c0' ← Py.getitem2 b 0 col;
              if bool_decide (c0' ≠ None) then
                w ← Py.getitem2 b 0 col; Some (Some w)
              else Some None
            else Some None
          else Some None)
       Py.range3
       (d0 ← Py.getitem2 b 0 0; d1 ← Py.getitem2 b 1 1;
        found ←
          (if bool_decide (d0 = d1) then
             d2 ← Py.getitem2 b 2 2;
             if bool_decide (d1 = d2) then
               d0' ← Py.getitem2 b 0 0; Some (bool_decide (d0' ≠ None))
             else Some false
           else Some false) : option bool;
        if found : bool then Py.getitem2 b 0 0 else
        a0 ← Py.getitem2 b 0 2; a1 ← Py.getitem2 b 1 1;
        found' ←
          (if bool_decide (a0 = a1) then
             a2 ← Py.getitem2 b 2 0;
             if bool_decide (a1 = a2) then
               a0' ← Py.getitem2 b 0 2; Some (bool_decide (a0' ≠ None))
             else Some false
           else Some false) : option bool;
        if found' : bool then Py.getitem2 b 0 2 else Some None)).

(** [_is_board_full]: [False] at the first [None] cell, else [True]. *)
Definition _is_board_full (b : list (list cell)) : option bool :=
  Py.for_return
    (λ row : list cell,
       Py.for_return
         (λ c : cell, Some (if bool_decide (c = None) then Some (Some false) else None))
         row (Some None))
    b
    (Some true).

(** [[row[:] for row in self.board]]: a copy of the rows; as a value it is
    the board at the time of the call. *)
Definition _get_board_state (self : InfiniteTicTacToe) : list (list cell) :=
  (λ row, row) <$> board self.

(** [make_move]: bounds, occupied, game over; then the piece is placed and
    recorded, and the oldest piece goes once the history exceeds three. *)
Definition make_move (self : InfiniteTicTacToe) (row col : Z)
    : option (MoveResult * InfiniteTicTacToe) :=
  if negb (_is_valid_position row col) then
    Some (Failure "Invalid position. Row and column must be between 0-2."
                  (_get_board_state self), self)
  else
  target ← Py.getitem2 (board self) row col;
  if bool_decide (target ≠ None) then
    Some (Failure "Position already occupied." (_get_board_state self), self)
  else
  if bool_decide (game_status self ≠ "ongoing") then
    Some (Failure ("Game is over. Status: " +:+ game_status self)
                  (_get_board_state self), self)
  else
  board1 ← Py.setitem2 (board self) row col (Some (current_player self));
  moves ← player_moves self !! current_player self;
  let player_moves1 := <[current_player self := moves ++ [(row, col)]]> (player_moves self) in
  let total_moves1 := total_moves self + 1 in
  moves1 ← player_moves1 !! current_player self;
  '(board2, player_moves2, removed_piece) ←
    (if bool_decide (3 < length moves1)%nat then
       moves1' ← player_moves1 !! current_player self;
       popped ← Py.pop moves1' 0;
       board' ← Py.setitem2 board1 popped.1.1 popped.1.2 None;
       Some (board', <[current_player self := popped.2]> player_moves1, Some popped.1)
     else Some (board1, player_moves1, None))
    : option (list (list cell) * gmap string (list (Z * Z)) * option (Z * Z));
  winner ← _check_winner board2;
  game_status1 ←
    (if truthy winner then Some (default "None" winner +:+ "_wins")
     else
       full ← _is_board_full board2;
       Some (if full && negb (truthy winner) then "draw" else game_status self))
    : option string;
  let current_player1 := if bool_decide (current_player self = "X") then "Y" else "X" in
  let self' :=
    {| board := board2;
       player_moves := player_moves2;
       current_player := current_player1;
       game_status := game_status1;
       total_moves := total_moves1 |} in
  Some (Success "Move successful" (_get_board_state self') removed_piece
                current_player1 game_status1
                (if truthy winner then winner else None),
        self').

(** [reset_game]: the object after the call (the returned dict only
    repeats its fields). *)
Definition reset_game (self : InfiniteTicTacToe) : InfiniteTicTacToe :=
  {| board := (λ _, (λ _, None) <$> Py.range3) <$> Py.range3;
     player_moves := <["Y" := []]> (<["X" := []]> ∅);
     current_player := "X";
     game_status := "ongoing";
     total_moves := 0 |}.

Fixpoint play (self : InfiniteTicTacToe) (moves : list (Z * Z))
    : option (list MoveResult * InfiniteTicTacToe) :=
  match moves with
  | [] => Some ([], self)
  | (row, col) :: moves' =>
      '(r, self') ← make_move self row col;
      '(rs, self'') ← play self' moves';
      Some (r :: rs, self'')
  end.

Inductive reachable : InfiniteTicTacToe → Prop :=
| reachable_init : reachable init
| reachable_move self row col r self' :
    reachable self → make_move self row col = Some (r, self') → reachable self'
| reachable_reset self : reachable self → reachable (reset_game self).

(** The test of one line: [a == b == c and a is not None]. *)
Definition three_equal (a b c : cell) : bool :=
  bool_decide (a = b) && bool_decide (b = c) && bool_decide (a ≠ None).

(** The winner a line shows: its first cell when the three cells are
    equal and not [None]. *)
Definition line_winner (b : list (list cell)) (l : list (Z * Z)) : cell :=
  match (λ rc, Py.getitem2 b rc.1 rc.2) <$> l with
  | [Some x; Some y; Some z] => if three_equal x y z then x else None
  | _ => None
  end.

(** Scanning the lines [ls] in their order for the first winner. *)
Fixpoint first_winner (b : list (list cell)) (ls : list (list (Z * Z))) : cell :=
  match ls with
  | [] => None
  | l :: ls' =>
      match line_winner b l with
      | Some w => Some w
      | None => first_winner b ls'
      end
  end.

(** The object after X(0,0) Y(1,1) X(0,1) Y(2,2) X(2,0) Y(1,0). *)
Definition six_moves : InfiniteTicTacToe :=
  {| board := [[Some "X"; Some "X"; None]; [Some "Y"; Some "Y"; None];
               [Some "X"; None; Some "Y"]];
     player_moves :=
       <["Y" := [(1,1); (2,2); (1,0)]]> (<["X" := [(0,0); (0,1); (2,0)]]> ∅);
     current_player := "X";
     game_status := "ongoing";
     total_moves := 6 |}.

(** The object after X(0,0) Y(1,1) X(0,1) Y(1,0) X(0,2): X has won. *)
Definition x_won : InfiniteTicTacToe :=
  {| board := [[Some "X"; Some "X"; Some "X"]; [Some "Y"; Some "Y"; None];
               [None; None; None]];
     player_moves := <["Y" := [(1,1); (1,0)]]> (<["X" := [(0,0); (0,1); (0,2)]]> ∅);
     current_player := "Y";
     game_status := "X_wins";
     total_moves := 5 |}.

(** The status a board shows by itself: the first line that is won, in
    the order of [_check_winner], names the winner. *)
Definition shown (b : list (list cell)) : string :=
  match first_winner b lines with
  | Some w => w +:+ "_wins"
  | None => "ongoing"
  end.

(** The dict returned by [get_game_state]; the two inner dicts have the
    keys ['X'] and ['Y'], given here in that order. *)
Module State.
Record t := mk {
  board : list (list cell);
  current_player : string;
  game_status : string;
  player_moves : gmap string (list (Z * Z));
  total_moves : Z;
  oldest_pieces : option (Z * Z) * option (Z * Z);
  will_remove_next : bool * bool
}.
End State.

(** [get_game_state]: [will_remove_piece] raises KeyError when the player
    has no entry in [player_moves]. *)
Definition get_game_state (self : InfiniteTicTacToe) : option State.t :=
  let oldest_x := get_oldest_piece_for_player self "X" in
  let oldest_y := get_oldest_piece_for_player self "Y" in
  will_remove_x ← will_remove_piece self "X";
  will_remove_y ← will_remove_piece self "Y";
  Some {| State.board := _get_board_state self;
          State.current_player := current_player self;
          State.game_status := game_status self;
          State.player_moves := player_moves self;
          State.total_moves := total_moves self;
          State.oldest_pieces := (oldest_x, oldest_y);
          State.will_remove_next := (will_remove_x, will_remove_y) |}.

End Main.


(** ** The rejection order of the specification *)

Module Spec.

Inductive Rejection := GameConcluded | OutOfBounds | Occupied.

#[global] Instance Rejection_eq_dec : EqDecision Rejection.
Proof. solve_decision. Defined.

(** Modelled on the words of the specification: (a) the outcome must be in
    progress, else "game already concluded"; (b) row and col must be in
    range, else "out of bounds"; (c) the cell must be empty, else "occupied";
    the first failure wins. *)
Definition rejection (concluded in_bounds occupied : bool) : option Rejection :=
  if concluded then Some GameConcluded
  else if negb in_bounds then Some OutOfBounds
  else if occupied then Some Occupied
  else None.

(** The rejection a message of the second engine stands for. *)
Definition of_message (msg : string) : option Rejection :=
  if bool_decide (msg = "Invalid position. Row and column must be between 0-2.")
  then Some OutOfBounds
  else if bool_decide (msg = "Position already occupied.") then Some Occupied
  else if String.prefix "Game is over. Status: " msg then Some GameConcluded
  else None.

(** The rejection a result of the second engine reports. *)
Definition reported (res : Main.MoveResult) : option Rejection :=
  match res with
  | Main.Failure msg _ => of_message msg
  | Main.Success _ _ _ _ _ _ => None
  end.

(** The claim that the second engine reports rejections in the order of the
    specification. *)
Definition main_follows_order : Prop :=
  ∀ self row col res self',
    Main.reachable self → Main.make_move self row col = Some (res, self') →
    reported res =
      rejection (bool_decide (Main.game_status self ≠ "ongoing"))
                (bool_decide (in_range row col))
                (bool_decide (Py.getitem2 (Main.board self) row col ≠ Some None)).

(** The rejection [r] is a cause for which the first engine can reject the
    attempt at [(row, col)] on [self]. *)
Definition applies (self : Backend.InfiniteTicTacToe) (row col : Z) (r : Rejection) : Prop :=
  match r with
  | GameConcluded => Backend.state self ≠ Backend.IN_PROGRESS
  | OutOfBounds => ¬ in_range row col
  | Occupied =>
      in_range row col ∧
      Py.getitem2 (Backend.board self) row col ≠ Some (Backend.value Backend.EMPTY)
  end.

(** The claim that the value returned by the first engine on a rejection
    tells the caller why: some reading of the returned flag names a cause
    that applies. *)
Definition backend_reports_reason : Prop :=
  ∃ reason : bool → Rejection,
    ∀ self row col ok self',
      Backend.reachable self → Backend.make_move self row col = Some (ok, self') →
      ok = false → applies self row col (reason ok).

End Spec.

(** ** Renaming the first engine's state into the second engine's *)

Module Refinement.

(** Board cells: [" "] is [None], ["X"] stays, ["O"] is ['Y']. *)
Definition cell_of (s : string) : option string :=
  if bool_decide (s = "X") then Some "X"
  else if bool_decide (s = "O") then Some "Y"
  else None.

Definition player_of (p : Backend.Player) : string :=
  if bool_decide (p = Backend.X) then "X" else "Y".

Definition status_of (st : Backend.GameState) : string :=
  match st with
  | Backend.IN_PROGRESS => "ongoing"
  | Backend.X_WINS => "X_wins"
  | Backend.O_WINS => "Y_wins"
  | Backend.DRAW => "draw"
  end.

(** The object of the second engine that corresponds to [g]; [n] is its
    move counter, which the first engine does not keep. *)
Definition rename (g : Backend.InfiniteTicTacToe) (n : Z) : Main.InfiniteTicTacToe :=
  {| Main.board := fmap (M:=list) (fmap (M:=list) cell_of) (Backend.board g);
     Main.player_moves :=
       <["Y" := Backend.move_history_o g]> (<["X" := Backend.move_history_x g]> ∅);
     Main.current_player := player_of (Backend.current_player g);
     Main.game_status := status_of (Backend.state g);
     Main.total_moves := n |}.

End Refinement.

(** ** src/backend/main.py *)

Module Api.

(** The engine class.  main.py imports it from game_logic under the name
    [VanishingTicTacToe]; game_logic.py defines no class of that name, so
    the class is a parameter of the handlers: a constructor and the methods
    they call, with the types main.py uses them at.  [Player] and
    [GameState] are game_logic's. *)
Module Engine.

Class VanishingTicTacToe (T : Type) : Type := {
  new : T;
  get_board : T → list (list string);
  get_current_player : T → Backend.Player;
  get_game_state : T → Backend.GameState;
  get_move_history : T → Backend.Player → list (Z * Z);
  get_oldest_piece_position : T → Backend.Player → option (Z * Z);
  make_move : T → Z → Z → option (bool * T);
  reset : T → T
}.

(** The objects of the class that calls of its methods can produce: a new
    one, then any [make_move] and [reset]. *)
Inductive reachable {T : Type} `{!VanishingTicTacToe T} : T → Prop :=
| reachable_new : reachable new
| reachable_move game row col ok game' :
    reachable game → make_move game row col = Some (ok, game') → reachable game'
| reachable_reset game : reachable game → reachable (reset game).

End Engine.

(** The pydantic models. *)
Record MoveRequest := mkMoveRequest {
  row : Z;
  col : Z;
  player : string
}.

Record GameResponse := mkGameResponse {
  game_id : string;
  board : list (list string);
  current_player : string;
  state : string;
  move_history_x : list (Z * Z);
  move_history_o : list (Z * Z);
  oldest_piece_x : option (list Z);
  oldest_piece_o : option (list Z)
}.

Record GameListResponse := mkGameListResponse {
  game_ids : list string;
  total_games : Z
}.

(** A handler returns its response or raises [HTTPException]. *)
Inductive Reply (A : Type) : Type :=
| Returned (response : A)
| HTTPException (status_code : Z) (detail : string).

Arguments Returned {A} response.
Arguments HTTPException {A} status_code detail.

(** The handlers.  The module-level dict [games] is passed in and out; a
    game object is mutated in place by its methods, so after a call the dict
    holds the object as the call left it.  [None] is an exception other than
    [HTTPException] leaving the handler.  The calls to the logger are left
    out. *)
Section handlers.
Context {T : Type} `{!Engine.VanishingTicTacToe T}.

Definition _build_game_response (game_id : string) (game : T) : GameResponse :=
  let oldest_x := Engine.get_oldest_piece_position game Backend.X in
  let oldest_o := Engine.get_oldest_piece_position game Backend.O in
  let oldest_x_list :=
    match oldest_x with Some oldest => Some [oldest.1; oldest.2] | None => None end in
  let oldest_o_list :=
    match oldest_o with Some oldest => Some [oldest.1; oldest.2] | None => None end in
  {| game_id := game_id;
     board := Engine.get_board game;
     current_player := Backend.value (Engine.get_current_player game);
     state := Backend.state_value (Engine.get_game_state game);
     move_history_x := Engine.get_move_history game Backend.X;
     move_history_o := Engine.get_move_history game Backend.O;
     oldest_piece_x := oldest_x_list;
     oldest_piece_o := oldest_o_list |}.

(** [create_new_game]; [game_id] is the string of the uuid4 that was drawn. *)
Definition create_new_game (games : Py.dict string T) (game_id : string)
    : Py.dict string T * GameResponse :=
  let game := Engine.new in
  let games' := Py.dict_setitem games game_id game in
  (games', _build_game_response game_id game).

Definition make_move (games : Py.dict string T) (game_id : string)
    (move_request : MoveRequest) : option (Py.dict string T * Reply GameResponse) :=
  if negb (Py.contains games game_id) then
    Some (games, HTTPException 404 "Game not found")
  else
  game ← Py.dict_getitem games game_id;
  let expected_player := Backend.value (Engine.get_current_player game) in
  if bool_decide (player move_request ≠ expected_player) then
    Some (games,
          HTTPException 400
            ("It's " +:+ expected_player +:+ "'s turn, not "
             +:+ player move_request +:+ "'s"))
  else
  '(move_successful, game') ← Engine.make_move game (row move_request) (col move_request);
  let games' := Py.dict_setitem games game_id game' in
  if negb move_successful then Some (games', HTTPException 400 "Invalid move")
  else Some (games', Returned (_build_game_response game_id game')).

Definition get_game_state (games : Py.dict string T) (game_id : string)
    : option (Reply GameResponse) :=
  if negb (Py.contains games game_id) then
    Some (HTTPException 404 "Game not found")
  else
  game ← Py.dict_getitem games game_id;
  Some (Returned (_build_game_response game_id game)).

Definition reset_game (games : Py.dict string T) (game_id : string)
    : option (Py.dict string T * Reply GameResponse) :=
  if negb (Py.contains games game_id) then
    Some (games, HTTPException 404 "Game not found")
  else
  game ← Py.dict_getitem games game_id;
  let game' := Engine.reset game in
  let games' := Py.dict_setitem games game_id game' in
  Some (games', Returned (_build_game_response game_id game')).

Definition list_active_games (games : Py.dict string T) : GameListResponse :=
  let game_ids := Py.keys games in
  {| game_ids := game_ids; total_games := Z.of_nat (length game_ids) |}.

(** [delete_game]: the response is the dict with the one key ['message']. *)
Definition delete_game (games : Py.dict string T) (game_id : string)
    : option (Py.dict string T * Reply string) :=
  if negb (Py.contains games game_id) then
    Some (games, HTTPException 404 "Game not found")
  else
  games' ← Py.dict_delitem games game_id;
  Some (games', Returned ("Game " +:+ game_id +:+ " deleted successfully")).

(** One request to the API. *)
Inductive Request :=
| CreateNewGame (uuid4 : string)
| MakeMove (game_id : string) (move_request : MoveRequest)
| GetGameState (game_id : string)
| ResetGame (game_id : string)
| ListActiveGames
| DeleteGame (game_id : string).

(** The dict after a request has been handled. *)
Definition handle (games : Py.dict string T) (request : Request)
    : option (Py.dict string T) :=
  match request with
  | CreateNewGame uuid4 => Some (create_new_game games uuid4).1
  | MakeMove game_id move_request => fst <$> make_move games game_id move_request
  | GetGameState game_id => _ ← get_game_state games game_id; Some games
  | ResetGame game_id => fst <$> reset_game games game_id
  | ListActiveGames => Some games
  | DeleteGame game_id => fst <$> delete_game games game_id
  end.

(** The game id a request names, if it names one. *)
Definition target (request : Request) : option string :=
  match request with
  | CreateNewGame uuid4 => Some uuid4
  | MakeMove game_id _ => Some game_id
  | GetGameState game_id => Some game_id
  | ResetGame game_id => Some game_id
  | ListActiveGames => None
  | DeleteGame game_id => Some game_id
  end.

(** The dicts the server can hold: empty at start, then any requests. *)
Inductive served : Py.dict string T → Prop :=
| served_start : served []
| served_request games request games' :
    served games → handle games request = Some games' → served games'.

(** Handling a list of requests one after the other. *)
Fixpoint serve (games : Py.dict string T) (requests : list Request)
    : option (Py.dict string T) :=
  match requests with
  | [] => Some games
  | request :: requests' => games' ← handle games request; serve games' requests'
  end.

End handlers.

(** A request for a move. *)
Definition move (game_id player : string) (row col : Z) : Request :=
  MakeMove game_id {| row := row; col := col; player := player |}.

(** For the examples only.  The handlers are stated for any engine class,
    and an example needs one: the class that game_logic.py does define has
    every method of the interface.  main.py does not name this class. *)
Definition example_engine : Engine.VanishingTicTacToe Backend.InfiniteTicTacToe := {|
  Engine.new := Backend.init;
  Engine.get_board := Backend.get_board;
  Engine.get_current_player := Backend.get_current_player;
  Engine.get_game_state := Backend.get_game_state;
  Engine.get_move_history := Backend.get_move_history;
  Engine.get_oldest_piece_position := Backend.get_oldest_piece_position;
  Engine.make_move := Backend.make_move;
  Engine.reset := Backend.reset
|}.

(** An example dict: two games of the example engine, created in this
    order, the first one played until X has won. *)
Definition two_games : Py.dict string Backend.InfiniteTicTacToe :=
  [("a", Backend.x_won); ("b", Backend.init)].

End Api.

(** ** src/Back-End-Game-Logic/flask_app.py *)

Module Flask.

(** What a view returns: [jsonify(body)] with a status code (200 when the
    view gives none).  A body [{'success': True, 'data': d}] is given by
    [d]; a body [{'success': False, 'message': m}] by [m].  The handler of
    an exception answers 500 with a message that ends in the text of the
    exception; of that message only the fixed beginning is modelled. *)
Inductive Response (D : Type) : Type :=
| Data (data : D) (status_code : Z)
| Message (message : string) (status_code : Z)
| ServerError (message_start : string).

Arguments Data {D} data status_code.
Arguments Message {D} message status_code.
Arguments ServerError {D} message_start.

(** The status code of a response. *)
Definition status_code {D} (r : Response D) : Z :=
  match r with
  | Data _ code => code
  | Message _ code => code
  | ServerError _ => 500
  end.

(** The dict under ['next_blur_info'] and ['blur_info']. *)
Module BlurInfo.
Record t := mk {
  current_player : string;
  should_blur : bool;
  piece_to_blur : option (Z * Z)
}.
End BlurInfo.

(** The data of [get_blur_preview]. *)
Module Preview.
Record t := mk {
  current_player : string;
  should_blur : bool;
  piece_to_blur : option (Z * Z);
  pieces_on_board : Z
}.
End Preview.

(** The data of [reset_game]: the dict the engine returns, with
    ['blur_info'] added. *)
Module Reset.
Record t := mk {
  message : string;
  board : list (list Main.cell);
  current_player : string;
  game_status : string;
  blur_info : BlurInfo.t
}.
End Reset.

(** The data of [get_players_info]; the inner dicts have the keys ['X'] and
    ['Y'], given here in that order. *)
Module Players.
Record t := mk {
  current_player : string;
  player_piece_counts : Z * Z;
  total_moves : Z;
  oldest_pieces : option (Z * Z) * option (Z * Z);
  will_remove_next : bool * bool
}.
End Players.

(** The body of [make_move]: the dict the engine returned, with
    ['next_blur_info'] added when the move succeeded. *)
Record MoveData := mkMoveData {
  result : Main.MoveResult;
  next_blur_info : option BlurInfo.t
}.

(** The views read and change the one module-level [game]; it is passed in,
    and passed out by the views that change it. *)

Definition get_game_state (game : Main.InfiniteTicTacToe) : Response Main.State.t :=
  match Main.get_game_state game with
  | Some state => Data state 200
  | None => ServerError "Error getting game state: "
  end.

Definition get_blur_preview (game : Main.InfiniteTicTacToe) : Response Preview.t :=
  let current_player := Main.current_player game in
  let oldest_piece := Main.get_oldest_piece_for_player game current_player in
  match
    will_remove ← Main.will_remove_piece game current_player;
    moves ← Main.player_moves game !! current_player;
    Some {| Preview.current_player := current_player;
            Preview.should_blur := will_remove;
            Preview.piece_to_blur := oldest_piece;
            Preview.pieces_on_board := Z.of_nat (length moves) |}
  with
  | Some data => Data data 200
  | None => ServerError "Error getting blur preview: "
  end.

(** The request body.  [request.get_json()] gives a Python value of any
    JSON shape, or raises.  What the view does with the value is taken as
    the interface of the type of these values: its truth value, [key in
    data], [data[key]] and [int(...)], of which the last three can raise.
    The view tells two kinds of exception apart: ValueError and TypeError,
    which its inner handler catches, and all others. *)
Inductive Raised := ValueError_or_TypeError | OtherException.

Inductive Try (A : Type) : Type :=
| Fine (a : A)
| Raises (e : Raised).

Arguments Fine {A} a.
Arguments Raises {A} e.

Definition try_bind {A B} (m : Try A) (k : A → Try B) : Try B :=
  match m with
  | Fine a => k a
  | Raises e => Raises e
  end.

Class PyValue (V : Type) : Type := {
  truth : V → bool;
  has_key : string → V → Try bool;
  item : V → string → Try V;
  to_int : V → Try Z
}.

(** The block [row = int(data['row']); col = int(data['col'])]. *)
Definition coordinates {V} `{!PyValue V} (data : V) : Try (Z * Z) :=
  try_bind (item data "row") (λ r,
  try_bind (to_int r) (λ row,
  try_bind (item data "col") (λ c,
  try_bind (to_int c) (λ col,
  Fine (row, col))))).

(** [make_move].  The game after the call is [None] when the engine itself
    raised, since the object is then left as the exception found it. *)
Definition make_move {V} `{!PyValue V} (game : Main.InfiniteTicTacToe) (body : Try V)
    : Response MoveData * option Main.InfiniteTicTacToe :=
  let server_error := ServerError "Server error: " in
  let missing := Message "Missing required fields. Please provide row and col." 400 in
  match body with
  | Raises _ => (server_error, Some game)
  | Fine data =>
  if negb (truth data) then (missing, Some game) else
  match has_key "row" data with
  | Raises _ => (server_error, Some game)
  | Fine false => (missing, Some game)
  | Fine true =>
  match has_key "col" data with
  | Raises _ => (server_error, Some game)
  | Fine false => (missing, Some game)
  | Fine true =>
  match coordinates data with
  | Raises ValueError_or_TypeError => (Message "Row and col must be integers." 400, Some game)
  | Raises OtherException => (server_error, Some game)
  | Fine (row, col) =>
  match Main.make_move game row col with
  | None => (server_error, None)
  | Some (result, game') =>
      if Main.success result then
        let next_player := Main.current_player game' in
        match Main.will_remove_piece game' next_player with
        | None => (server_error, Some game')
        | Some should_blur =>
            let next_blur_info :=
              {| BlurInfo.current_player := next_player;
                 BlurInfo.should_blur := should_blur;
                 BlurInfo.piece_to_blur :=
                   Main.get_oldest_piece_for_player game' next_player |} in
            (Data {| result := result; next_blur_info := Some next_blur_info |} 200,
             Some game')
        end
      else (Data {| result := result; next_blur_info := None |} 400, Some game')
  end end end end end.

(** [reset_game]: the engine's [reset_game] returns a dict with a message
    and the board, the player and the status of the object after the
    reset. *)
Definition reset_game (game : Main.InfiniteTicTacToe)
    : Response Reset.t * Main.InfiniteTicTacToe :=
  let game' := Main.reset_game game in
  (Data {| Reset.message := "Game reset successfully";
           Reset.board := Main._get_board_state game';
           Reset.current_player := Main.current_player game';
           Reset.game_status := Main.game_status game';
           Reset.blur_info :=
             {| BlurInfo.current_player := Main.current_player game';
                BlurInfo.should_blur := false;
                BlurInfo.piece_to_blur := None |} |} 200,
   game').

Definition get_players_info (game : Main.InfiniteTicTacToe) : Response Players.t :=
  match
    state ← Main.get_game_state game;
    moves_x ← Main.State.player_moves state !! "X";
    moves_y ← Main.State.player_moves state !! "Y";
    Some {| Players.current_player := Main.State.current_player state;
            Players.player_piece_counts :=
              (Z.of_nat (length moves_x), Z.of_nat (length moves_y));
            Players.total_moves := Main.State.total_moves state;
            Players.oldest_pieces := Main.State.oldest_pieces state;
            Players.will_remove_next := Main.State.will_remove_next state |}
  with
  | Some data => Data data 200
  | None => ServerError "Error getting player info: "
  end.

(** Request bodies that are [null], an integer, or an object whose values
    are integers or [null], with what Python does on them: [null], [0] and
    the empty object are false; [in] and indexing by a string work on
    objects only, a missing key raises KeyError and the rest TypeError;
    [int] is the identity on integers and raises TypeError on the rest. *)
Inductive Body :=
| Null
| Int (z : Z)
| Object (fields : Py.dict string (option Z)).

#[global] Instance Body_value : PyValue Body := {|
  truth data :=
    match data with
    | Null => false
    | Int z => bool_decide (z ≠ 0)
    | Object fields => bool_decide (fields ≠ [])
    end;
  has_key key data :=
    match data with
    | Object fields => Fine (Py.contains fields key)
    | _ => Raises ValueError_or_TypeError
    end;
  item data key :=
    match data with
    | Object fields =>
        match Py.dict_getitem fields key with
        | Some (Some z) => Fine (Int z)
        | Some None => Fine Null
        | None => Raises OtherException
        end
    | _ => Raises ValueError_or_TypeError
    end;
  to_int v :=
    match v with
    | Int z => Fine z
    | _ => Raises ValueError_or_TypeError
    end
|}.

(** The body [{"row": row, "col": col}]. *)
Definition body_of (row col : Z) : Try Body :=
  Fine (Object [("row", Some row); ("col", Some col)]).

End Flask.
(** ** Facts about the Python primitives *)

Section Grid.
Context {A : Type}.
Implicit Types (g : list (list A)) (r c : Z) (v : A).

Lemma wf_grid_explicit g :
  wf_grid g →
  ∃ a0 a1 a2 a3 a4 a5 a6 a7 a8,
    g = [[a0; a1; a2]; [a3; a4; a5]; [a6; a7; a8]].
Proof.
  intros [Hlen Hrows].
  destruct g as [|r0 [|r1 [|r2 [|? ?]]]]; try discriminate.
  apply Forall_cons in Hrows as [H0 Hrows].
  apply Forall_cons in Hrows as [H1 Hrows].
  apply Forall_cons in Hrows as [H2 _].
  destruct r0 as [|? [|? [|? [|? ?]]]]; try discriminate.
  destruct r1 as [|? [|? [|? [|? ?]]]]; try discriminate.
  destruct r2 as [|? [|? [|? [|? ?]]]]; try discriminate.
  by eexists _, _, _, _, _, _, _, _, _.
Qed.

Lemma explicit_wf_grid (a0 a1 a2 a3 a4 a5 a6 a7 a8 : A) :
  wf_grid [[a0; a1; a2]; [a3; a4; a5]; [a6; a7; a8]].
Proof. split; [done|]. by repeat constructor. Qed.

Lemma in_range_all_cells r c : in_range r c ↔ (r, c) ∈ all_cells.
Proof.
  unfold in_range, all_cells. split.
  - intros [Hr Hc].
    assert (r = 0 ∨ r = 1 ∨ r = 2) as Hr' by lia.
    assert (c = 0 ∨ c = 1 ∨ c = 2) as Hc' by lia.
    clear Hr Hc. destruct Hr' as [-> | [-> | ->]], Hc' as [-> | [-> | ->]]; set_solver.
  - rewrite !elem_of_cons, elem_of_nil.
    intros H; repeat destruct H as [H|H]; try done; simplify_eq; lia.
Qed.

Lemma getitem2_wf g r c :
  wf_grid g → in_range r c → is_Some (Py.getitem2 g r c).
Proof.
  intros (a0&a1&a2&a3&a4&a5&a6&a7&a8&->)%wf_grid_explicit Hin%in_range_all_cells.
  unfold all_cells in Hin. rewrite !elem_of_cons, elem_of_nil in Hin.
  repeat destruct Hin as [Hin|Hin]; try done; simplify_eq; by eexists.
Qed.

(** [g[r][c] = v] on a 3x3 grid with [r], [c] in range: it succeeds, the
    grid stays 3x3, and exactly the cell [(r, c)] changes. *)
Lemma setitem2_wf `{!EqDecision A} g r c v :
  wf_grid g → in_range r c →
  ∃ g', Py.setitem2 g r c v = Some g' ∧ wf_grid g' ∧
    ∀ r' c', in_range r' c' →
      Py.getitem2 g' r' c' =
        if decide ((r', c') = (r, c)) then Some v else Py.getitem2 g r' c'.
Proof.
  intros (a0&a1&a2&a3&a4&a5&a6&a7&a8&->)%wf_grid_explicit Hin%in_range_all_cells.
  unfold all_cells in Hin. rewrite !elem_of_cons, elem_of_nil in Hin.
  repeat destruct Hin as [Hin|Hin]; try done; simplify_eq;
    (eexists; split; [reflexivity|]; split; [apply explicit_wf_grid|];
     intros r' c' Hin'%in_range_all_cells;
     unfold all_cells in Hin'; rewrite !elem_of_cons, elem_of_nil in Hin';
     repeat destruct Hin' as [Hin'|Hin']; try done; simplify_eq; reflexivity).
Qed.

(** The nine reads of an explicit grid. *)
Lemma getitem2_explicit (a0 a1 a2 a3 a4 a5 a6 a7 a8 : A) :
  let g := [[a0; a1; a2]; [a3; a4; a5]; [a6; a7; a8]] in
  Py.getitem2 g 0 0 = Some a0 ∧ Py.getitem2 g 0 1 = Some a1 ∧
  Py.getitem2 g 0 2 = Some a2 ∧ Py.getitem2 g 1 0 = Some a3 ∧
  Py.getitem2 g 1 1 = Some a4 ∧ Py.getitem2 g 1 2 = Some a5 ∧
  Py.getitem2 g 2 0 = Some a6 ∧ Py.getitem2 g 2 1 = Some a7 ∧
  Py.getitem2 g 2 2 = Some a8.
Proof. by repeat split. Qed.

(** Two 3x3 grids with the same cells are the same grid. *)
Lemma wf_grid_ext g g' :
  wf_grid g → wf_grid g' →
  (∀ r c, in_range r c → Py.getitem2 g r c = Py.getitem2 g' r c) → g = g'.
Proof.
  intros (a0&a1&a2&a3&a4&a5&a6&a7&a8&->)%wf_grid_explicit.
  intros (b0&b1&b2&b3&b4&b5&b6&b7&b8&->)%wf_grid_explicit Hext.
  assert (∀ r c, (r, c) ∈ all_cells →
    Py.getitem2 [[a0; a1; a2]; [a3; a4; a5]; [a6; a7; a8]] r c =
    Py.getitem2 [[b0; b1; b2]; [b3; b4; b5]; [b6; b7; b8]] r c) as H.
  { intros r c Hin. by apply Hext, in_range_all_cells. }
  unfold all_cells in H.
  pose proof (H 0 0 ltac:(set_solver)) as [= ->].
  pose proof (H 0 1 ltac:(set_solver)) as [= ->].
  pose proof (H 0 2 ltac:(set_solver)) as [= ->].
  pose proof (H 1 0 ltac:(set_solver)) as [= ->].
  pose proof (H 1 1 ltac:(set_solver)) as [= ->].
  pose proof (H 1 2 ltac:(set_solver)) as [= ->].
  pose proof (H 2 0 ltac:(set_solver)) as [= ->].
  pose proof (H 2 1 ltac:(set_solver)) as [= ->].
  pose proof (H 2 2 ltac:(set_solver)) as [= ->].
  done.
Qed.

End Grid.

(** Reading a cell of a grid mapped by [f]. *)
Lemma getitem_fmap {A B} (f : A → B) (l : list A) i :
  Py.getitem (f <$> l) i = f <$> Py.getitem l i.
Proof.
  unfold Py.getitem. rewrite length_fmap.
  destruct (Py.norm_index _ _); simpl; [|done]. by rewrite list_lookup_fmap.
Qed.

Lemma getitem2_fmap {A B} (f : A → B) (g : list (list A)) r c :
  Py.getitem2 (fmap (M:=list) (fmap (M:=list) f) g) r c = f <$> Py.getitem2 g r c.
Proof.
  unfold Py.getitem2. rewrite getitem_fmap.
  destruct (Py.getitem g r) as [row|]; simpl; [|done]. apply getitem_fmap.
Qed.

Lemma wf_grid_fmap {A B} (f : A → B) (g : list (list A)) :
  wf_grid g → wf_grid (fmap (M:=list) (fmap (M:=list) f) g).
Proof.
  intros (a0&a1&a2&a3&a4&a5&a6&a7&a8&->)%wf_grid_explicit. apply explicit_wf_grid.
Qed.



(** ** Lines of the board *)

Section Lines.
Context {A : Type} `{!EqDecision A}.
Implicit Types (g : list (list A)) (v : A) (l : list (Z * Z)).

Lemma lines_in_range l rc : l ∈ lines → rc ∈ l → in_range rc.1 rc.2.
Proof.
  intros Hl Hrc. apply in_range_all_cells. destruct rc as [r c]. simpl.
  unfold lines, rows, columns, diagonal, anti_diagonal in Hl. simpl in Hl.
  rewrite !elem_of_cons, elem_of_nil in Hl.
  repeat destruct Hl as [Hl|Hl]; try done; subst l;
    rewrite !elem_of_cons, elem_of_nil in Hrc;
    repeat destruct Hrc as [Hrc|Hrc]; try done; simplify_eq; set_solver.
Qed.

(** A line depends only on the cells in range. *)
Lemma has_line_mono g g' v :
  (∀ r c, in_range r c → Py.getitem2 g r c = Some v → Py.getitem2 g' r c = Some v) →
  has_line g v → has_line g' v.
Proof.
  intros Hext. unfold has_line. rewrite !Exists_exists.
  intros (l & Hl & Hown). exists l. split; [done|].
  unfold owns in *. rewrite Forall_forall in Hown |- *.
  intros rc Hrc. apply Hext; [by eapply lines_in_range|]. by apply Hown.
Qed.

Lemma NoDup_all_cells : NoDup all_cells.
Proof. unfold all_cells. by apply (bool_decide_unpack _). Qed.

End Lines.

Lemma filter_ext_elem {A} (P Q : A → Prop)
    `{!∀ x, Decision (P x), !∀ x, Decision (Q x)} (l : list A) :
  (∀ x, x ∈ l → P x ↔ Q x) → filter P l = filter Q l.
Proof.
  induction l as [|x l IH]; intros Hext; [done|].
  rewrite !filter_cons. rewrite IH by (intros y Hy; apply Hext; by right).
  destruct (decide (P x)) as [HP|HP], (decide (Q x)) as [HQ|HQ]; try done.
  - destruct HQ. apply Hext; [by left|done].
  - destruct HP. apply Hext; [by left|done].
Qed.

Section Loops.
Context {A R : Type}.

Lemma norm_index_nonneg (n : nat) (i : Z) :
  0 ≤ i < Z.of_nat n → Py.norm_index n i = Some (Z.to_nat i).
Proof. intros. unfold Py.norm_index. by rewrite bool_decide_true. Qed.

Lemma getitem_0 (x : A) l : Py.getitem (x :: l) 0 = Some x.
Proof.
  unfold Py.getitem. rewrite norm_index_nonneg; [done|]. simpl length. lia.
Qed.

Lemma pop_0 (x : A) l : Py.pop (x :: l) 0 = Some (x, l).
Proof.
  unfold Py.pop. rewrite norm_index_nonneg; [done|]. simpl length. lia.
Qed.

(** [all(...)] over decidable tests is the conjunction of the tests. *)
Lemma all_gen_Forall (f : A → option bool) (P : A → Prop)
    `{!∀ x, Decision (P x)} xs :
  (∀ x, x ∈ xs → f x = Some (bool_decide (P x))) →
  Py.all_gen f xs = Some (bool_decide (Forall P xs)).
Proof.
  induction xs as [|x xs IH]; intros Hf; cbn [Py.all_gen Py.for_return].
  - by rewrite bool_decide_true.
  - rewrite Hf by set_solver. cbn [mbind option_bind]. destruct (decide (P x)) as [Hx|Hx].
    + rewrite bool_decide_true by done. rewrite IH by set_solver.
      f_equal. apply bool_decide_ext. rewrite Forall_cons. tauto.
    + rewrite bool_decide_false by done.
      rewrite bool_decide_false; [done|]. rewrite Forall_cons. tauto.
Qed.

(** A loop that returns the constant [r] at the first element passing a
    decidable test, and goes on to [rest] when there is none. *)
Lemma for_return_Exists (body : A → option (option R)) (P : A → Prop)
    `{!∀ x, Decision (P x)} (r : R) xs rest :
  (∀ x, x ∈ xs → body x = Some (if bool_decide (P x) then Some r else None)) →
  Py.for_return body xs rest = if bool_decide (Exists P xs) then Some r else rest.
Proof.
  induction xs as [|x xs IH]; intros Hf; cbn [Py.all_gen Py.for_return].
  - rewrite bool_decide_false; [done|]. by intros ?%Exists_nil.
  - rewrite Hf by set_solver. cbn [mbind option_bind]. destruct (decide (P x)) as [Hx|Hx].
    + rewrite bool_decide_true by done. cbn [mbind option_bind].
      rewrite bool_decide_true; [done|]. by left.
    + rewrite bool_decide_false by done. cbn [mbind option_bind]. rewrite IH by set_solver.
      destruct (decide (Exists P xs)) as [He|He].
      * rewrite !bool_decide_true; [done| |done]. by right.
      * rewrite !bool_decide_false; [done| |done]. rewrite Exists_cons. tauto.
Qed.

End Loops.

(** ** The first engine (src/backend/game_logic.py) *)

Module BackendFacts.
Import Backend.

Lemma value_inj p q : value p = value q → p = q.
Proof. by destruct p, q. Qed.

Lemma is_valid_move_spec self row col :
  wf_grid (board self) →
  is_valid_move self row col = Some (bool_decide (valid self row col)).
Proof.
  intros Hwf. unfold is_valid_move.
  destruct (decide (valid self row col)) as [(Hst & Hin & Hv)|Hno].
  - rewrite (bool_decide_true (valid _ _ _)) by done.
    destruct Hin as [Hr Hc].
    rewrite (bool_decide_false (_ ≠ IN_PROGRESS)) by (by intros []).
    rewrite !(bool_decide_false (_ < 0)), !(bool_decide_false (_ > 2)) by lia.
    rewrite Hv. cbn [mbind option_bind].
    by rewrite bool_decide_false by (intros H; by apply H).
  - rewrite (bool_decide_false (valid _ _ _)) by done.
    case_bool_decide as Hst; [done|].
    destruct (decide (in_range row col)) as [Hin|Hout].
    + destruct (Hin) as [Hr Hc].
      rewrite !(bool_decide_false (_ < 0)), !(bool_decide_false (_ > 2)) by lia.
      destruct (getitem2_wf _ _ _ Hwf Hin) as [v Hv]. rewrite Hv.
      cbn [mbind option_bind]. case_bool_decide as Hne; [done|].
      exfalso. apply Hno. unfold valid. by subst.
    + unfold in_range in Hout.
      repeat case_bool_decide; simpl; try done. lia.
Qed.

Lemma is_symbol_spec (b : list (list string)) (s : string) r c :
  wf_grid b → in_range r c →
  (v ← Py.getitem2 b r c; Some (bool_decide (v = s)))
  = Some (bool_decide (Py.getitem2 b r c = Some s)).
Proof.
  intros Hwf Hin. destruct (getitem2_wf _ _ _ Hwf Hin) as [v ->]. simpl.
  f_equal. apply bool_decide_ext. naive_solver.
Qed.

Lemma _check_win_spec b player :
  wf_grid b →
  _check_win b player = Some (bool_decide (has_line b (value player))).
Proof.
  intros Hwf. unfold _check_win.
  set (s := value player).
  assert (∀ l, l ∈ lines →
    Py.all_gen (λ rc, v ← Py.getitem2 b rc.1 rc.2; Some (bool_decide (v = s))) l
    = Some (bool_decide (owns b s l))) as Hline.
  { intros l Hl. apply all_gen_Forall. intros rc Hrc.
    apply is_symbol_spec; [done|]. by eapply lines_in_range. }
  assert (∀ {B} (f : B → Z * Z) xs g,
    (∀ x, g x = (v ← Py.getitem2 b (f x).1 (f x).2; Some (bool_decide (v = s)))) →
    Py.all_gen g xs =
    Py.all_gen (λ rc, v ← Py.getitem2 b rc.1 rc.2; Some (bool_decide (v = s))) (f <$> xs))
    as Hmap.
  { intros B f xs g Hg. induction xs as [|x xs IH]; simpl; [done|].
    rewrite Hg. destruct (Py.getitem2 b (f x).1 (f x).2) as [v|]; simpl; [|done].
    destruct (bool_decide (v = s)); [apply IH|done]. }
  rewrite (for_return_Exists _ (λ row, owns b s ((λ c, (row, c)) <$> Py.range3)) true).
  2:{ intros row Hrow. rewrite (Hmap _ (λ c, (row, c))) by (intros; reflexivity).
      rewrite Hline; [done|].
      unfold lines, rows. rewrite elem_of_app. left.
      by apply (list_elem_of_fmap_2 (λ r, (λ c, (r, c)) <$> Py.range3)). }
  rewrite (for_return_Exists _ (λ col, owns b s ((λ r, (r, col)) <$> Py.range3)) true).
  2:{ intros col Hcol. rewrite (Hmap _ (λ r, (r, col))) by (intros; reflexivity).
      rewrite Hline; [done|].
      unfold lines, columns. rewrite !elem_of_app. right; left.
      by apply (list_elem_of_fmap_2 (λ c, (λ r, (r, c)) <$> Py.range3)). }
  rewrite (Hmap _ (λ i, (i, i)) _
    (λ i, v ← Py.getitem2 b i i; Some (bool_decide (v = s)))) by (intros; reflexivity).
  rewrite (Hmap _ (λ i, (i, 2 - i)) _
    (λ i, v ← Py.getitem2 b i (2 - i); Some (bool_decide (v = s)))) by (intros; reflexivity).
  rewrite !Hline by (unfold lines; set_solver).
  cbn [mbind option_bind].
  change ((λ i, (i, i)) <$> Py.range3) with diagonal.
  change ((λ i, (i, 2 - i)) <$> Py.range3) with anti_diagonal.
  assert (has_line b s ↔
    Exists (λ row, owns b s ((λ c, (row, c)) <$> Py.range3)) Py.range3 ∨
    Exists (λ col, owns b s ((λ r, (r, col)) <$> Py.range3)) Py.range3 ∨
    owns b s diagonal ∨ owns b s anti_diagonal) as Hhl.
  { unfold has_line, lines, rows, columns.
    rewrite !Exists_app, !Exists_cons, Exists_nil, !Exists_fmap. simpl. tauto. }
  repeat case_bool_decide; first [done | exfalso; tauto].
Qed.

(** [_check_draw] answers whether no cell is empty. *)
Lemma _check_draw_spec b :
  wf_grid b →
  _check_draw b =
    Some (bool_decide (Forall (λ rc, Py.getitem2 b rc.1 rc.2 ≠ Some (value EMPTY)) all_cells)).
Proof.
  intros Hwf. unfold _check_draw.
  set (P := λ row col : Z, Py.getitem2 b row col = Some (value EMPTY)).
  assert (∀ row col, Decision (P row col)) as HP by (intros; unfold P; apply _).
  rewrite (for_return_Exists _ (λ row, Exists (P row) Py.range3) false).
  2:{ intros row Hrow.
      rewrite (for_return_Exists _ (P row) (Some false)).
      - by case_bool_decide.
      - intros col Hcol.
        assert (in_range row col) as Hin.
        { unfold Py.range3 in Hrow, Hcol.
          rewrite !elem_of_cons, elem_of_nil in Hrow, Hcol. unfold in_range. lia. }
        destruct (getitem2_wf _ _ _ Hwf Hin) as [v Hv].
        destruct (decide (P row col)) as [Hp|Hp].
        + rewrite (bool_decide_true _ Hp). unfold P in Hp. rewrite Hp.
          cbn [mbind option_bind]. by rewrite bool_decide_true.
        + rewrite (bool_decide_false _ Hp). unfold P in Hp. rewrite Hv in Hp |- *.
          cbn [mbind option_bind]. rewrite bool_decide_false; [done|]. congruence. }
  assert (Forall (λ rc, Py.getitem2 b rc.1 rc.2 ≠ Some (value EMPTY)) all_cells
          ↔ ¬ Exists (λ row, Exists (P row) Py.range3) Py.range3) as Hiff.
  { unfold all_cells, Py.range3, P.
    rewrite !Forall_cons, Forall_nil, !Exists_cons, !Exists_nil. simpl. tauto. }
  repeat case_bool_decide; first [done | exfalso; tauto].
Qed.

Lemma make_move_rejected self row col :
  wf_grid (board self) → ¬ valid self row col →
  make_move self row col = Some (false, self).
Proof.
  intros Hwf Hno. unfold make_move.
  rewrite is_valid_move_spec by done. by rewrite (bool_decide_false _ Hno).
Qed.

Lemma make_move_accepted self row col :
  consistent self → valid self row col →
  ∃ self', make_move self row col = Some (true, self') ∧ placed self row col self'.
Proof.
  intros Hc Hv. pose proof Hv as (Hst & Hin & Hempty).
  unfold make_move. rewrite is_valid_move_spec by apply Hc.
  rewrite (bool_decide_true _ Hv). cbn [mbind option_bind negb].
  pose proof (cons_player _ Hc) as Hp.
  pose proof (cons_range _ Hc (current_player self)) as Hrange.
  destruct self as [b hx ho p st];
    cbn [board move_history_x move_history_o current_player state] in *.
  assert (∀ h : list (Z * Z), (∀ rc, rc ∈ h → in_range rc.1 rc.2) →
    ∃ b1,
      (if bool_decide (3 ≤ length h)%nat then
         '(oldest_row, oldest_col) ← Py.getitem h 0;
         board' ← Py.setitem2 b oldest_row oldest_col (value EMPTY);
         popped ← Py.pop h 0;
         Some (board', popped.2)
       else Some (b, h))
      = Some (b1, if bool_decide (3 ≤ length h)%nat then tail h else h) ∧
      wf_grid b1 ∧
      ∀ r c, in_range r c →
        Py.getitem2 b1 r c =
          if decide ((if bool_decide (3 ≤ length h)%nat then head h else None) = Some (r, c))
          then Some (value EMPTY) else Py.getitem2 b r c) as Htrim.
  { intros h Hh. case_bool_decide as Hlen.
    - destruct h as [|[er ec] rest]; [simpl in Hlen; lia|].
      rewrite getitem_0, pop_0. cbn [mbind option_bind].
      destruct (setitem2_wf b er ec (value EMPTY)) as (b1 & -> & Hwf1 & Hb1).
      { apply Hc. } { apply (Hh (er, ec)). by left. }
      exists b1. split; [done|]. split; [done|].
      intros r c Hrc. rewrite Hb1 by done. simpl.
      repeat case_decide; naive_solver.
    - exists b. split; [done|]. split; [apply Hc|].
      intros r c Hrc. by rewrite decide_False. }
  assert (∀ b1 hx' ho',
    wf_grid b1 →
    ∃ b2 st',
      (board2 ← Py.setitem2 b1 row col (value p);
       win ← _check_win board2 p;
       state' ←
         (if win : bool then Some (if bool_decide (p = X) then X_WINS else O_WINS)
          else draw ← _check_draw board2; Some (if draw : bool then DRAW else st));
       Some (true, mkGame board2 hx' ho' (if bool_decide (p = X) then O else X) state'))
      = Some (true, mkGame b2 hx' ho' (switch p) st') ∧
      wf_grid b2 ∧
      (∀ r c, in_range r c →
         Py.getitem2 b2 r c =
           if decide ((r, c) = (row, col)) then Some (value p) else Py.getitem2 b1 r c) ∧
      st' = if decide (has_line b2 (value p)) then wins p
            else if decide (full b2) then DRAW else st) as Hplace.
  { intros b1 hx' ho' Hwf1.
    destruct (setitem2_wf b1 row col (value p) Hwf1 Hin) as (b2 & -> & Hwf2 & Hb2).
    cbn [mbind option_bind].
    rewrite _check_win_spec by done. cbn [mbind option_bind].
    rewrite _check_draw_spec by done.
    eexists b2, _. split; [|split; [done|split; [done|reflexivity]]].
    unfold wins, switch, full.
    destruct (decide (has_line b2 (value p))) as [Hl|Hl].
    - by rewrite (bool_decide_true _ Hl).
    - rewrite (bool_decide_false _ Hl). cbn [mbind option_bind].
      by destruct (decide _) as [Hf|Hf];
        [rewrite (bool_decide_true _ Hf)|rewrite (bool_decide_false _ Hf)]. }
  cbv zeta. cbn [board move_history_x move_history_o current_player state].
  destruct p; [| |done].
  - rewrite !(bool_decide_true (X = X)) by done.
    destruct (Htrim hx) as (b1 & -> & Hwf1 & Hb1).
    { intros rc Hrc. apply Hrange. by simpl. }
    cbn [mbind option_bind].
    destruct (Hplace b1
      ((if bool_decide (3 ≤ length hx)%nat then tail hx else hx) ++ [(row, col)]) ho Hwf1)
      as (b2 & st' & Heq & Hwf2 & Hb2 & Hst').
    eexists. split; [exact Heq|].
    split; simpl; try done.
    + intros r c Hrc. rewrite Hb2, Hb1 by done. done.
    + by intros [].
  - rewrite !(bool_decide_false (O = X)) by done.
    destruct (Htrim ho) as (b1 & -> & Hwf1 & Hb1).
    { intros rc Hrc. apply Hrange. by simpl. }
    cbn [mbind option_bind].
    destruct (Hplace b1 hx
      ((if bool_decide (3 ≤ length ho)%nat then tail ho else ho) ++ [(row, col)]) Hwf1)
      as (b2 & st' & Heq & Hwf2 & Hb2 & Hst').
    eexists. split; [exact Heq|].
    split; simpl; try done.
    + intros r c Hrc. rewrite Hb2, Hb1 by done. done.
    + by intros [].
Qed.

Lemma vanishing_kept self :
  consistent self →
  let h := get_move_history self (current_player self) in
  (∃ e, vanishing self = Some e ∧ h = e :: kept self ∧ length h = 3%nat) ∨
  (vanishing self = None ∧ kept self = h ∧ (length h < 3)%nat).
Proof.
  intros Hc h. pose proof (cons_length _ Hc (current_player self)) as Hlen.
  unfold vanishing, kept. fold h in Hlen |- *.
  case_bool_decide as H3.
  - left. destruct h as [|e rest]; [simpl in H3; lia|].
    exists e. simpl in *. repeat split; lia.
  - right. repeat split; lia.
Qed.

(** A board whose marks are all recorded in two histories of at most three
    entries has an empty cell. *)
Lemma marks_not_full b hx ho :
  (∀ r c, in_range r c → ∃ p, Py.getitem2 b r c = Some (value p)) →
  (∀ r c, in_range r c → Py.getitem2 b r c = Some (value X) → (r, c) ∈ hx) →
  (∀ r c, in_range r c → Py.getitem2 b r c = Some (value O) → (r, c) ∈ ho) →
  (length hx ≤ 3)%nat → (length ho ≤ 3)%nat →
  ¬ full b.
Proof.
  intros Hcells Hx Ho Hlx Hlo Hfull.
  assert (all_cells ⊆+ hx ++ ho) as Hsub.
  { apply NoDup_submseteq; [apply NoDup_all_cells|].
    intros [r c] Hrc. pose proof Hrc as Hin%in_range_all_cells.
    unfold full in Hfull. rewrite Forall_forall in Hfull. specialize (Hfull _ Hrc).
    destruct (Hcells r c Hin) as [[] Hp]; simpl in Hfull; rewrite elem_of_app.
    - left. by apply Hx.
    - right. by apply Ho.
    - done. }
  apply submseteq_length in Hsub. rewrite length_app in Hsub.
  unfold all_cells in Hsub. simpl in Hsub. lia.
Qed.

Lemma switch_not_empty p : switch p ≠ EMPTY.
Proof. unfold switch. by case_bool_decide. Qed.

Lemma wins_not_in_progress p : wins p ≠ IN_PROGRESS.
Proof. unfold wins. by case_bool_decide. Qed.

(** The history of any player after an accepted move. *)
Lemma placed_history self row col self' q :
  placed self row col self' →
  get_move_history self' q =
    if decide (q = current_player self) then kept self ++ [(row, col)]
    else get_move_history self q.
Proof.
  intros Hp. case_decide as Hq.
  - subst. apply Hp.
  - by apply Hp.
Qed.

(** An accepted move keeps board and histories in agreement. *)
Lemma placed_consistent self row col self' :
  consistent self → valid self row col → placed self row col self' →
  consistent self'.
Proof.
  intros Hc (Hst & Hin & Hempty) Hp.
  set (p := current_player self) in *.
  set (h := get_move_history self p) in *.
  assert (p ≠ EMPTY) as Hpne by apply (cons_player _ Hc).
  pose proof (vanishing_kept self Hc) as Hvk. fold p h in Hvk. cbv zeta in Hvk.
  pose proof (cons_nodup _ Hc p) as Hnd. fold h in Hnd.
  assert (∀ rc, rc ∈ kept self → rc ∈ h) as Hkept.
  { intros rc Hrc. destruct Hvk as [(e & _ & -> & _)|(_ & <- & _)]; [by right|done]. }
  assert ((row, col) ∉ h) as Htarget.
  { intros Hh. apply (cons_marks _ Hc p) in Hh; [|done|done].
    rewrite Hempty in Hh. injection Hh as Hh. by apply (value_inj EMPTY p) in Hh. }
  assert (∀ r c, in_range r c → vanishing self = Some (r, c) →
          (r, c) ∈ h ∧ ((r, c) ∉ kept self) ∧ (r, c) ≠ (row, col)) as Hvan.
  { intros r c Hrc Hv. destruct Hvk as [(e & He & Hh & _)|(He & _)]; [|congruence].
    rewrite Hv in He. injection He as <-.
    assert ((r, c) ∈ h) as Hrch by (rewrite Hh; by left).
    split; [done|]. split.
    - rewrite Hh in Hnd. by apply NoDup_cons in Hnd as [? _].
    - intros Heq. by rewrite Heq in Hrch. }
  assert (∀ rc, rc ∈ h → vanishing self ≠ Some rc → rc ∈ kept self) as Hstay.
  { intros rc Hrc Hv. destruct Hvk as [(e & He & Hh & _)|(_ & -> & _)]; [|done].
    rewrite Hh in Hrc. apply elem_of_cons in Hrc as [->|?]; [congruence|done]. }
  assert (∀ q r c, q ≠ EMPTY → in_range r c →
    Py.getitem2 (board self') r c = Some (value q) ↔ (r, c) ∈ get_move_history self' q)
    as Hmarks.
  { intros q r c Hq Hrc.
    rewrite (placed_board _ _ _ _ Hp) by done.
    rewrite (placed_history _ _ _ _ q Hp). fold p.
    pose proof (cons_marks _ Hc q r c Hq Hrc) as Hold.
    pose proof (cons_marks _ Hc p r c Hpne Hrc) as Holdp. fold h in Holdp.
    destruct (decide ((r, c) = (row, col))) as [Heq|Hne].
    - injection Heq as -> ->. rewrite Hempty in Hold.
      destruct (decide (q = p)) as [->|Hqp].
      + split; [|done]. intros _. apply elem_of_app. right. by left.
      + split.
        * intros [=Heq%value_inj]. by subst.
        * intros Hin'. apply Hold in Hin'. injection Hin' as Hv.
          by apply (value_inj EMPTY q) in Hv.
    - destruct (decide (vanishing self = Some (r, c))) as [Hv|Hv].
      + destruct (Hvan r c Hrc Hv) as (Hh & Hk & _).
        split; [intros [=Heq%(value_inj EMPTY)]; by subst|].
        intros Hin'. exfalso. destruct (decide (q = p)) as [->|Hqp].
        * apply elem_of_app in Hin' as [?|Hin']; [done|].
          by apply list_elem_of_singleton in Hin'.
        * apply Hold in Hin'. apply Holdp in Hh. rewrite Hh in Hin'.
          injection Hin' as Heq%value_inj. by subst.
      + rewrite Hold. destruct (decide (q = p)) as [->|Hqp]; [|done].
        fold h. rewrite elem_of_app, list_elem_of_singleton.
        split; [intros ?; left; by apply Hstay|].
        intros [?|?]; [by apply Hkept|done]. }
  assert (∀ q, (length (get_move_history self' q) ≤ 3)%nat) as Hlen.
  { intros q. rewrite (placed_history _ _ _ _ q Hp). fold p.
    case_decide; [|apply (cons_length _ Hc)].
    rewrite length_app. simpl.
    destruct Hvk as [(e & _ & Hh & Hl)|(_ & -> & Hl)]; [|lia].
    rewrite Hh in Hl. simpl in Hl. lia. }
  assert (∀ r c, in_range r c → ∃ q, Py.getitem2 (board self') r c = Some (value q))
    as Hcells.
  { intros r c Hrc. rewrite (placed_board _ _ _ _ Hp) by done.
    repeat case_decide; [by exists p|by exists EMPTY|by apply (cons_cells _ Hc)]. }
  assert (¬ full (board self')) as Hnf.
  { apply (marks_not_full _ (get_move_history self' X) (get_move_history self' O));
      [done| | |apply Hlen|apply Hlen].
    - intros r c Hrc. by apply (Hmarks X).
    - intros r c Hrc. by apply (Hmarks O). }
  split.
  - apply Hp.
  - done.
  - done.
  - intros q rc. rewrite (placed_history _ _ _ _ q Hp). fold p.
    case_decide; [|apply (cons_range _ Hc)].
    rewrite elem_of_app, list_elem_of_singleton. intros [Hk| ->]; [|done].
    apply (cons_range _ Hc p). by apply Hkept.
  - intros q. rewrite (placed_history _ _ _ _ q Hp). fold p.
    case_decide; [|apply (cons_nodup _ Hc)].
    apply NoDup_app. split; [|split; [|apply NoDup_singleton]].
    + destruct Hvk as [(e & _ & Hh & _)|(_ & -> & _)]; [|done].
      rewrite Hh in Hnd. by apply NoDup_cons in Hnd as [_ ?].
    + intros rc Hk ->%list_elem_of_singleton. by apply Htarget, Hkept.
  - done.
  - rewrite (placed_player _ _ _ _ Hp). apply switch_not_empty.
  - pose proof (placed_state _ _ _ _ Hp) as Hst'. fold p in Hst'.
    rewrite (decide_False (P:=full _)) in Hst' by done.
    intros Hip q Hq Hline.
    destruct (decide (has_line (board self') (value p))) as [Hw|Hw].
    { rewrite Hip in Hst'. symmetry in Hst'. by apply wins_not_in_progress in Hst'. }
    destruct (decide (q = p)) as [->|Hqp]; [done|].
    apply (cons_quiet _ Hc Hst q Hq).
    revert Hline. apply has_line_mono. intros r c Hrc.
    rewrite (placed_board _ _ _ _ Hp) by done. fold p.
    repeat case_decide; [|intros [=Heq%(value_inj EMPTY)]; by subst|done].
    intros [=Heq%value_inj]. by subst.
  - pose proof (placed_state _ _ _ _ Hp) as Hst'. fold p in Hst'.
    rewrite (decide_False (P:=full _)) in Hst' by done.
    rewrite Hst'. case_decide; [|by rewrite Hst].
    unfold wins. by case_bool_decide.
Qed.

(** [make_move] never raises on a consistent object, and it either
    rejects the move and leaves the object alone, or places the piece. *)
Lemma make_move_cases self row col :
  consistent self →
  (¬ valid self row col ∧ make_move self row col = Some (false, self)) ∨
  (valid self row col ∧
   ∃ self', make_move self row col = Some (true, self') ∧ placed self row col self').
Proof.
  intros Hc. destruct (decide (valid self row col)) as [Hv|Hv].
  - right. split; [done|]. by apply make_move_accepted.
  - left. split; [done|]. apply make_move_rejected; [apply (cons_wf _ Hc)|done].
Qed.

Lemma init_consistent : consistent init.
Proof.
  split; try done.
  - apply explicit_wf_grid.
  - intros r c Hin%in_range_all_cells. exists EMPTY.
    unfold all_cells in Hin. rewrite !elem_of_cons, elem_of_nil in Hin.
    repeat destruct Hin as [Hin|Hin]; try done; by simplify_eq.
  - intros p r c Hp Hin%in_range_all_cells.
    unfold all_cells in Hin. rewrite !elem_of_cons, elem_of_nil in Hin.
    assert (get_move_history init p = []) as -> by (by destruct p).
    rewrite elem_of_nil.
    repeat destruct Hin as [Hin|Hin]; try done; simplify_eq;
      (split; [|done]); intros [=Heq%(value_inj EMPTY)]; by subst.
  - intros p rc. assert (get_move_history init p = []) as -> by (by destruct p).
    by rewrite elem_of_nil.
  - intros p. assert (get_move_history init p = []) as -> by (by destruct p).
    constructor.
  - intros p. assert (get_move_history init p = []) as -> by (by destruct p).
    simpl. lia.
  - intros _ p Hp Hl. revert Hl. unfold has_line.
    apply (bool_decide_unpack (¬ _)). by destruct p.
Qed.

Lemma make_move_consistent self row col ok self' :
  consistent self → make_move self row col = Some (ok, self') → consistent self'.
Proof.
  intros Hc Hmv.
  destruct (make_move_cases self row col Hc) as [(_ & Heq)|(Hv & s & Heq & Hp)];
    rewrite Heq in Hmv; simplify_eq; [done|].
  by eapply placed_consistent.
Qed.

Theorem reachable_consistent self : reachable self → consistent self.
Proof.
  induction 1 as [|self row col ok self' _ IH Hmv|self _ _].
  - apply init_consistent.
  - by eapply make_move_consistent.
  - apply init_consistent.
Qed.

(** A sequence of attempts on a consistent object runs to its end. *)
Lemma play_total self moves :
  consistent self →
  ∃ oks self', play self moves = Some (oks, self') ∧ consistent self'.
Proof.
  revert self. induction moves as [|[row col] moves IH]; intros self Hc.
  - by exists [], self.
  - simpl.
    destruct (make_move_cases self row col Hc) as [(_ & ->)|(Hv & s & -> & Hp)];
      cbn [mbind option_bind].
    + destruct (IH self Hc) as (oks & self' & -> & Hc'). by eexists _, _.
    + assert (consistent s) as Hs by (by eapply placed_consistent).
      destruct (IH s Hs) as (oks & self' & -> & Hc'). by eexists _, _.
Qed.

Lemma consistent_not_full self : consistent self → ¬ full (board self).
Proof.
  intros Hc.
  apply (marks_not_full _ (get_move_history self X) (get_move_history self O)).
  - apply (cons_cells _ Hc).
  - intros r c Hrc. by apply (cons_marks _ Hc X).
  - intros r c Hrc. by apply (cons_marks _ Hc O).
  - apply (cons_length _ Hc).
  - apply (cons_length _ Hc).
Qed.

(** After an accepted move the player who did not move owns no line. *)
Lemma placed_opponent_quiet self row col self' q :
  consistent self → valid self row col → placed self row col self' →
  q ≠ EMPTY → q ≠ current_player self → ¬ has_line (board self') (value q).
Proof.
  intros Hc (Hst & Hin & Hempty) Hp Hq Hqp Hline.
  apply (cons_quiet _ Hc Hst q Hq).
  revert Hline. apply has_line_mono. intros r c Hrc.
  rewrite (placed_board _ _ _ _ Hp) by done.
  repeat case_decide; [|intros [=Heq%(value_inj EMPTY)]; by subst|done].
  intros [=Heq%value_inj]. by subst.
Qed.

(** The state after an accepted move: the mover wins or nothing changes. *)
Lemma placed_state_cases self row col self' :
  consistent self → valid self row col → placed self row col self' →
  state self' =
    if decide (has_line (board self') (value (current_player self)))
    then wins (current_player self) else state self.
Proof.
  intros Hc Hv Hp. rewrite (placed_state _ _ _ _ Hp).
  case_decide; [done|]. rewrite decide_False; [done|].
  apply consistent_not_full. by eapply placed_consistent.
Qed.

(** The cells holding a player's symbol are that player's history, each
    entry once. *)
Lemma consistent_cells_with self p :
  consistent self → p ≠ EMPTY →
  cells_with (board self) (value p) ≡ₚ get_move_history self p.
Proof.
  intros Hc Hp. apply NoDup_Permutation.
  - apply NoDup_filter, NoDup_all_cells.
  - apply (cons_nodup _ Hc).
  - intros [r c]. unfold cells_with. rewrite list_elem_of_filter. simpl.
    rewrite <- in_range_all_cells. split.
    + intros [Hcell Hin]. by apply (cons_marks _ Hc p).
    + intros Hin. pose proof (cons_range _ Hc p _ Hin) as Hrc. simpl in Hrc.
      split; [|done]. by apply (cons_marks _ Hc p).
Qed.

(** The occupied cells are the two histories together, each entry once. *)
Lemma consistent_occupied self :
  consistent self →
  occupied (board self) (value EMPTY) ≡ₚ move_history_x self ++ move_history_o self.
Proof.
  intros Hc.
  pose proof (cons_nodup _ Hc X) as Hnx. pose proof (cons_nodup _ Hc O) as Hno.
  pose proof (cons_range _ Hc X) as Hrx. pose proof (cons_range _ Hc O) as Hro.
  pose proof (cons_marks _ Hc X) as Hmx. pose proof (cons_marks _ Hc O) as Hmo.
  unfold get_move_history in *. simpl in *.
  apply NoDup_Permutation.
  - apply NoDup_filter, NoDup_all_cells.
  - apply NoDup_app. split; [done|]. split; [|done].
    intros [r c] Hx Ho.
    pose proof (Hrx _ Hx) as Hin. simpl in Hin.
    apply Hmx in Hx; [|done|done]. apply Hmo in Ho; [|done|done]. congruence.
  - intros [r c]. unfold occupied. rewrite list_elem_of_filter, elem_of_app. simpl.
    rewrite <- in_range_all_cells. split.
    + intros [Hcell Hin]. destruct (cons_cells _ Hc r c Hin) as [[] Hq].
      * left. by apply Hmx.
      * right. by apply Hmo.
      * done.
    + intros [Hx|Ho].
      * pose proof (Hrx _ Hx) as Hin. simpl in Hin. split; [|done].
        apply Hmx in Hx; [|done|done]. by rewrite Hx.
      * pose proof (Hro _ Ho) as Hin. simpl in Hin. split; [|done].
        apply Hmo in Ho; [|done|done]. by rewrite Ho.
Qed.

Lemma play_reachable self moves oks self' :
  reachable self → play self moves = Some (oks, self') → reachable self'.
Proof.
  revert self oks. induction moves as [|[row col] moves IH]; intros self oks Hr.
  - by intros [= _ <-].
  - simpl. destruct (make_move self row col) as [[ok s]|] eqn:Hmv; [|done].
    cbn [mbind option_bind].
    destruct (play s moves) as [[oks' s']|] eqn:Hpl; [|done].
    cbn [mbind option_bind]. intros [= _ <-].
    eapply IH; [|done]. by eapply reachable_move.
Qed.

Lemma placed_vanish_effect self row col self' :
  consistent self → valid self row col → placed self row col self' →
  vanish_effect
    (get_move_history self (current_player self))
    (get_move_history self' (current_player self))
    (Py.getitem2 (board self)) (Py.getitem2 (board self'))
    (value (current_player self)) (value EMPTY) row col.
Proof.
  intros Hc Hv Hp. pose proof (vanishing_kept self Hc) as Hvk. cbv zeta in Hvk.
  rewrite (placed_mover _ _ _ _ Hp).
  split.
  - intros Hlen. destruct Hvk as [(e & He & Hh & _)|(_ & _ & ?)]; [|lia].
    exists e, (kept self). split; [done|]. split; [done|]. split.
    + rewrite Hh in Hlen. rewrite length_app. simpl in *. lia.
    + intros r c Hrc. rewrite (placed_board _ _ _ _ Hp) by done. rewrite He.
      repeat case_decide; simplify_eq; done.
  - intros Hlen. destruct Hvk as [(e & _ & _ & ?)|(He & -> & _)]; [lia|].
    split; [done|]. split; [rewrite length_app; simpl; lia|].
    intros r c Hrc. rewrite (placed_board _ _ _ _ Hp) by done. rewrite He.
    repeat case_decide; simplify_eq; done.
Qed.

(** Whatever the object, a [False] from [make_move] comes with the object
    as it was: every other return is [True]. *)
Lemma make_move_false self row col self' :
  make_move self row col = Some (false, self') → self' = self.
Proof.
  unfold make_move.
  destruct (is_valid_move self row col) as [[|]|]; cbn [mbind option_bind negb];
    [|by intros [= <-]|done].
  destruct (if bool_decide (3 ≤ _)%nat then _ else _) as [[b1 h1]|];
    cbn [mbind option_bind]; [|done].
  destruct (Py.setitem2 b1 row col _) as [b2|]; cbn [mbind option_bind]; [|done].
  destruct (_check_win b2 _) as [win|]; cbn [mbind option_bind]; [|done].
  destruct (if win then _ else _) as [st|]; cbn [mbind option_bind]; done.
Qed.

(** Whatever the object, once the state is not [IN_PROGRESS] a move is
    rejected before the board is looked at. *)
Lemma make_move_concluded self row col :
  state self ≠ IN_PROGRESS → make_move self row col = Some (false, self).
Proof.
  intros Hst. unfold make_move, is_valid_move.
  by rewrite (bool_decide_true _ Hst).
Qed.

Lemma play_concluded self moves :
  state self ≠ IN_PROGRESS →
  play self moves = Some (replicate (length moves) false, self).
Proof.
  intros Hst. induction moves as [|[row col] moves IH]; [done|].
  cbn [play]. rewrite make_move_concluded by done. cbn [mbind option_bind].
  by rewrite IH.
Qed.

Lemma switch_neq p : p ≠ EMPTY → switch p ≠ p.
Proof. by destruct p. Qed.

(** The turn after a run: switched once per accepted attempt. *)
Lemma play_player self moves oks self' :
  consistent self → play self moves = Some (oks, self') →
  current_player self' = Nat.iter (successes oks) switch (current_player self).
Proof.
  revert self oks. induction moves as [|[row col] moves IH]; intros self oks Hc.
  - by intros [= <- <-].
  - cbn [play].
    destruct (make_move_cases self row col Hc) as [(_ & ->)|(Hv & s & -> & Hp)];
      cbn [mbind option_bind].
    + destruct (play self moves) as [[oks' s']|] eqn:Hpl; [|done].
      cbn [mbind option_bind]. intros [= <- <-].
      unfold successes. rewrite filter_cons_False by done. by apply IH.
    + destruct (play s moves) as [[oks' s']|] eqn:Hpl; [|done].
      cbn [mbind option_bind]. intros [= <- <-].
      rewrite (IH s oks' (placed_consistent _ _ _ _ Hc Hv Hp) Hpl).
      rewrite (placed_player _ _ _ _ Hp).
      unfold successes. rewrite filter_cons_True by done. cbn [length].
      by rewrite Nat.iter_succ_r.
Qed.

Lemma iter_switch_X n :
  Nat.iter n switch X = if Nat.even n then X else O.
Proof.
  induction n as [|n IH]; [done|].
  rewrite Nat.even_succ, <- Nat.negb_even. simpl. rewrite IH.
  by destruct (Nat.even n).
Qed.


End BackendFacts.

(** ** The second engine (src/Back-End-Game-Logic/game_logic_main.py) *)

Module MainFacts.
Import Main.

Lemma getitem_3_0 {A} (a b c : A) : Py.getitem [a; b; c] 0 = Some a.
Proof. reflexivity. Qed.
Lemma getitem_3_1 {A} (a b c : A) : Py.getitem [a; b; c] 1 = Some b.
Proof. reflexivity. Qed.
Lemma getitem_3_2 {A} (a b c : A) : Py.getitem [a; b; c] 2 = Some c.
Proof. reflexivity. Qed.

Lemma three_equal_true (x y z : cell) :
  three_equal x y z = true → ∃ s, x = Some s ∧ y = Some s ∧ z = Some s.
Proof.
  unfold three_equal. rewrite !andb_true_iff, !bool_decide_eq_true.
  intros [[-> ->] Hz]. destruct z as [s|]; [by exists s|done].
Qed.

Lemma three_equal_same (s : string) : three_equal (Some s) (Some s) (Some s) = true.
Proof. unfold three_equal. by rewrite !bool_decide_true. Qed.

Lemma row_test (x y z : cell) :
  (if bool_decide (x = y)
   then Some (if bool_decide (y = z) && bool_decide (x ≠ None) then Some x else None)
   else Some None)
  = Some (if three_equal x y z then Some x else None).
Proof. unfold three_equal. by repeat case_bool_decide. Qed.

Lemma column_test (x y z : cell) :
  (if bool_decide (x = y)
   then if bool_decide (y = z)
        then if bool_decide (x ≠ None) then Some (Some x) else Some None
        else Some None
   else Some None)
  = Some (if three_equal x y z then Some x else None).
Proof. unfold three_equal. by repeat case_bool_decide. Qed.

Lemma diagonal_test (x y z : cell) :
  (if bool_decide (x = y)
   then if bool_decide (y = z) then Some (bool_decide (x ≠ None)) else Some false
   else Some false)
  = Some (three_equal x y z).
Proof. unfold three_equal. by repeat case_bool_decide. Qed.

Local Arguments three_equal : simpl never.

Lemma _check_winner_spec b :
  wf_grid b → _check_winner b = Some (first_winner b lines).
Proof.
  intros (a0&a1&a2&a3&a4&a5&a6&a7&a8&->)%wf_grid_explicit.
  unfold _check_winner, Py.getitem2. cbn [Py.for_return Py.range3].
  rewrite ?getitem_3_0, ?getitem_3_1, ?getitem_3_2. cbn [mbind option_bind].
  rewrite ?getitem_3_0, ?getitem_3_1, ?getitem_3_2. cbn [mbind option_bind].
  rewrite !row_test, !column_test, !diagonal_test.
  cbn [mbind option_bind].
  unfold lines, rows, columns, diagonal, anti_diagonal.
  cbn [first_winner fmap list_fmap Py.range3 app]. unfold line_winner.
  cbn [fmap list_fmap fst snd]. change (2 - 0) with 2. change (2 - 1) with 1.
  change (2 - 2) with 0.
  destruct (getitem2_explicit a0 a1 a2 a3 a4 a5 a6 a7 a8)
    as (-> & -> & -> & -> & -> & -> & -> & -> & ->).
  repeat lazymatch goal with
  | |- context [three_equal ?x ?y ?z] =>
      let E := fresh "E" in
      destruct (three_equal x y z) eqn:E;
      [apply three_equal_true in E as (? & -> & -> & ->); reflexivity|]
  end.
  reflexivity.
Qed.

(** A winner shown by a scan of some of the eight lines owns a line. *)
Lemma first_winner_Some b ls s :
  first_winner b ls = Some s → ∃ l, l ∈ ls ∧ owns b (Some s) l.
Proof.
  induction ls as [|l ls IH]; [done|]. simpl.
  destruct (line_winner b l) as [w|] eqn:Hl.
  - intros [= ->]. exists l. split; [by left|].
    unfold line_winner in Hl.
    destruct l as [|[r0 c0] [|[r1 c1] [|[r2 c2] [|? ?]]]]; simpl in Hl;
      repeat (case_match; simplify_eq); try done.
    match goal with H : three_equal _ _ _ = true |- _ =>
      apply three_equal_true in H as (? & ? & ? & ?) end.
    simplify_eq. by repeat constructor.
  - intros (l' & ? & ?)%IH. exists l'. split; [by right|done].
Qed.

(** A scan of lines of the board that shows no winner: no symbol owns one
    of them. *)
Lemma first_winner_None b ls s l :
  ls ⊆ lines → first_winner b ls = None → l ∈ ls → ¬ owns b (Some s) l.
Proof.
  induction ls as [|l0 ls IH]; [by intros _ _ ?%elem_of_nil|].
  intros Hsub. simpl. destruct (line_winner b l0) as [w|] eqn:Hl0; [done|].
  intros Hfw [->|Hin]%elem_of_cons; [|apply IH; set_solver].
  assert (l0 ∈ lines) as Hlines by set_solver.
  intros Hown. clear IH Hsub Hfw.
  unfold lines, rows, columns, diagonal, anti_diagonal in Hlines. simpl in Hlines.
  rewrite !elem_of_cons, elem_of_nil in Hlines.
  unfold line_winner in Hl0.
  repeat destruct Hlines as [Hlines|Hlines]; try done; subst l0;
    unfold owns in Hown; rewrite !Forall_cons in Hown;
    destruct Hown as (H0 & H1 & H2 & _); simpl in *;
    rewrite H0, H1, H2, three_equal_same in Hl0; done.
Qed.

Lemma _is_valid_position_spec row col :
  _is_valid_position row col = bool_decide (in_range row col).
Proof.
  unfold _is_valid_position, in_range.
  repeat case_bool_decide; simpl; first [done | lia].
Qed.

Lemma _is_board_full_spec b :
  wf_grid b →
  _is_board_full b =
    Some (bool_decide (Forall (λ rc, Py.getitem2 b rc.1 rc.2 ≠ Some None) all_cells)).
Proof.
  intros Hwf. unfold _is_board_full.
  rewrite (for_return_Exists _ (λ row : list cell, Exists (λ c, c = None) row) false).
  2:{ intros row _.
      rewrite (for_return_Exists _ (λ c : cell, c = None) (Some false)); [|done].
      by case_bool_decide. }
  destruct (wf_grid_explicit _ Hwf) as (a0&a1&a2&a3&a4&a5&a6&a7&a8&->).
  assert (Forall (λ rc, Py.getitem2 [[a0; a1; a2]; [a3; a4; a5]; [a6; a7; a8]] rc.1 rc.2
                        ≠ Some None) all_cells
          ↔ ¬ Exists (λ row : list cell, Exists (λ c, c = None) row)
                [[a0; a1; a2]; [a3; a4; a5]; [a6; a7; a8]]) as Hiff.
  { unfold all_cells.
    rewrite !Forall_cons, Forall_nil, !Exists_cons, !Exists_nil. cbn [fst snd].
    destruct (getitem2_explicit a0 a1 a2 a3 a4 a5 a6 a7 a8)
      as (-> & -> & -> & -> & -> & -> & -> & -> & ->).
    intuition congruence. }
  repeat case_bool_decide; first [done | exfalso; tauto].
Qed.

Lemma _get_board_state_id self : _get_board_state self = board self.
Proof. unfold _get_board_state. apply list_fmap_id. Qed.

(** Whatever the object, a failure from [make_move] comes with the object
    as it was. *)
Lemma make_move_failure self row col res self' :
  make_move self row col = Some (res, self') → success res = false → self' = self.
Proof.
  unfold make_move.
  destruct (negb (_is_valid_position row col)); [by intros [= <- <-]|].
  destruct (Py.getitem2 (board self) row col) as [target|];
    cbn [mbind option_bind]; [|done].
  destruct (bool_decide (target ≠ None)); [by intros [= <- <-]|].
  destruct (bool_decide (game_status self ≠ "ongoing")); [by intros [= <- <-]|].
  destruct (Py.setitem2 _ _ _ _) as [b1|]; cbn [mbind option_bind]; [|done].
  destruct (player_moves self !! current_player self) as [moves|];
    cbn [mbind option_bind]; [|done].
  destruct (_ !! current_player self) as [moves1|]; cbn [mbind option_bind]; [|done].
  destruct (if bool_decide (3 < _)%nat then _ else _) as [[[b2 pm2] removed]|];
    cbn [mbind option_bind]; [|done].
  destruct (_check_winner b2) as [winner|]; cbn [mbind option_bind]; [|done].
  destruct (if truthy winner then Some _ else _) as [status|];
    cbn [mbind option_bind]; [|done].
  intros [= <- <-]. simpl. discriminate.
Qed.

End MainFacts.

(** ** The two engines step together *)

Module RefinementFacts.
Import Refinement BackendFacts MainFacts.

Lemma cell_of_value p :
  cell_of (Backend.value p) =
    if decide (p = Backend.EMPTY) then None else Some (player_of p).
Proof. by destruct p. Qed.

Lemma player_of_inj p q :
  p ≠ Backend.EMPTY → q ≠ Backend.EMPTY → player_of p = player_of q → p = q.
Proof. by destruct p, q. Qed.

Lemma lookup_rename (hx ho : list (Z * Z)) p :
  p ≠ Backend.EMPTY →
  (<["Y" := ho]> (<["X" := hx]> ∅) : gmap string (list (Z * Z))) !! player_of p
  = Some (if bool_decide (p = Backend.X) then hx else ho).
Proof. intros Hp. by destruct p. Qed.

Lemma insert_rename (hx ho h : list (Z * Z)) p :
  p ≠ Backend.EMPTY →
  <[player_of p := h]> (<["Y" := ho]> (<["X" := hx]> ∅) : gmap string (list (Z * Z)))
  = <["Y" := if bool_decide (p = Backend.X) then ho else h]>
      (<["X" := if bool_decide (p = Backend.X) then h else hx]> ∅).
Proof.
  intros Hp. destruct p; [| |done].
  - rewrite insert_insert_ne by done. by rewrite insert_insert_eq.
  - by rewrite insert_insert_eq.
Qed.

(** A line of the renamed board is a line of the original board. *)
Lemma owns_rename b q l :
  q ≠ Backend.EMPTY →
  owns b (Backend.value q) l →
  owns (fmap (M:=list) (fmap (M:=list) cell_of) b) (Some (player_of q)) l.
Proof.
  intros Hq. unfold owns. rewrite !Forall_forall. intros Hown rc Hrc.
  rewrite getitem2_fmap, (Hown rc Hrc). simpl.
  rewrite cell_of_value. by rewrite decide_False.
Qed.

Lemma owns_rename_inv b s l :
  (∀ r c, in_range r c → ∃ p, Py.getitem2 b r c = Some (Backend.value p)) →
  l ∈ lines →
  owns (fmap (M:=list) (fmap (M:=list) cell_of) b) (Some s) l →
  ∃ q, q ≠ Backend.EMPTY ∧ s = player_of q ∧ owns b (Backend.value q) l.
Proof.
  intros Hcells Hl Hown.
  assert (∀ rc, rc ∈ l →
    ∃ q, q ≠ Backend.EMPTY ∧ s = player_of q ∧
         Py.getitem2 b rc.1 rc.2 = Some (Backend.value q)) as Hall.
  { intros rc Hrc. unfold owns in Hown. rewrite Forall_forall in Hown.
    specialize (Hown rc Hrc). rewrite getitem2_fmap in Hown.
    destruct (Hcells rc.1 rc.2) as [q Hq]; [by eapply lines_in_range|].
    rewrite Hq in Hown. simpl in Hown. rewrite cell_of_value in Hown.
    case_decide; [done|]. exists q. by simplify_eq. }
  assert (∃ rc, rc ∈ l) as [rc0 Hrc0].
  { unfold lines, rows, columns, diagonal, anti_diagonal in Hl. simpl in Hl.
    rewrite !elem_of_cons, elem_of_nil in Hl.
    repeat destruct Hl as [Hl|Hl]; try done; subst l; eexists; by left. }
  destruct (Hall rc0 Hrc0) as (q & Hq & -> & _).
  exists q. split; [done|]. split; [done|].
  unfold owns. rewrite Forall_forall. intros rc Hrc.
  destruct (Hall rc Hrc) as (q' & Hq' & Heq & ->).
  by apply player_of_inj in Heq as ->.
Qed.

(** The winner the second engine finds on the renamed board, when at most
    the player [p] owns a line of the original board. *)
Lemma first_winner_rename b p ls :
  (∀ r c, in_range r c → ∃ q, Py.getitem2 b r c = Some (Backend.value q)) →
  p ≠ Backend.EMPTY →
  (∀ q, q ≠ Backend.EMPTY → q ≠ p → ¬ has_line b (Backend.value q)) →
  ls ≡ₚ lines →
  Main.first_winner (fmap (M:=list) (fmap (M:=list) cell_of) b) ls =
    if decide (has_line b (Backend.value p)) then Some (player_of p) else None.
Proof.
  intros Hcells Hp Hquiet Hperm.
  assert (∀ l, l ∈ ls ↔ l ∈ lines) as Hls by (intros l; by rewrite Hperm).
  destruct (Main.first_winner _ ls) as [s|] eqn:Hfw.
  - apply first_winner_Some in Hfw as (l & Hl%Hls & Hown).
    apply owns_rename_inv in Hown as (q & Hq & -> & Hown); [|done|done].
    assert (has_line b (Backend.value q)) as Hline.
    { unfold has_line. rewrite Exists_exists. by exists l. }
    destruct (decide (q = p)) as [->|Hqp]; [by rewrite decide_True|].
    by destruct (Hquiet q Hq Hqp).
  - rewrite decide_False; [done|].
    unfold has_line. rewrite Exists_exists. intros (l & Hl & Hown).
    eapply (first_winner_None _ ls (player_of p) l); [|done| |].
    + intros l' Hl'. by apply Hls.
    + by apply Hls.
    + by apply owns_rename.
Qed.

Lemma status_of_ongoing st : status_of st = "ongoing" ↔ st = Backend.IN_PROGRESS.
Proof. by destruct st. Qed.

(** The three rejections of the second engine, on the renaming of a
    consistent object: out of range, then occupied, then game over. *)
Lemma main_rejected g n row col :
  Backend.consistent g →
  (¬ in_range row col →
   Main.make_move (rename g n) row col =
     Some (Main.Failure "Invalid position. Row and column must be between 0-2."
             (Main._get_board_state (rename g n)), rename g n)) ∧
  (in_range row col →
   Py.getitem2 (Backend.board g) row col ≠ Some (Backend.value Backend.EMPTY) →
   Main.make_move (rename g n) row col =
     Some (Main.Failure "Position already occupied."
             (Main._get_board_state (rename g n)), rename g n)) ∧
  (in_range row col →
   Py.getitem2 (Backend.board g) row col = Some (Backend.value Backend.EMPTY) →
   Backend.state g ≠ Backend.IN_PROGRESS →
   Main.make_move (rename g n) row col =
     Some (Main.Failure ("Game is over. Status: " +:+ status_of (Backend.state g))
             (Main._get_board_state (rename g n)), rename g n)).
Proof.
  intros Hc. unfold Main.make_move. rewrite _is_valid_position_spec.
  split; [|split].
  - intros Hout. by rewrite (bool_decide_false _ Hout).
  - intros Hin Hocc. rewrite (bool_decide_true _ Hin). cbn [negb].
    cbn [rename Main.board]. rewrite getitem2_fmap.
    destruct (Backend.cons_cells _ Hc row col Hin) as [q Hq].
    rewrite Hq. cbn [fmap option_fmap option_map mbind option_bind].
    rewrite cell_of_value.
    destruct (decide (q = Backend.EMPTY)) as [->|Hqe]; [done|].
    by rewrite bool_decide_true.
  - intros Hin Hempty Hst. rewrite (bool_decide_true _ Hin). cbn [negb].
    cbn [rename Main.board Main.game_status]. rewrite getitem2_fmap, Hempty.
    cbn [fmap option_fmap option_map mbind option_bind].
    rewrite (bool_decide_false (_ ≠ None)) by (intros H; by apply H).
    rewrite bool_decide_true; [done|]. by rewrite status_of_ongoing.
Qed.

(** A move the first engine rejects is rejected by the second one, which
    leaves its object alone as well. *)
Lemma sim_rejected g n row col :
  Backend.consistent g → ¬ Backend.valid g row col →
  ∃ msg, Main.make_move (rename g n) row col =
           Some (Main.Failure msg (Main._get_board_state (rename g n)), rename g n).
Proof.
  intros Hc Hno. destruct (main_rejected g n row col Hc) as (H1 & H2 & H3).
  destruct (decide (in_range row col)) as [Hin|Hout]; [|by eexists; apply H1].
  destruct (decide (Py.getitem2 (Backend.board g) row col
                    = Some (Backend.value Backend.EMPTY))) as [He|He];
    [|by eexists; apply H2].
  eexists. apply H3; [done|done|]. intros Hst. by apply Hno.
Qed.

(** A move the first engine accepts is accepted by the second one, and the
    two objects still correspond. *)
Lemma sim_accepted g n row col g' :
  Backend.consistent g → Backend.valid g row col → Backend.placed g row col g' →
  Main.make_move (rename g n) row col =
    Some (Main.Success "Move successful"
            (Main._get_board_state (rename g' (n + 1)))
            (Backend.vanishing g)
            (player_of (Backend.current_player g'))
            (status_of (Backend.state g'))
            (if decide (has_line (Backend.board g')
                                 (Backend.value (Backend.current_player g)))
             then Some (player_of (Backend.current_player g)) else None),
          rename g' (n + 1)).
Proof.
  intros Hc Hv Hp. pose proof Hv as (Hst & Hin & Hempty).
  pose proof (placed_consistent _ _ _ _ Hc Hv Hp) as Hc'.
  set (p := Backend.current_player g).
  assert (p ≠ Backend.EMPTY) as Hpne by apply (Backend.cons_player _ Hc).
  unfold Main.make_move.
  rewrite _is_valid_position_spec, (bool_decide_true _ Hin). cbn [negb].
  cbn [rename Main.board Main.game_status Main.current_player Main.player_moves
       Main.total_moves].
  fold p. rewrite (lookup_rename _ _ p Hpne).
  rewrite getitem2_fmap, Hempty.
  cbn [fmap option_fmap option_map mbind option_bind].
  rewrite (bool_decide_false (_ ≠ None)) by (intros H; by apply H).
  rewrite Hst. rewrite (bool_decide_false (_ ≠ "ongoing")) by (intros H; by apply H).
  fold p.
  set (h := if bool_decide (p = Backend.X)
            then Backend.move_history_x g else Backend.move_history_o g).
  assert (Backend.get_move_history g p = h) as Hh.
  { unfold Backend.get_move_history, h. destruct p; done. }
  set (t := (row, col)).
  (* the histories of the renamed successor *)
  assert (<[player_of p := Backend.kept g ++ [t]]>
            (<["Y" := Backend.move_history_o g]>
               (<["X" := Backend.move_history_x g]> (∅ : gmap string (list (Z * Z)))) : gmap string (list (Z * Z)))
          = <["Y" := Backend.move_history_o g']>
              (<["X" := Backend.move_history_x g']> (∅ : gmap string (list (Z * Z))))) as Hpm.
  { rewrite insert_rename by done.
    pose proof (placed_history _ _ _ _ Backend.X Hp) as HX.
    pose proof (placed_history _ _ _ _ Backend.O Hp) as HO.
    fold p in HX, HO. unfold Backend.get_move_history in HX, HO. simpl in HX, HO.
    rewrite HX, HO. destruct p; done. }
  (* the board of the renamed successor *)
  pose proof (vanishing_kept g Hc) as Hvk. fold p in Hvk. cbv zeta in Hvk.
  rewrite Hh in Hvk.
  assert (t ∉ h) as Htarget.
  { rewrite <- Hh. intros Hin'. apply (Backend.cons_marks _ Hc p) in Hin'; [|done|done].
    rewrite Hempty in Hin'. injection Hin' as Heq.
    by apply (value_inj Backend.EMPTY p) in Heq. }
  destruct (setitem2_wf (fmap (M:=list) (fmap (M:=list) cell_of) (Backend.board g))
              row col (Some (player_of p)))
    as (b1 & -> & Hwf1 & Hb1); [apply wf_grid_fmap, (Backend.cons_wf _ Hc)|done|].
  cbn [mbind option_bind]. rewrite !lookup_insert_eq. cbn [mbind option_bind].
  assert (∃ b2,
    (if bool_decide (3 < length (h ++ [t]))%nat
     then
       popped ← Py.pop (h ++ [t]) 0;
       board' ← Py.setitem2 b1 popped.1.1 popped.1.2 None;
       Some (board',
             <[player_of p := popped.2]>
               (<[player_of p := h ++ [t]]>
                  (<["Y" := Backend.move_history_o g]>
                     (<["X" := Backend.move_history_x g]> (∅ : gmap string (list (Z * Z)))))),
             Some popped.1)
     else
       Some (b1,
             <[player_of p := h ++ [t]]>
               (<["Y" := Backend.move_history_o g]>
                  (<["X" := Backend.move_history_x g]> (∅ : gmap string (list (Z * Z))))),
             None))
    = Some (b2,
            <["Y" := Backend.move_history_o g']> (<["X" := Backend.move_history_x g']> (∅ : gmap string (list (Z * Z)))),
            Backend.vanishing g) ∧
    wf_grid b2 ∧
    ∀ r c, in_range r c →
      Py.getitem2 b2 r c =
        if decide (Backend.vanishing g = Some (r, c)) then Some None
        else if decide ((r, c) = t) then Some (Some (player_of p))
        else cell_of <$> Py.getitem2 (Backend.board g) r c) as (b2 & -> & Hwf2 & Hb2).
  { rewrite length_app. simpl.
    destruct Hvk as [(e & He & Hhe & Hl)|(He & Hk & Hl)].
    - rewrite bool_decide_true by lia.
      rewrite Hhe. simpl.
      destruct (setitem2_wf b1 e.1 e.2 None) as (b2 & -> & Hwf2 & Hb2); [done| |].
      { apply (Backend.cons_range _ Hc p). rewrite Hh, Hhe. by left. }
      exists b2. split; [|split; [done|]].
      + cbn [mbind option_bind]. rewrite insert_insert_eq, Hpm, He.
        by destruct e.
      + intros r c Hrc. rewrite Hb2, Hb1 by done. rewrite He, getitem2_fmap.
        destruct e as [er ec]. simpl.
        repeat case_decide; simplify_eq; done.
    - rewrite bool_decide_false by lia. exists b1. split; [|split; [done|]].
      + by rewrite <- Hk, Hpm, He.
      + intros r c Hrc. rewrite Hb1 by done. rewrite He, getitem2_fmap.
        rewrite (decide_False (P:=None = Some _)) by done. reflexivity. }
  assert (b2 = fmap (M:=list) (fmap (M:=list) cell_of) (Backend.board g')) as ->.
  { apply wf_grid_ext; [done|apply wf_grid_fmap, (Backend.cons_wf _ Hc')|].
    intros r c Hrc. rewrite Hb2, getitem2_fmap by done.
    rewrite (Backend.placed_board _ _ _ _ Hp) by done. fold p.
    destruct (decide (Backend.vanishing g = Some (r, c))) as [Hvan|Hvan].
    - assert ((r, c) ≠ (row, col)) as Hne.
      { intros Heq. apply Htarget. unfold t. rewrite <- Heq.
        destruct Hvk as [(e & He & -> & _)|(He & _)]; [|congruence].
        rewrite Hvan in He. injection He as <-. by left. }
      rewrite (decide_False (P:=(r, c) = (row, col))) by done.
      reflexivity.
    - unfold t. destruct (decide ((r, c) = (row, col))); [|done].
      simpl. rewrite cell_of_value. by rewrite decide_False. }
  cbn [mbind option_bind].
  rewrite (_check_winner_spec _ (wf_grid_fmap _ _ (Backend.cons_wf _ Hc'))).
  rewrite (first_winner_rename _ p lines); [|apply (Backend.cons_cells _ Hc')|done| |done].
  2:{ intros q Hq Hqp. exact (placed_opponent_quiet g row col g' q Hc Hv Hp Hq Hqp). }
  cbn [mbind option_bind].
  rewrite (_is_board_full_spec _ (wf_grid_fmap _ _ (Backend.cons_wf _ Hc'))).
  assert (¬ Forall (λ rc, Py.getitem2 (fmap (M:=list) (fmap (M:=list) cell_of)
                                         (Backend.board g')) rc.1 rc.2 ≠ Some None)
                   all_cells) as Hnf.
  { intros Hfull. apply (consistent_not_full _ Hc').
    unfold Backend.full. rewrite Forall_forall in Hfull |- *.
    intros rc Hrc Hcell. apply (Hfull rc Hrc).
    by rewrite getitem2_fmap, Hcell. }
  rewrite (bool_decide_false _ Hnf).
  pose proof (placed_state_cases _ _ _ _ Hc Hv Hp) as Hst'. fold p in Hst'.
  pose proof (Backend.placed_player _ _ _ _ Hp) as Hpl. fold p in Hpl.
  unfold rename. rewrite Hst', Hpl, Hst.
  destruct (decide (has_line (Backend.board g') (Backend.value p))) as [Hw|Hw];
    destruct p; try done; reflexivity.
Qed.

(** One attempt on corresponding objects: both engines return, agree on
    the flag, and the objects correspond afterwards. *)
Theorem sim_step g n row col :
  Backend.consistent g →
  ∃ ok g' res n',
    Backend.make_move g row col = Some (ok, g') ∧
    Main.make_move (rename g n) row col = Some (res, rename g' n') ∧
    Main.success res = ok ∧ Backend.consistent g'.
Proof.
  intros Hc.
  destruct (make_move_cases g row col Hc) as [(Hno & ->)|(Hv & g' & -> & Hp)].
  - destruct (sim_rejected g n row col Hc Hno) as (msg & Hres).
    by eexists false, g, _, n.
  - pose proof (sim_accepted g n row col g' Hc Hv Hp) as Hres.
    eexists true, g', _, (n + 1).
    split; [done|]. split; [exact Hres|]. split; [done|].
    exact (placed_consistent _ _ _ _ Hc Hv Hp).
Qed.

Lemma rename_init : rename Backend.init 0 = Main.init.
Proof. reflexivity. Qed.

(** Every object of the second engine is the renaming of an object of the
    first one. *)
Theorem reachable_rename gB :
  Main.reachable gB → ∃ gA n, Backend.reachable gA ∧ gB = rename gA n.
Proof.
  induction 1 as [|gB row col r gB' _ (gA & n & HrA & ->) Hmv|gB _ _].
  - exists Backend.init, 0. split; [constructor|done].
  - destruct (sim_step gA n row col (reachable_consistent _ HrA))
      as (ok & gA' & res & n' & HA & HB & _ & _).
    rewrite HB in Hmv. injection Hmv as _ <-.
    exists gA', n'. split; [|done]. by eapply Backend.reachable_move.
  - exists (Backend.reset Backend.init), 0. split; [|done].
    apply Backend.reachable_reset. constructor.
Qed.

Lemma main_play_reachable self moves rs self' :
  Main.reachable self → Main.play self moves = Some (rs, self') → Main.reachable self'.
Proof.
  revert self rs. induction moves as [|[row col] moves IH]; intros self rs Hr.
  - by intros [= _ <-].
  - simpl. destruct (Main.make_move self row col) as [[r s]|] eqn:Hmv; [|done].
    cbn [mbind option_bind].
    destruct (Main.play s moves) as [[rs' s']|] eqn:Hpl; [|done].
    cbn [mbind option_bind]. intros [= _ <-].
    eapply IH; [|done]. by eapply Main.reachable_move.
Qed.

(** Both engines run any sequence of attempts to its end, in step. *)
Lemma sim_play g n moves :
  Backend.consistent g →
  ∃ oks g' rs n',
    Backend.play g moves = Some (oks, g') ∧
    Main.play (rename g n) moves = Some (rs, rename g' n') ∧
    Main.success <$> rs = oks.
Proof.
  revert g n. induction moves as [|[row col] moves IH]; intros g n Hc.
  - by exists [], g, [], n.
  - destruct (sim_step g n row col Hc) as (ok & g1 & res & n1 & HA & HB & Hs & Hc1).
    destruct (IH g1 n1 Hc1) as (oks & g' & rs & n' & HA' & HB' & Hs').
    exists (ok :: oks), g', (res :: rs), n'.
    split; [|split].
    + cbn [Backend.play]. rewrite HA. cbn [mbind option_bind]. by rewrite HA'.
    + cbn [Main.play]. rewrite HB. cbn [mbind option_bind]. by rewrite HB'.
    + rewrite fmap_cons. by rewrite Hs, Hs'.
Qed.

Lemma vanish_effect_fmap {V W} (f : V → W) h h' (b b' : list (list V))
    mark empty row col :
  vanish_effect h h' (Py.getitem2 b) (Py.getitem2 b') mark empty row col →
  vanish_effect h h'
    (Py.getitem2 (fmap (M:=list) (fmap (M:=list) f) b))
    (Py.getitem2 (fmap (M:=list) (fmap (M:=list) f) b'))
    (f mark) (f empty) row col.
Proof.
  intros [H3 Hlt]. split.
  - intros Hlen. destruct (H3 Hlen) as (oldest & rest & ? & ? & ? & Hcells).
    exists oldest, rest. repeat split; try done.
    intros r c Hrc. rewrite !getitem2_fmap, Hcells by done. by repeat case_decide.
  - intros Hlen. destruct (Hlt Hlen) as (? & ? & Hcells).
    repeat split; try done.
    intros r c Hrc. rewrite !getitem2_fmap, Hcells by done. by repeat case_decide.
Qed.

(** What the second engine's preconditions say about the first engine's
    object. *)
Lemma rename_valid g n row col :
  Backend.consistent g →
  Main.game_status (rename g n) = "ongoing" → in_range row col →
  Py.getitem2 (Main.board (rename g n)) row col = Some None →
  Backend.valid g row col.
Proof.
  intros Hc Hst%status_of_ongoing Hin Hcell.
  split; [done|]. split; [done|].
  cbn [rename Main.board] in Hcell. rewrite getitem2_fmap in Hcell.
  destruct (Backend.cons_cells _ Hc row col Hin) as [q Hq].
  rewrite Hq in Hcell |- *. simpl in Hcell. rewrite cell_of_value in Hcell.
  by case_decide; simplify_eq.
Qed.

Lemma rename_moves g n :
  Backend.consistent g →
  Main.player_moves (rename g n) !! Main.current_player (rename g n)
  = Some (Backend.get_move_history g (Backend.current_player g)).
Proof.
  intros Hc. pose proof (Backend.cons_player _ Hc) as Hp.
  cbn [rename Main.player_moves Main.current_player].
  rewrite lookup_rename by done. by destruct (Backend.current_player g).
Qed.

Lemma cells_with_rename g p :
  Backend.consistent g → p ≠ Backend.EMPTY →
  cells_with (fmap (M:=list) (fmap (M:=list) cell_of) (Backend.board g))
             (Some (player_of p))
  = cells_with (Backend.board g) (Backend.value p).
Proof.
  intros Hc Hp. unfold cells_with. apply filter_ext_elem.
  intros [r c] Hin%in_range_all_cells. simpl. rewrite getitem2_fmap.
  destruct (Backend.cons_cells _ Hc r c Hin) as [q ->]. simpl.
  rewrite cell_of_value. case_decide as Hq.
  - subst q. split; [done|]. intros [=Heq%(value_inj Backend.EMPTY)]. by subst.
  - split.
    + intros [=Heq%player_of_inj]; [by subst|done|done].
    + intros [=Heq%value_inj]. by subst.
Qed.

Lemma occupied_rename g :
  Backend.consistent g →
  occupied (fmap (M:=list) (fmap (M:=list) cell_of) (Backend.board g)) None
  = occupied (Backend.board g) (Backend.value Backend.EMPTY).
Proof.
  intros Hc. unfold occupied. apply filter_ext_elem.
  intros [r c] Hin%in_range_all_cells. simpl. rewrite getitem2_fmap.
  destruct (Backend.cons_cells _ Hc r c Hin) as [q ->]. simpl.
  rewrite cell_of_value. case_decide as Hq.
  - by subst q.
  - split; [|done]. intros _ [=Heq%(value_inj q Backend.EMPTY)]. by subst.
Qed.

(** One attempt of the second engine on the renaming of a consistent
    object, read back on the first engine. *)
Lemma main_step_inv g n row col res self' :
  Backend.consistent g →
  Main.make_move (rename g n) row col = Some (res, self') →
  (¬ Backend.valid g row col ∧ self' = rename g n ∧
   ∃ msg, res = Main.Failure msg (Main.board (rename g n))) ∨
  (Backend.valid g row col ∧
   ∃ g', Backend.make_move g row col = Some (true, g') ∧
         Backend.placed g row col g' ∧ self' = rename g' (n + 1) ∧
         res = Main.Success "Move successful" (Main.board self')
                 (Backend.vanishing g)
                 (player_of (Backend.current_player g'))
                 (status_of (Backend.state g'))
                 (if decide (has_line (Backend.board g')
                                      (Backend.value (Backend.current_player g)))
                  then Some (player_of (Backend.current_player g)) else None)).
Proof.
  intros Hc Hmv.
  destruct (make_move_cases g row col Hc) as [(Hno & _)|(Hv & g' & HA & Hp)].
  - left. destruct (sim_rejected g n row col Hc Hno) as (msg & Hres).
    rewrite Hres in Hmv. injection Hmv as <- <-.
    split; [done|]. split; [done|]. exists msg. by rewrite _get_board_state_id.
  - right. split; [done|]. exists g'.
    rewrite (sim_accepted g n row col g' Hc Hv Hp) in Hmv. injection Hmv as <- <-.
    by rewrite _get_board_state_id.
Qed.

Lemma status_of_draw st : status_of st = "draw" ↔ st = Backend.DRAW.
Proof. by destruct st. Qed.

(** A line of the renamed board after an accepted move belongs to the
    mover. *)
Lemma has_line_rename_mover g row col g' s :
  Backend.consistent g → Backend.valid g row col → Backend.placed g row col g' →
  has_line (fmap (M:=list) (fmap (M:=list) cell_of) (Backend.board g')) (Some s) →
  s = player_of (Backend.current_player g).
Proof.
  intros Hc Hv Hp Hline.
  pose proof (placed_consistent _ _ _ _ Hc Hv Hp) as Hc'.
  unfold has_line in Hline. rewrite Exists_exists in Hline.
  destruct Hline as (l & Hl & Hown).
  apply owns_rename_inv in Hown as (q & Hq & -> & Hown);
    [|apply (Backend.cons_cells _ Hc')|done].
  destruct (decide (q = Backend.current_player g)) as [->|Hqp]; [done|].
  destruct (placed_opponent_quiet g row col g' q Hc Hv Hp Hq Hqp).
  unfold has_line. rewrite Exists_exists. by exists l.
Qed.

(** The three rejections of the second engine, on its own reachable
    objects. *)
Lemma main_rejections self row col :
  Main.reachable self →
  (¬ in_range row col →
   Main.make_move self row col =
     Some (Main.Failure "Invalid position. Row and column must be between 0-2."
             (Main.board self), self)) ∧
  (in_range row col → Py.getitem2 (Main.board self) row col ≠ Some None →
   Main.make_move self row col =
     Some (Main.Failure "Position already occupied." (Main.board self), self)) ∧
  (in_range row col → Py.getitem2 (Main.board self) row col = Some None →
   Main.game_status self ≠ "ongoing" →
   Main.make_move self row col =
     Some (Main.Failure ("Game is over. Status: " +:+ Main.game_status self)
             (Main.board self), self)).
Proof.
  intros Hr. destruct (reachable_rename _ Hr) as (g & n & Hg & ->).
  pose proof (reachable_consistent _ Hg) as Hc.
  destruct (main_rejected g n row col Hc) as (H1 & H2 & H3).
  rewrite _get_board_state_id in H1, H2, H3.
  split; [done|]. split.
  - intros Hin Hocc. apply H2; [done|]. intros Hcell. apply Hocc.
    cbn [rename Main.board]. by rewrite getitem2_fmap, Hcell.
  - intros Hin Hcell Hst. apply H3; [done| |].
    + cbn [rename Main.board] in Hcell. rewrite getitem2_fmap in Hcell.
      destruct (Backend.cons_cells _ Hc row col Hin) as [q Hq].
      rewrite Hq in Hcell |- *. simpl in Hcell. rewrite cell_of_value in Hcell.
      by case_decide; simplify_eq.
    + intros Hip. apply Hst. cbn [rename Main.game_status]. by rewrite Hip.
Qed.

(** The piece the second engine's own queries announce as the next to go
    is the one the first engine removes. *)
Lemma vanishing_rename g n :
  Backend.consistent g →
  (if default false (Main.will_remove_piece (rename g n) (Main.current_player (rename g n)))
   then Main.get_oldest_piece_for_player (rename g n) (Main.current_player (rename g n))
   else None)
  = Backend.vanishing g.
Proof.
  intros Hc. unfold Main.will_remove_piece, Main.get_oldest_piece_for_player.
  rewrite (rename_moves g n Hc). cbn [mbind option_bind default].
  unfold Backend.vanishing.
  destruct (Backend.get_move_history g (Backend.current_player g)) as [|e h].
  - by rewrite bool_decide_false by (simpl; lia).
  - case_bool_decide; [|done].
    rewrite bool_decide_true by (simpl; lia). by rewrite getitem_0.
Qed.

Lemma status_of_wins p :
  p ≠ Backend.EMPTY → status_of (Backend.wins p) = player_of p +:+ "_wins".
Proof. by destruct p. Qed.

End RefinementFacts.

(** ** Runs *)

(** The demo at the end of src/backend/game_logic.py: O completes the
    anti-diagonal with its third piece, at the sixth move. *)
Example backend_demo :
  Backend.play Backend.init [(0,0); (1,1); (0,1); (0,2); (2,2); (2,0)]
  = Some ([true; true; true; true; true; true],
          Backend.mkGame [["X"; "X"; "O"]; [" "; "O"; " "]; ["O"; " "; "X"]]
            [(0,0); (0,1); (2,2)] [(1,1); (0,2); (2,0)] Backend.X Backend.O_WINS).
Proof. reflexivity. Qed.

(** The seventh move of a game without a winner: X's oldest piece (0,0)
    vanishes. *)
Example backend_seventh_move :
  Backend.make_move Backend.six_moves 1 2
  = Some (true,
          Backend.mkGame [[" "; "X"; " "]; ["O"; "O"; "X"]; ["X"; " "; "O"]]
            [(0,1); (2,0); (1,2)] [(1,1); (2,2); (1,0)] Backend.O Backend.IN_PROGRESS).
Proof. reflexivity. Qed.

(** Python indexing: a negative index counts from the end, and an index
    past either end raises. *)
Example getitem_negative : Py.getitem ["a"; "b"; "c"] (-1) = Some "c".
Proof. reflexivity. Qed.

Example getitem_out_of_range : Py.getitem ["a"; "b"; "c"] 3 = None.
Proof. reflexivity. Qed.

(** ** The claims of the specification *)

(** A game of the first engine in which X and O hold three pieces each and
    nobody has won: X(0,0) O(1,1) X(0,1) O(2,2) X(2,0) O(1,0). *)
Lemma backend_six_moves :
  Backend.play Backend.init [(0,0); (1,1); (0,1); (2,2); (2,0); (1,0)]
  = Some ([true; true; true; true; true; true], Backend.six_moves).
Proof. reflexivity. Qed.

Lemma backend_six_moves_reachable : Backend.reachable Backend.six_moves.
Proof.
  eapply BackendFacts.play_reachable; [constructor|apply backend_six_moves].
Qed.

Lemma main_six_moves_reachable : Main.reachable Main.six_moves.
Proof.
  eapply (RefinementFacts.main_play_reachable Main.init
            [(0,0); (1,1); (0,1); (2,2); (2,0); (1,0)]); [constructor|].
  reflexivity.
Qed.

Lemma main_x_won_reachable : Main.reachable Main.x_won.
Proof.
  eapply (RefinementFacts.main_play_reachable Main.init
            [(0,0); (1,1); (0,1); (1,0); (0,2)]); [constructor|].
  reflexivity.
Qed.

(** C1. In every reachable state in progress, a move to an empty cell in
    range succeeds; when the mover's history holds three entries, exactly its
    head is dropped, exactly that cell is emptied and the new coordinate is
    appended, the history staying at three; when it holds fewer, nothing is
    removed and the history grows by one.  Both engines. *)
Theorem C1_vanish_rule :
  (∀ self row col,
     Backend.reachable self → Backend.state self = Backend.IN_PROGRESS →
     in_range row col →
     Py.getitem2 (Backend.board self) row col = Some (Backend.value Backend.EMPTY) →
     ∃ self',
       Backend.make_move self row col = Some (true, self') ∧
       vanish_effect
         (Backend.get_move_history self (Backend.current_player self))
         (Backend.get_move_history self' (Backend.current_player self))
         (Py.getitem2 (Backend.board self)) (Py.getitem2 (Backend.board self'))
         (Backend.value (Backend.current_player self)) (Backend.value Backend.EMPTY)
         row col) ∧
  (∀ self row col,
     Main.reachable self → Main.game_status self = "ongoing" →
     in_range row col →
     Py.getitem2 (Main.board self) row col = Some None →
     ∃ h res self' h',
       Main.player_moves self !! Main.current_player self = Some h ∧
       Main.make_move self row col = Some (res, self') ∧
       Main.success res = true ∧
       Main.player_moves self' !! Main.current_player self = Some h' ∧
       vanish_effect h h'
         (Py.getitem2 (Main.board self)) (Py.getitem2 (Main.board self'))
         (Some (Main.current_player self)) None row col).
Proof.
  split.
  - intros self row col Hr Hst Hin Hcell.
    pose proof (BackendFacts.reachable_consistent _ Hr) as Hc.
    assert (Backend.valid self row col) as Hv by done.
    destruct (BackendFacts.make_move_accepted self row col Hc Hv) as (self' & Hmv & Hp).
    exists self'. split; [done|]. by apply BackendFacts.placed_vanish_effect.
  - intros self row col Hr Hst Hin Hcell.
    destruct (RefinementFacts.reachable_rename _ Hr) as (g & n & Hg & ->).
    pose proof (BackendFacts.reachable_consistent _ Hg) as Hc.
    pose proof (RefinementFacts.rename_valid g n row col Hc Hst Hin Hcell) as Hv.
    destruct (BackendFacts.make_move_accepted g row col Hc Hv) as (g' & Hmv & Hp).
    pose proof (Backend.cons_player _ Hc) as Hpne.
    eexists _, _, (Refinement.rename g' (n + 1)), _.
    split; [by apply RefinementFacts.rename_moves|].
    split; [by apply RefinementFacts.sim_accepted|].
    split; [done|].
    split.
    + cbn [Refinement.rename Main.player_moves Main.current_player].
      rewrite RefinementFacts.lookup_rename by done.
      instantiate (1 := Backend.get_move_history g' (Backend.current_player g)).
      by destruct (Backend.current_player g).
    + pose proof (BackendFacts.placed_vanish_effect _ _ _ _ Hc Hv Hp) as Heff.
      apply (RefinementFacts.vanish_effect_fmap Refinement.cell_of) in Heff.
      rewrite RefinementFacts.cell_of_value in Heff.
      rewrite decide_False in Heff by done. exact Heff.
Qed.

Lemma C1_vanish_rule_witness :
  (∃ self',
     Backend.make_move Backend.six_moves 1 2 = Some (true, self') ∧
     vanish_effect [(0,0); (0,1); (2,0)]
       (Backend.get_move_history self' Backend.X)
       (Py.getitem2 (Backend.board Backend.six_moves)) (Py.getitem2 (Backend.board self'))
       "X" " " 1 2) ∧
  (∃ h res self' h',
     Main.player_moves Main.six_moves !! "X" = Some h ∧
     Main.make_move Main.six_moves 1 2 = Some (res, self') ∧
     Main.success res = true ∧
     Main.player_moves self' !! "X" = Some h' ∧
     vanish_effect h h'
       (Py.getitem2 (Main.board Main.six_moves)) (Py.getitem2 (Main.board self'))
       (Some "X") None 1 2).
Proof.
  split.
  - apply (proj1 C1_vanish_rule Backend.six_moves 1 2).
    + apply backend_six_moves_reachable.
    + reflexivity.
    + unfold in_range. lia.
    + reflexivity.
  - apply (proj2 C1_vanish_rule Main.six_moves 1 2).
    + apply main_six_moves_reachable.
    + reflexivity.
    + unfold in_range. lia.
    + reflexivity.
Defined.

(** C2. In every state reachable by moves and resets, for each player the
    cells of the board that hold the player's symbol are exactly the
    coordinates of the player's history (each once), every cell holds one of
    the three symbols, and each history has at most three entries.  Both
    engines. *)
Theorem C2_board_history_agree :
  (∀ self, Backend.reachable self →
     (∀ r c, in_range r c → ∃ p, Py.getitem2 (Backend.board self) r c = Some (Backend.value p)) ∧
     ∀ p, p ≠ Backend.EMPTY →
       cells_with (Backend.board self) (Backend.value p) ≡ₚ Backend.get_move_history self p ∧
       (0 ≤ length (Backend.get_move_history self p) ≤ 3)%nat) ∧
  (∀ self, Main.reachable self →
     (∀ r c, in_range r c →
        ∃ v, Py.getitem2 (Main.board self) r c = Some v ∧ v ∈ [None; Some "X"; Some "Y"]) ∧
     ∀ k, k ∈ ["X"; "Y"] →
       ∃ h, Main.player_moves self !! k = Some h ∧
            cells_with (Main.board self) (Some k) ≡ₚ h ∧
            (0 ≤ length h ≤ 3)%nat).
Proof.
  split.
  - intros self Hr. pose proof (BackendFacts.reachable_consistent _ Hr) as Hc.
    split; [apply (Backend.cons_cells _ Hc)|].
    intros p Hp. split; [by apply BackendFacts.consistent_cells_with|].
    pose proof (Backend.cons_length _ Hc p). lia.
  - intros self Hr.
    destruct (RefinementFacts.reachable_rename _ Hr) as (g & n & Hg & ->).
    pose proof (BackendFacts.reachable_consistent _ Hg) as Hc.
    split.
    + intros r c Hrc. cbn [Refinement.rename Main.board].
      rewrite getitem2_fmap.
      destruct (Backend.cons_cells _ Hc r c Hrc) as [[] ->]; eexists;
        (split; [reflexivity|]); set_solver.
    + intros k Hk. rewrite !elem_of_cons, elem_of_nil in Hk.
      destruct Hk as [->|[->|[]]].
      * exists (Backend.get_move_history g Backend.X). split; [done|].
        cbn [Refinement.rename Main.board].
        change (Some "X") with (Some (Refinement.player_of Backend.X)).
        rewrite (RefinementFacts.cells_with_rename g Backend.X) by done.
        split; [by apply BackendFacts.consistent_cells_with|].
        pose proof (Backend.cons_length _ Hc Backend.X). lia.
      * exists (Backend.get_move_history g Backend.O). split; [done|].
        cbn [Refinement.rename Main.board].
        change (Some "Y") with (Some (Refinement.player_of Backend.O)).
        rewrite (RefinementFacts.cells_with_rename g Backend.O) by done.
        split; [by apply BackendFacts.consistent_cells_with|].
        pose proof (Backend.cons_length _ Hc Backend.O). lia.
Qed.

Lemma C2_board_history_agree_witness :
  cells_with (Backend.board Backend.six_moves) "O" ≡ₚ [(1,1); (2,2); (1,0)] ∧
  (∃ h, Main.player_moves Main.six_moves !! "Y" = Some h ∧
        cells_with (Main.board Main.six_moves) (Some "Y") ≡ₚ h ∧
        (0 ≤ length h ≤ 3)%nat).
Proof.
  split.
  - apply (proj2 (proj1 C2_board_history_agree Backend.six_moves
                    backend_six_moves_reachable) Backend.O).
    discriminate.
  - apply (proj2 (proj2 C2_board_history_agree Main.six_moves
                    main_six_moves_reachable) "Y").
    apply list_elem_of_further, list_elem_of_here.
Defined.

(** C3, as stated, fails on the second engine: on the object in which X has
    won, the attempt at (3,0) is both out of bounds and on a concluded game;
    the specification's order reports the concluded game, the engine reports
    the position. *)
Lemma C3_counterexample : ¬ Spec.main_follows_order.
Proof.
  intros Hclaim.
  specialize (Hclaim Main.x_won 3 0
    (Main.Failure "Invalid position. Row and column must be between 0-2."
                  (Main.board Main.x_won))
    Main.x_won main_x_won_reachable eq_refl).
  discriminate Hclaim.
Qed.

(** C3, amended.  The first engine tests (a) the outcome, (b) the range,
    (c) the cell, in this order, the later tests not being reached once one
    fails, and reports every rejection by the same [False] with the object
    unchanged.  The second engine tests the range first, then the cell, then
    the outcome, and reports the first failure by its message; so an
    out-of-bounds attempt on a concluded game is reported as an invalid
    position. *)
Theorem C3_check_order :
  ((∀ self row col,
      Backend.state self ≠ Backend.IN_PROGRESS →
      Backend.is_valid_move self row col = Some false) ∧
   (∀ self row col,
      Backend.state self = Backend.IN_PROGRESS → ¬ in_range row col →
      Backend.is_valid_move self row col = Some false) ∧
   (∀ self row col,
      Backend.reachable self → Backend.state self = Backend.IN_PROGRESS →
      in_range row col →
      Py.getitem2 (Backend.board self) row col ≠ Some (Backend.value Backend.EMPTY) →
      Backend.is_valid_move self row col = Some false) ∧
   (∀ self row col,
      Backend.is_valid_move self row col = Some false →
      Backend.make_move self row col = Some (false, self))) ∧
  (∀ self row col,
     Main.reachable self →
     (¬ in_range row col →
      Main.make_move self row col =
        Some (Main.Failure "Invalid position. Row and column must be between 0-2."
                (Main.board self), self)) ∧
     (in_range row col → Py.getitem2 (Main.board self) row col ≠ Some None →
      Main.make_move self row col =
        Some (Main.Failure "Position already occupied." (Main.board self), self)) ∧
     (in_range row col → Py.getitem2 (Main.board self) row col = Some None →
      Main.game_status self ≠ "ongoing" →
      Main.make_move self row col =
        Some (Main.Failure ("Game is over. Status: " +:+ Main.game_status self)
                (Main.board self), self))).
Proof.
  split; [split; [|split; [|split]]|].
  - intros self row col Hst. unfold Backend.is_valid_move.
    by rewrite (bool_decide_true _ Hst).
  - intros self row col Hst Hout. unfold Backend.is_valid_move.
    rewrite bool_decide_false by (intros H; by apply H).
    unfold in_range in Hout. repeat case_bool_decide; simpl; first [done | lia].
  - intros self row col Hr Hst Hin Hocc.
    rewrite BackendFacts.is_valid_move_spec
      by apply (Backend.cons_wf _ (BackendFacts.reachable_consistent _ Hr)).
    f_equal. apply bool_decide_eq_false. by intros (_ & _ & ?).
  - intros self row col Hv. unfold Backend.make_move. by rewrite Hv.
  - intros self row col Hr. by apply RefinementFacts.main_rejections.
Qed.

Lemma C3_check_order_witness :
  Backend.is_valid_move Backend.x_won 3 0 = Some false ∧
  Backend.make_move Backend.x_won 3 0 = Some (false, Backend.x_won) ∧
  Main.make_move Main.x_won 3 0 =
    Some (Main.Failure "Invalid position. Row and column must be between 0-2."
            (Main.board Main.x_won), Main.x_won) ∧
  Main.make_move Main.x_won 0 0 =
    Some (Main.Failure "Position already occupied." (Main.board Main.x_won), Main.x_won) ∧
  Main.make_move Main.x_won 2 2 =
    Some (Main.Failure "Game is over. Status: X_wins" (Main.board Main.x_won), Main.x_won).
Proof.
  destruct C3_check_order as ((HA1 & _ & _ & HA4) & HB).
  destruct (HB Main.x_won 3 0 main_x_won_reachable) as (HB1 & _ & _).
  destruct (HB Main.x_won 0 0 main_x_won_reachable) as (_ & HB2 & _).
  destruct (HB Main.x_won 2 2 main_x_won_reachable) as (_ & _ & HB3).
  split; [|split; [|split; [|split]]].
  - apply HA1. discriminate.
  - apply HA4. apply HA1. discriminate.
  - apply HB1. unfold in_range. lia.
  - apply HB2; [unfold in_range; lia|discriminate].
  - apply HB3; [unfold in_range; lia|reflexivity|discriminate].
Defined.

(** C4. A rejected move leaves the object as it was: board, histories,
    current player and outcome.  On every reachable object a move that fails
    a precondition is rejected with the object unchanged, and whatever the
    object, a rejection never comes with a changed object.  Both engines. *)
Theorem C4_rejection_leaves_state :
  (∀ self row col,
     Backend.reachable self → ¬ Backend.valid self row col →
     Backend.make_move self row col = Some (false, self)) ∧
  (∀ self row col self',
     Backend.make_move self row col = Some (false, self') → self' = self) ∧
  (∀ self row col,
     Main.reachable self →
     ¬ (Main.game_status self = "ongoing" ∧ in_range row col ∧
        Py.getitem2 (Main.board self) row col = Some None) →
     ∃ msg, Main.make_move self row col = Some (Main.Failure msg (Main.board self), self)) ∧
  (∀ self row col res self',
     Main.make_move self row col = Some (res, self') → Main.success res = false →
     self' = self).
Proof.
  split; [|split; [|split]].
  - intros self row col Hr Hno.
    apply BackendFacts.make_move_rejected; [|done].
    apply (Backend.cons_wf _ (BackendFacts.reachable_consistent _ Hr)).
  - apply BackendFacts.make_move_false.
  - intros self row col Hr Hno.
    destruct (RefinementFacts.reachable_rename _ Hr) as (g & n & Hg & ->).
    pose proof (BackendFacts.reachable_consistent _ Hg) as Hc.
    destruct (RefinementFacts.sim_rejected g n row col Hc) as (msg & Hmsg).
    + intros (Hst & Hin & Hcell). apply Hno. split; [by rewrite <- RefinementFacts.status_of_ongoing in Hst|].
      split; [done|]. cbn [Refinement.rename Main.board].
      by rewrite getitem2_fmap, Hcell.
    + exists msg. by rewrite MainFacts._get_board_state_id in Hmsg.
  - apply MainFacts.make_move_failure.
Qed.

Lemma C4_rejection_leaves_state_witness :
  Backend.make_move Backend.six_moves 3 0 = Some (false, Backend.six_moves) ∧
  Backend.make_move Backend.six_moves 0 0 = Some (false, Backend.six_moves) ∧
  (∃ msg, Main.make_move Main.six_moves 3 0
          = Some (Main.Failure msg (Main.board Main.six_moves), Main.six_moves)) ∧
  (∃ msg, Main.make_move Main.six_moves 0 0
          = Some (Main.Failure msg (Main.board Main.six_moves), Main.six_moves)).
Proof.
  destruct C4_rejection_leaves_state as (HA & _ & HB & _).
  split; [|split; [|split]].
  - apply HA; [apply backend_six_moves_reachable|].
    unfold Backend.valid, in_range. lia.
  - apply HA; [apply backend_six_moves_reachable|].
    unfold Backend.valid. by intros (_ & _ & [=]).
  - apply HB; [apply main_six_moves_reachable|]. unfold in_range. lia.
  - apply HB; [apply main_six_moves_reachable|]. by intros (_ & _ & [=]).
Defined.

(** C5. Once the outcome is not in progress every move attempt is rejected
    and the object, its outcome included, stays as it is, whatever the
    attempts; [reset] gives the initial object from any object.  Both
    engines. *)
Theorem C5_concluded_until_reset :
  (∀ self moves,
     Backend.state self ≠ Backend.IN_PROGRESS →
     Backend.play self moves = Some (replicate (length moves) false, self)) ∧
  (∀ self, Backend.reset self = Backend.init) ∧
  (∀ self moves,
     Main.reachable self → Main.game_status self ≠ "ongoing" →
     ∃ rs, Main.play self moves = Some (rs, self) ∧
           Forall (λ r, Main.success r = false) rs) ∧
  (∀ self, Main.reset_game self = Main.init).
Proof.
  split; [|split; [done|split; [|done]]].
  - intros self moves Hst. by apply BackendFacts.play_concluded.
  - intros self moves Hr Hst.
    destruct (RefinementFacts.reachable_rename _ Hr) as (g & n & Hg & ->).
    pose proof (BackendFacts.reachable_consistent _ Hg) as Hc.
    assert (¬ ∃ row col, Backend.valid g row col) as Hno.
    { intros (row & col & Hv & _).
      apply Hst. cbn [Refinement.rename Main.game_status]. by rewrite Hv. }
    induction moves as [|[row col] moves (rs & IH & Hrs)]; [by exists []|].
    destruct (RefinementFacts.sim_rejected g n row col Hc) as (msg & Hmsg);
      [naive_solver|].
    eexists (_ :: rs). cbn [Main.play]. rewrite Hmsg. cbn [mbind option_bind].
    rewrite IH. cbn [mbind option_bind]. split; [done|]. by constructor.
Qed.

Lemma C5_concluded_until_reset_witness :
  Backend.play Backend.x_won [(2,2); (3,0); (0,0)]
    = Some ([false; false; false], Backend.x_won) ∧
  (∃ rs, Main.play Main.x_won [(2,2); (3,0); (0,0)] = Some (rs, Main.x_won) ∧
         Forall (λ r, Main.success r = false) rs).
Proof.
  destruct C5_concluded_until_reset as (HA & _ & HB & _).
  split.
  - apply (HA Backend.x_won [(2,2); (3,0); (0,0)]). discriminate.
  - apply (HB Main.x_won [(2,2); (3,0); (0,0)]).
    + apply main_x_won_reachable.
    + discriminate.
Defined.



(** C7, as stated, fails on the first engine: it returns the same [False]
    for an attempt out of bounds and for an attempt on an occupied cell, so no
    reading of the returned flag tells the two apart. *)
Lemma C7_counterexample : ¬ Spec.backend_reports_reason.
Proof.
  intros [reason Hreason].
  pose proof (Hreason Backend.six_moves 3 0 false Backend.six_moves
                backend_six_moves_reachable eq_refl eq_refl) as Hout.
  pose proof (Hreason Backend.six_moves 0 0 false Backend.six_moves
                backend_six_moves_reachable eq_refl eq_refl) as Hocc.
  destruct (reason false); simpl in Hout, Hocc.
  - by apply Hocc.
  - apply Hocc. unfold in_range. lia.
  - destruct Hout as [Hin _]. unfold in_range in Hin. lia.
Qed.

(** C7, amended.  On every reachable object and for all integers, no move
    attempt raises.  The first engine returns a bare flag: [True] exactly
    when the move passes validation, [False] otherwise, without a reason.
    The second engine returns a structured result: on success the flag, the
    board after the move, the coordinate removed this turn (the oldest piece
    of the mover when its queries announce a removal, else none), the new
    current player, the new status and the winner (the mover when the status
    is its win, else none); on rejection the flag, the unchanged board and
    one of three messages that tells the cause. *)
Theorem C7_structured_result :
  (∀ self row col,
     Backend.reachable self →
     ∃ ok self',
       Backend.make_move self row col = Some (ok, self') ∧
       (ok = true ↔ Backend.valid self row col)) ∧
  (∀ self row col,
     Main.reachable self →
     ∃ res self',
       Main.make_move self row col = Some (res, self') ∧
       match res with
       | Main.Failure msg b =>
           self' = self ∧ b = Main.board self ∧
           ((¬ in_range row col ∧
             msg = "Invalid position. Row and column must be between 0-2.") ∨
            (in_range row col ∧ Py.getitem2 (Main.board self) row col ≠ Some None ∧
             msg = "Position already occupied.") ∨
            (in_range row col ∧ Py.getitem2 (Main.board self) row col = Some None ∧
             Main.game_status self ≠ "ongoing" ∧
             msg = "Game is over. Status: " +:+ Main.game_status self))
       | Main.Success msg b removed cp st w =>
           b = Main.board self' ∧
           removed =
             (if default false (Main.will_remove_piece self (Main.current_player self))
              then Main.get_oldest_piece_for_player self (Main.current_player self)
              else None) ∧
           cp = Main.current_player self' ∧
           st = Main.game_status self' ∧
           ((w = Some (Main.current_player self) ∧
             st = Main.current_player self +:+ "_wins") ∨
            (w = None ∧ st = "ongoing"))
       end).
Proof.
  split.
  - intros self row col Hr. pose proof (BackendFacts.reachable_consistent _ Hr) as Hc.
    destruct (BackendFacts.make_move_cases self row col Hc)
      as [(Hno & ->)|(Hv & s & -> & _)].
    + exists false, self. split; [done|]. split; [done|]. by intros ?.
    + exists true, s. by split.
  - intros self row col Hr.
    pose proof (RefinementFacts.main_rejections self row col Hr) as (H1 & H2 & H3).
    destruct (RefinementFacts.reachable_rename _ Hr) as (g & n & Hg & Heq).
    pose proof (BackendFacts.reachable_consistent _ Hg) as Hc.
    destruct (decide (in_range row col)) as [Hin|Hout].
    2:{ eexists _, _. split; [by apply H1|]. split; [done|]. split; [done|]. by left. }
    destruct (decide (Py.getitem2 (Main.board self) row col = Some None)) as [Hcell|Hocc].
    2:{ eexists _, _. split; [by apply H2|]. split; [done|]. split; [done|].
        right. by left. }
    destruct (decide (Main.game_status self = "ongoing")) as [Hst|Hst].
    2:{ eexists _, _. split; [by apply H3|]. split; [done|]. split; [done|].
        right. by right. }
    subst self.
    pose proof (RefinementFacts.rename_valid g n row col Hc Hst Hin Hcell) as Hv.
    destruct (BackendFacts.make_move_accepted g row col Hc Hv) as (g' & _ & Hp).
    eexists _, _. split; [by apply RefinementFacts.sim_accepted|].
    split; [apply MainFacts._get_board_state_id|].
    split; [by rewrite RefinementFacts.vanishing_rename|].
    split; [done|]. split; [done|].
    rewrite (BackendFacts.placed_state_cases _ _ _ _ Hc Hv Hp).
    cbn [Refinement.rename Main.current_player].
    case_decide.
    + left. split; [done|].
      apply RefinementFacts.status_of_wins, (Backend.cons_player _ Hc).
    + right. split; [done|]. destruct Hv as (-> & _). done.
Qed.

Lemma C7_structured_result_witness :
  (∃ ok self', Backend.make_move Backend.six_moves 3 0 = Some (ok, self') ∧
               (ok = true ↔ Backend.valid Backend.six_moves 3 0)) ∧
  (∃ res self',
     Main.make_move Main.six_moves 1 2 = Some (res, self') ∧
     match res with
     | Main.Failure msg b => False
     | Main.Success msg b removed cp st w =>
         b = Main.board self' ∧ removed = Some (0, 0) ∧ cp = "Y" ∧ st = "ongoing" ∧ w = None
     end).
Proof.
  destruct C7_structured_result as (HA & HB).
  split; [apply (HA _ _ _ backend_six_moves_reachable)|].
  destruct (HB Main.six_moves 1 2 main_six_moves_reachable) as (res & self' & Hmv & Hres).
  exists res, self'. split; [exact Hmv|].
  injection Hmv as <- <-. done.
Defined.

(** C8. For every sequence of integer move attempts from the initial
    objects, both engines run to the end, accept and reject the same
    attempts, and end with the same board, histories, current player and
    outcome up to the renaming of O into Y and of the state labels. *)
Theorem C8_engines_equivalent :
  ∀ moves : list (Z * Z),
    ∃ oks gA rs gB,
      Backend.play Backend.init moves = Some (oks, gA) ∧
      Main.play Main.init moves = Some (rs, gB) ∧
      Main.success <$> rs = oks ∧
      Main.board gB = fmap (M:=list) (fmap (M:=list) Refinement.cell_of) (Backend.board gA) ∧
      Main.player_moves gB !! "X" = Some (Backend.move_history_x gA) ∧
      Main.player_moves gB !! "Y" = Some (Backend.move_history_o gA) ∧
      Main.current_player gB = Refinement.player_of (Backend.current_player gA) ∧
      Main.game_status gB = Refinement.status_of (Backend.state gA).
Proof.
  intros moves.
  destruct (RefinementFacts.sim_play Backend.init 0 moves BackendFacts.init_consistent)
    as (oks & gA & rs & n & HA & HB & Hs).
  rewrite RefinementFacts.rename_init in HB.
  exists oks, gA, rs, (Refinement.rename gA n).
  split; [done|]. split; [done|]. split; [done|]. done.
Qed.

(** C9. On the board on which the win condition is evaluated after an
    accepted move of a reachable game, only the player who just moved can
    own a line, so at most one player does, and the winner that is reported
    is the same whatever the order in which the eight lines are looked at.
    Both engines. *)
Theorem C9_single_line_owner :
  (∀ self row col self',
     Backend.reachable self → Backend.make_move self row col = Some (true, self') →
     (∀ q, q ≠ Backend.EMPTY → q ≠ Backend.current_player self →
           ¬ has_line (Backend.board self') (Backend.value q)) ∧
     ¬ (has_line (Backend.board self') "X" ∧ has_line (Backend.board self') "O") ∧
     ∀ ls, ls ≡ₚ lines →
       Backend._check_win (Backend.board self') (Backend.current_player self)
       = Some (bool_decide
                 (Exists (owns (Backend.board self')
                               (Backend.value (Backend.current_player self))) ls))) ∧
  (∀ self row col res self',
     Main.reachable self → Main.make_move self row col = Some (res, self') →
     Main.success res = true →
     (∀ s, has_line (Main.board self') (Some s) → s = Main.current_player self) ∧
     ¬ (has_line (Main.board self') (Some "X") ∧ has_line (Main.board self') (Some "Y")) ∧
     ∀ ls, ls ≡ₚ lines →
       Main._check_winner (Main.board self')
       = Some (Main.first_winner (Main.board self') ls)).
Proof.
  split.
  - intros self row col self' Hr Hmv.
    pose proof (BackendFacts.reachable_consistent _ Hr) as Hc.
    destruct (BackendFacts.make_move_cases self row col Hc)
      as [(_ & Heq)|(Hv & s & Heq & Hp)]; rewrite Heq in Hmv; [done|].
    injection Hmv as <-.
    assert (∀ q, q ≠ Backend.EMPTY → q ≠ Backend.current_player self →
                 ¬ has_line (Backend.board s) (Backend.value q)) as Hquiet.
    { intros q Hq Hqp. by eapply BackendFacts.placed_opponent_quiet. }
    split; [done|]. split.
    + intros [HX HO]. pose proof (Backend.cons_player _ Hc) as Hpne.
      destruct (Backend.current_player self) eqn:Hcp; [| |done].
      * by apply (Hquiet Backend.O).
      * by apply (Hquiet Backend.X).
    + intros ls Hperm.
      rewrite BackendFacts._check_win_spec
        by apply (Backend.cons_wf _ (BackendFacts.placed_consistent _ _ _ _ Hc Hv Hp)).
      f_equal. apply bool_decide_ext. unfold has_line.
      rewrite !Exists_exists. by setoid_rewrite Hperm.
  - intros self row col res self' Hr Hmv Hok.
    destruct (RefinementFacts.reachable_rename _ Hr) as (g & n & Hg & ->).
    pose proof (BackendFacts.reachable_consistent _ Hg) as Hc.
    destruct (RefinementFacts.main_step_inv g n row col res self' Hc Hmv)
      as [(_ & _ & msg & ->)|(Hv & g' & HA & Hp & -> & _)]; [done|].
    pose proof (BackendFacts.placed_consistent _ _ _ _ Hc Hv Hp) as Hc'.
    cbn [Refinement.rename Main.board Main.current_player].
    assert (∀ s, has_line (fmap (M:=list) (fmap (M:=list) Refinement.cell_of)
                             (Backend.board g')) (Some s) →
                 s = Refinement.player_of (Backend.current_player g)) as Hown.
    { intros s. by apply RefinementFacts.has_line_rename_mover with row col. }
    split; [done|]. split.
    + intros [HX HY]. apply Hown in HX, HY. congruence.
    + intros ls Hperm.
      rewrite (MainFacts._check_winner_spec _ (wf_grid_fmap _ _ (Backend.cons_wf _ Hc'))).
      f_equal.
      assert (∀ q, q ≠ Backend.EMPTY → q ≠ Backend.current_player g →
                   ¬ has_line (Backend.board g') (Backend.value q)) as Hquiet.
      { intros q Hq Hqp.
        exact (BackendFacts.placed_opponent_quiet g row col g' q Hc Hv Hp Hq Hqp). }
      rewrite (RefinementFacts.first_winner_rename _ (Backend.current_player g) ls
                 (Backend.cons_cells _ Hc') (Backend.cons_player _ Hc) Hquiet Hperm).
      by rewrite (RefinementFacts.first_winner_rename _ (Backend.current_player g) lines
                 (Backend.cons_cells _ Hc') (Backend.cons_player _ Hc) Hquiet).
Qed.

Lemma C9_single_line_owner_witness :
  ¬ (has_line (Backend.board Backend.x_won) "X" ∧ has_line (Backend.board Backend.x_won) "O") ∧
  ¬ (has_line (Main.board Main.x_won) (Some "X") ∧ has_line (Main.board Main.x_won) (Some "Y")).
Proof.
  destruct C9_single_line_owner as (HA & HB).
  split.
  - apply (HA (Backend.mkGame [["X"; "X"; " "]; ["O"; "O"; " "]; [" "; " "; " "]]
                 [(0,0); (0,1)] [(1,1); (1,0)] Backend.X Backend.IN_PROGRESS)
              0 2 Backend.x_won).
    + by eapply (BackendFacts.play_reachable Backend.init [(0,0); (1,1); (0,1); (1,0)]);
        [constructor|].
    + reflexivity.
  - eapply (HB (Main.mkGame
               [[Some "X"; Some "X"; None]; [Some "Y"; Some "Y"; None]; [None; None; None]]
               (<["Y" := [(1,1); (1,0)]]> (<["X" := [(0,0); (0,1)]]> ∅)) "X" "ongoing" 4)
              0 2 _ Main.x_won).
    + by eapply (RefinementFacts.main_play_reachable Main.init [(0,0); (1,1); (0,1); (1,0)]);
        [constructor|].
    + reflexivity.
    + reflexivity.
Defined.

(** [l[i] = v] keeps the length, and [g[r][c] = v] keeps a grid 3x3,
    whatever the indices for which it succeeds. *)
Lemma setitem_length {A} (l l' : list A) i v :
  Py.setitem l i v = Some l' → length l' = length l.
Proof.
  unfold Py.setitem. destruct (Py.norm_index (length l) i) as [k|]; [|done].
  cbn [mbind option_bind]. intros [= <-]. apply length_insert.
Qed.

Lemma setitem2_keeps_wf {A} (g g' : list (list A)) r c v :
  wf_grid g → Py.setitem2 g r c v = Some g' → wf_grid g'.
Proof.
  intros [Hlen Hrows]. unfold Py.setitem2.
  destruct (Py.getitem g r) as [row|] eqn:Hrow; cbn [mbind option_bind]; [|done].
  destruct (Py.setitem row c v) as [row'|] eqn:Hset; cbn [mbind option_bind]; [|done].
  intros Hg'. split.
  - by rewrite (setitem_length _ _ _ _ Hg').
  - unfold Py.getitem in Hrow. unfold Py.setitem in Hg'.
    destruct (Py.norm_index (length g) r) as [k|]; [|done].
    cbn [mbind option_bind] in Hrow, Hg'. injection Hg' as <-.
    apply Forall_insert; [done|].
    rewrite (setitem_length _ _ _ _ Hset).
    rewrite Forall_forall in Hrows. apply Hrows. by eapply list_elem_of_lookup_2.
Qed.

(** On any object whose board is 3x3, reachable or not, an accepted move
    settles the state by the win check and then the draw check, both made
    on the board the move leaves. *)
Lemma backend_make_move_state self row col self' :
  wf_grid (Backend.board self) →
  Backend.make_move self row col = Some (true, self') →
  wf_grid (Backend.board self') ∧
  Backend.state self' =
    if decide (has_line (Backend.board self')
                        (Backend.value (Backend.current_player self)))
    then Backend.wins (Backend.current_player self)
    else if decide (Backend.full (Backend.board self')) then Backend.DRAW
    else Backend.state self.
Proof.
  intros Hwf. unfold Backend.make_move.
  destruct (Backend.is_valid_move self row col) as [[|]|];
    cbn [mbind option_bind negb]; [|done|done].
  destruct (if bool_decide (3 ≤ _)%nat then _ else _) as [[b1 h1]|] eqn:Htrim;
    cbn [mbind option_bind]; [|done].
  assert (wf_grid b1) as Hwf1.
  { revert Htrim. case_bool_decide; [|by intros [= <- _]].
    destruct (Py.getitem _ 0) as [[orow ocol]|]; cbn [mbind option_bind]; [|done].
    destruct (Py.setitem2 _ orow ocol _) as [b'|] eqn:Hb'; cbn [mbind option_bind]; [|done].
    destruct (Py.pop _ 0) as [popped|]; cbn [mbind option_bind]; [|done].
    intros [= <- _]. by eapply setitem2_keeps_wf. }
  destruct (Py.setitem2 b1 row col _) as [b2|] eqn:Hb2; cbn [mbind option_bind]; [|done].
  assert (wf_grid b2) as Hwf2 by (by eapply setitem2_keeps_wf).
  rewrite (BackendFacts._check_win_spec b2 _ Hwf2). cbn [mbind option_bind].
  destruct (decide (has_line b2 (Backend.value (Backend.current_player self)))) as [Hl|Hl].
  - rewrite (bool_decide_true _ Hl). cbn [mbind option_bind].
    intros [= <-]. cbn [Backend.board Backend.state]. split; [done|].
    by rewrite decide_True.
  - rewrite (bool_decide_false _ Hl), (BackendFacts._check_draw_spec b2 Hwf2).
    cbn [mbind option_bind]. intros [= <-]. cbn [Backend.board Backend.state].
    split; [done|]. rewrite decide_False by done. unfold Backend.full.
    by destruct (decide (Forall _ all_cells)) as [Hf|Hf];
      [rewrite (bool_decide_true _ Hf)|rewrite (bool_decide_false _ Hf)].
Qed.

Lemma main_make_move_status self row col res self' :
  wf_grid (Main.board self) →
  Main.make_move self row col = Some (res, self') → Main.success res = true →
  wf_grid (Main.board self') ∧
  Main.game_status self' =
    let winner := Main.first_winner (Main.board self') lines in
    if Main.truthy winner then default "None" winner +:+ "_wins"
    else if decide (Forall (λ rc, Py.getitem2 (Main.board self') rc.1 rc.2 ≠ Some None)
                          all_cells)
         then "draw" else Main.game_status self.
Proof.
  intros Hwf. unfold Main.make_move.
  destruct (negb (Main._is_valid_position row col)); [by intros [= <- <-]|].
  destruct (Py.getitem2 (Main.board self) row col) as [target|];
    cbn [mbind option_bind]; [|done].
  destruct (bool_decide (target ≠ None)); [by intros [= <- <-]|].
  destruct (bool_decide (Main.game_status self ≠ "ongoing")); [by intros [= <- <-]|].
  destruct (Py.setitem2 _ _ _ _) as [b1|] eqn:Hb1; cbn [mbind option_bind]; [|done].
  assert (wf_grid b1) as Hwf1 by (by eapply setitem2_keeps_wf).
  destruct (Main.player_moves self !! Main.current_player self) as [moves|];
    cbn [mbind option_bind]; [|done].
  destruct (_ !! Main.current_player self) as [moves1|]; cbn [mbind option_bind]; [|done].
  destruct (if bool_decide (3 < _)%nat then _ else _) as [[[b2 pm2] removed]|] eqn:Htrim;
    cbn [mbind option_bind]; [|done].
  assert (wf_grid b2) as Hwf2.
  { revert Htrim. case_bool_decide; [|by intros [= <- _ _]].
    destruct (Py.pop moves1 0) as [popped|]; cbn [mbind option_bind]; [|done].
    destruct (Py.setitem2 b1 _ _ None) as [b'|] eqn:Hb'; cbn [mbind option_bind]; [|done].
    intros [= <- _ _]. by eapply setitem2_keeps_wf. }
  rewrite (MainFacts._check_winner_spec b2 Hwf2). cbn [mbind option_bind].
  destruct (Main.truthy (Main.first_winner b2 lines)) eqn:Htruthy.
  - cbn [mbind option_bind]. intros [= <- <-] _.
    cbn [Main.board Main.game_status]. split; [done|]. cbv zeta. by rewrite Htruthy.
  - rewrite (MainFacts._is_board_full_spec b2 Hwf2). cbn [mbind option_bind].
    intros [= <- <-] _. cbn [Main.board Main.game_status]. split; [done|].
    cbv zeta. rewrite Htruthy.
    by destruct (decide (Forall _ all_cells)) as [Hf|Hf];
      [rewrite (bool_decide_true _ Hf)|rewrite (bool_decide_false _ Hf)].
Qed.

(** C10. In every reachable state the occupied cells are the entries of the
    two histories, so there are at most six of them on the nine cells; the
    board-full check therefore fails on every reachable board and the draw
    outcome is never reached.  Yet the draw condition is checked faithfully:
    on any 3x3 board the check answers exactly whether no cell is empty, and
    on any object with a 3x3 board, reachable or not, every accepted move
    consults it on the board the move leaves: the state becomes the draw
    exactly when no line is won there and no cell is empty.  Both
    engines. *)
Theorem C10_draw_unreachable :
  (∀ self, Backend.reachable self →
     length (occupied (Backend.board self) (Backend.value Backend.EMPTY))
       = (length (Backend.move_history_x self) + length (Backend.move_history_o self))%nat ∧
     (length (occupied (Backend.board self) (Backend.value Backend.EMPTY)) ≤ 6)%nat ∧
     Backend._check_draw (Backend.board self) = Some false ∧
     Backend.state self ≠ Backend.DRAW) ∧
  (∀ b, wf_grid b → Backend._check_draw b = Some (bool_decide (Backend.full b))) ∧
  (∀ self, Main.reachable self →
     ∃ hx hy,
       Main.player_moves self !! "X" = Some hx ∧
       Main.player_moves self !! "Y" = Some hy ∧
       length (occupied (Main.board self) None) = (length hx + length hy)%nat ∧
       (length (occupied (Main.board self) None) ≤ 6)%nat ∧
       Main._is_board_full (Main.board self) = Some false ∧
       Main.game_status self ≠ "draw") ∧
  (∀ b, wf_grid b →
     Main._is_board_full b =
       Some (bool_decide (Forall (λ rc, Py.getitem2 b rc.1 rc.2 ≠ Some None) all_cells))) ∧
  (∀ self row col self',
     wf_grid (Backend.board self) →
     Backend.make_move self row col = Some (true, self') →
     Backend.state self' =
       if decide (has_line (Backend.board self')
                           (Backend.value (Backend.current_player self)))
       then Backend.wins (Backend.current_player self)
       else if decide (Backend.full (Backend.board self')) then Backend.DRAW
       else Backend.state self) ∧
  (∀ self row col res self',
     wf_grid (Main.board self) →
     Main.make_move self row col = Some (res, self') → Main.success res = true →
     Main.game_status self' =
       let winner := Main.first_winner (Main.board self') lines in
       if Main.truthy winner then default "None" winner +:+ "_wins"
       else if decide (Forall (λ rc, Py.getitem2 (Main.board self') rc.1 rc.2 ≠ Some None)
                             all_cells)
            then "draw" else Main.game_status self).
Proof.
  assert (∀ self, Backend.consistent self →
    length (occupied (Backend.board self) (Backend.value Backend.EMPTY))
      = (length (Backend.move_history_x self) + length (Backend.move_history_o self))%nat ∧
    (length (occupied (Backend.board self) (Backend.value Backend.EMPTY)) ≤ 6)%nat) as Hcount.
  { intros self Hc.
    rewrite (BackendFacts.consistent_occupied self Hc), length_app.
    split; [done|].
    pose proof (Backend.cons_length _ Hc Backend.X) as HX.
    pose proof (Backend.cons_length _ Hc Backend.O) as HO.
    unfold Backend.get_move_history in HX, HO. simpl in HX, HO. lia. }
  split; [|split; [|split; [|split; [|split]]]].
  - intros self Hr. pose proof (BackendFacts.reachable_consistent _ Hr) as Hc.
    destruct (Hcount self Hc) as [Heq Hle].
    split; [done|]. split; [done|]. split; [|apply (Backend.cons_no_draw _ Hc)].
    rewrite BackendFacts._check_draw_spec by apply (Backend.cons_wf _ Hc).
    f_equal. apply bool_decide_eq_false. by apply BackendFacts.consistent_not_full.
  - apply BackendFacts._check_draw_spec.
  - intros self Hr.
    destruct (RefinementFacts.reachable_rename _ Hr) as (g & n & Hg & ->).
    pose proof (BackendFacts.reachable_consistent _ Hg) as Hc.
    destruct (Hcount g Hc) as [Heq Hle].
    exists (Backend.move_history_x g), (Backend.move_history_o g).
    cbn [Refinement.rename Main.board Main.game_status Main.player_moves].
    rewrite (RefinementFacts.occupied_rename g Hc).
    split; [done|]. split; [done|]. split; [done|]. split; [done|]. split.
    + rewrite (MainFacts._is_board_full_spec _ (wf_grid_fmap _ _ (Backend.cons_wf _ Hc))).
      f_equal. apply bool_decide_eq_false. intros Hfull.
      apply (BackendFacts.consistent_not_full _ Hc).
      unfold Backend.full. rewrite Forall_forall in Hfull |- *.
      intros rc Hrc Hcell. apply (Hfull rc Hrc).
      by rewrite getitem2_fmap, Hcell.
    + rewrite RefinementFacts.status_of_draw. apply (Backend.cons_no_draw _ Hc).
  - apply MainFacts._is_board_full_spec.
  - intros self row col self' Hwf Hmv.
    by destruct (backend_make_move_state self row col self' Hwf Hmv).
  - intros self row col res self' Hwf Hmv Hok.
    by destruct (main_make_move_status self row col res self' Hwf Hmv Hok).
Qed.

Lemma C10_draw_unreachable_witness :
  (length (occupied (Backend.board Backend.six_moves) " ") = 6%nat ∧
   (length (occupied (Backend.board Backend.six_moves) " ") ≤ 6)%nat ∧
   Backend._check_draw (Backend.board Backend.six_moves) = Some false ∧
   Backend.state Backend.six_moves ≠ Backend.DRAW) ∧
  Backend._check_draw [["X"; "O"; "X"]; ["X"; "O"; "O"]; ["O"; "X"; "X"]] = Some true ∧
  Main._is_board_full
    [[Some "X"; Some "Y"; Some "X"]; [Some "X"; Some "Y"; Some "Y"];
     [Some "Y"; Some "X"; Some "X"]] = Some true ∧
  (∃ self',
     Backend.make_move
       (Backend.mkGame [["X"; "O"; "X"]; ["X"; "O"; "O"]; ["O"; "X"; " "]]
                       [] [] Backend.X Backend.IN_PROGRESS) 2 2
     = Some (true, self') ∧
     Backend.state self' = Backend.DRAW) ∧
  (∃ res self',
     Main.make_move
       (Main.mkGame [[Some "X"; Some "Y"; Some "X"]; [Some "X"; Some "Y"; Some "Y"];
                     [Some "Y"; Some "X"; None]]
                    (<["Y" := []]> (<["X" := []]> ∅)) "X" "ongoing" 8) 2 2
     = Some (res, self') ∧
     Main.game_status self' = "draw").
Proof.
  destruct C10_draw_unreachable as (HA & HAf & _ & HBf & HAd & HBd).
  split; [|split; [|split; [|split]]].
  - apply (HA Backend.six_moves backend_six_moves_reachable).
  - rewrite HAf by apply explicit_wf_grid. reflexivity.
  - rewrite HBf by apply explicit_wf_grid. reflexivity.
  - eexists. split; [reflexivity|].
    exact (HAd (Backend.mkGame [["X"; "O"; "X"]; ["X"; "O"; "O"]; ["O"; "X"; " "]]
                               [] [] Backend.X Backend.IN_PROGRESS)
               2 2 _ (explicit_wf_grid _ _ _ _ _ _ _ _ _) eq_refl).
  - eexists _, _. split; [reflexivity|].
    exact (HBd (Main.mkGame [[Some "X"; Some "Y"; Some "X"]; [Some "X"; Some "Y"; Some "Y"];
                             [Some "Y"; Some "X"; None]]
                            (<["Y" := []]> (<["X" := []]> ∅)) "X" "ongoing" 8)
               2 2 _ _ (explicit_wf_grid _ _ _ _ _ _ _ _ _) eq_refl eq_refl).
Defined.

(** * Further properties of the code *)

(** ** The first engine: recorded state, winner and piece counts *)

Module BackendMore.
Import Backend BackendFacts.

Lemma wins_inj p q : p ≠ EMPTY → q ≠ EMPTY → wins p = wins q → p = q.
Proof. by destruct p, q. Qed.

Lemma switch_switch p : p ≠ EMPTY → switch (switch p) = p.
Proof. by destruct p. Qed.

Lemma other_is_switch p q : p ≠ EMPTY → q ≠ EMPTY → q ≠ p → q = switch p.
Proof. by destruct p, q. Qed.

(** A recorded win is a win on the board, in every reachable state. *)
Lemma reachable_won_by self p :
  reachable self → p ≠ EMPTY → state self = wins p → won_by self p.
Proof.
  intros Hr. revert p.
  induction Hr as [|self row col ok self' Hr IH Hmv|self Hr IH]; intros p Hp Hst.
  - by destruct p.
  - pose proof (reachable_consistent _ Hr) as Hc.
    destruct (make_move_cases self row col Hc)
      as [(_ & Heq)|(Hv & s & Heq & Hpl)]; rewrite Heq in Hmv;
      injection Hmv as <- <-; [by apply IH|].
    pose proof (cons_player _ Hc) as Hne.
    rewrite (placed_state_cases _ _ _ _ Hc Hv Hpl) in Hst.
    destruct (decide (has_line (board s) (value (current_player self)))) as [Hl|Hl].
    + apply wins_inj in Hst; [|done|done]. subst p.
      split; [done|]. split; [|apply (placed_player _ _ _ _ Hpl)].
      apply (placed_opponent_quiet self row col s); try done.
      * apply switch_not_empty.
      * by apply switch_neq.
    + destruct Hv as [Hv _]. rewrite Hv in Hst. by destruct p.
  - by destruct p.
Qed.

Lemma shown_spec self :
  reachable self →
  state self = shown (board self) ∧
  ¬ (has_line (board self) (value X) ∧ has_line (board self) (value O)).
Proof.
  intros Hr. pose proof (reachable_consistent _ Hr) as Hc.
  pose proof (cons_no_draw _ Hc) as Hnd. unfold shown.
  destruct (state self) eqn:Hst; [| | |done].
  - pose proof (cons_quiet _ Hc Hst) as Hq.
    rewrite !decide_False; [|by apply Hq|by apply Hq].
    split; [done|]. intros [HX _]. by apply (Hq X).
  - destruct (reachable_won_by self X Hr) as (HX & HO & _); [done|done|].
    rewrite decide_True by done. split; [done|]. by intros [_ ?].
  - destruct (reachable_won_by self O Hr) as (HO & HX & _); [done|done|].
    rewrite decide_False by done. rewrite decide_True by done.
    split; [done|]. by intros [? _].
Qed.

Lemma lines_NoDup l : l ∈ lines → NoDup l ∧ length l = 3%nat.
Proof.
  unfold lines, rows, columns, diagonal, anti_diagonal. simpl.
  rewrite !elem_of_cons, elem_of_nil.
  intros H; repeat destruct H as [H|H]; try done; subst l;
    (split; [by apply (bool_decide_unpack _)|done]).
Qed.

(** A player who owns a line has exactly the three pieces of that line. *)
Lemma line_is_history self p :
  consistent self → p ≠ EMPTY → has_line (board self) (value p) →
  ∃ l, l ∈ lines ∧ owns (board self) (value p) l ∧ get_move_history self p ≡ₚ l.
Proof.
  intros Hc Hp. unfold has_line. rewrite Exists_exists.
  intros (l & Hl & Hown). exists l. split; [done|]. split; [done|].
  destruct (lines_NoDup l Hl) as [Hnd Hlen]. symmetry.
  apply submseteq_length_Permutation.
  - apply NoDup_submseteq; [done|]. intros [r c] Hrc.
    unfold owns in Hown. rewrite Forall_forall in Hown.
    apply (cons_marks _ Hc p r c Hp).
    + by apply (lines_in_range l (r, c)).
    + by apply (Hown (r, c)).
  - rewrite Hlen. apply (cons_length _ Hc).
Qed.

(** [get_oldest_piece_position] reads the head of the list it selects;
    the index 0 is in range whenever the list is not empty. *)
Lemma get_oldest_piece_position_head self p :
  get_oldest_piece_position self p =
    head (if bool_decide (p = X) then move_history_x self else move_history_o self).
Proof.
  unfold get_oldest_piece_position. cbv zeta.
  destruct (if bool_decide (p = X) then _ else _) as [|e h]; [done|].
  rewrite bool_decide_true by (simpl; lia). apply getitem_0.
Qed.

Lemma successes_true oks : successes (true :: oks) = S (successes oks).
Proof. unfold successes. by rewrite filter_cons_True. Qed.

Lemma successes_false oks : successes (false :: oks) = successes oks.
Proof. unfold successes. by rewrite filter_cons_False. Qed.

Lemma turns_mover p n : p ≠ EMPTY → turns p p (S n) = S (turns (switch p) p n).
Proof.
  intros Hp. unfold turns. rewrite bool_decide_true by done.
  rewrite bool_decide_false by (intros Heq; by apply (switch_neq p)).
  replace (S n + 1)%nat with (n + 1 * 2)%nat by lia.
  rewrite Nat.div_add by done. lia.
Qed.

Lemma turns_other p q n :
  p ≠ EMPTY → q ≠ EMPTY → q ≠ p → turns p q (S n) = turns (switch p) q n.
Proof.
  intros Hp Hq Hqp. unfold turns. rewrite bool_decide_false by done.
  rewrite bool_decide_true by (by apply other_is_switch).
  f_equal. lia.
Qed.

Lemma placed_length self row col self' :
  consistent self → placed self row col self' →
  length (get_move_history self' (current_player self)) =
    Nat.min (length (get_move_history self (current_player self)) + 1) 3.
Proof.
  intros Hc Hp. rewrite (placed_mover _ _ _ _ Hp), length_app. simpl.
  destruct (vanishing_kept self Hc) as [(e & _ & Hh & Hlen)|(_ & -> & Hlen)].
  - rewrite Hh. rewrite Hh in Hlen. simpl in Hlen |- *. lia.
  - lia.
Qed.

(** The pieces of each player after a run: three at most, one more for
    each accepted move of that player. *)
Lemma play_lengths self moves oks self' q :
  consistent self → play self moves = Some (oks, self') → q ≠ EMPTY →
  length (get_move_history self' q) =
    Nat.min (length (get_move_history self q)
             + turns (current_player self) q (successes oks)) 3.
Proof.
  revert self oks. induction moves as [|[row col] moves IH]; intros self oks Hc Hpl Hq.
  - injection Hpl as <- <-. unfold successes. simpl.
    pose proof (cons_length _ Hc q). unfold turns. case_bool_decide; simpl; lia.
  - simpl in Hpl. pose proof (cons_player _ Hc) as Hne.
    destruct (make_move_cases self row col Hc)
      as [(_ & Heq)|(Hv & s & Heq & Hp)]; rewrite Heq in Hpl;
      cbn [mbind option_bind] in Hpl;
      destruct (play _ moves) as [[oks' s']|] eqn:Hrest; try done;
      cbn [mbind option_bind] in Hpl; injection Hpl as <- <-.
    + rewrite successes_false. by apply IH.
    + assert (consistent s) as Hs by (by eapply placed_consistent).
      rewrite successes_true, (IH s oks' Hs Hrest Hq).
      rewrite (placed_player _ _ _ _ Hp).
      destruct (decide (q = current_player self)) as [->|Hqp].
      * rewrite (placed_length _ _ _ _ Hc Hp), turns_mover by done. lia.
      * rewrite (placed_other _ _ _ _ Hp) by done.
        by rewrite turns_other.
Qed.

End BackendMore.

(** ** The second engine: move counter, status and the piece queries *)

Module MainMore.
Import Main MainFacts.

(** [total_moves] goes up by one on a success and stays on a failure,
    whatever the object. *)
Lemma make_move_total_moves self row col res self' :
  make_move self row col = Some (res, self') →
  total_moves self' = total_moves self + (if success res then 1 else 0).
Proof.
  unfold make_move.
  destruct (negb (_is_valid_position row col)); [intros [= <- <-]; simpl; lia|].
  destruct (Py.getitem2 (board self) row col) as [target|];
    cbn [mbind option_bind]; [|done].
  destruct (bool_decide (target ≠ None)); [intros [= <- <-]; simpl; lia|].
  destruct (bool_decide (game_status self ≠ "ongoing")); [intros [= <- <-]; simpl; lia|].
  destruct (Py.setitem2 _ _ _ _) as [b1|]; cbn [mbind option_bind]; [|done].
  destruct (player_moves self !! current_player self) as [moves|];
    cbn [mbind option_bind]; [|done].
  destruct (_ !! current_player self) as [moves1|]; cbn [mbind option_bind]; [|done].
  destruct (if bool_decide (3 < _)%nat then _ else _) as [[[b2 pm2] removed]|];
    cbn [mbind option_bind]; [|done].
  destruct (_check_winner b2) as [winner|]; cbn [mbind option_bind]; [|done].
  destruct (if truthy winner then Some _ else _) as [status|];
    cbn [mbind option_bind]; [|done].
  by intros [= <- <-].
Qed.

Lemma play_total_moves self moves rs self' :
  play self moves = Some (rs, self') →
  total_moves self' = total_moves self + Z.of_nat (successes (success <$> rs)).
Proof.
  revert self rs. induction moves as [|[row col] moves IH]; intros self rs.
  - intros [= <- <-]. unfold successes. simpl. lia.
  - simpl. destruct (make_move self row col) as [[r s]|] eqn:Hmv; [|done].
    cbn [mbind option_bind].
    destruct (play s moves) as [[rs' s']|] eqn:Hpl; [|done].
    cbn [mbind option_bind]. intros [= <- <-].
    rewrite (IH _ _ Hpl), (make_move_total_moves _ _ _ _ _ Hmv), fmap_cons.
    destruct (success r).
    + rewrite BackendMore.successes_true. lia.
    + rewrite BackendMore.successes_false. lia.
Qed.

End MainMore.

Module RefinementMore.
Import Refinement RefinementFacts.

(** The status of a renamed reachable object is the one its board shows. *)
Lemma rename_shown g n :
  Backend.reachable g →
  Main.game_status (rename g n) = Main.shown (Main.board (rename g n)).
Proof.
  intros Hr. pose proof (BackendFacts.reachable_consistent _ Hr) as Hc.
  cbn [rename Main.game_status Main.board]. unfold Main.shown.
  pose proof (Backend.cons_no_draw _ Hc) as Hnd.
  destruct (Backend.state g) eqn:Hst; [| | |done].
  - pose proof (Backend.cons_quiet _ Hc Hst) as Hq.
    rewrite (first_winner_rename _ Backend.X lines (Backend.cons_cells _ Hc));
      [|done|by intros q Hq' _; apply Hq|done].
    rewrite decide_False; [done|by apply Hq].
  - destruct (BackendMore.reachable_won_by g Backend.X Hr) as (HX & HO & _); [done|done|].
    rewrite (first_winner_rename _ Backend.X lines (Backend.cons_cells _ Hc));
      [|done| |done].
    + by rewrite decide_True.
    + intros q Hq Hqx. by destruct q.
  - destruct (BackendMore.reachable_won_by g Backend.O Hr) as (HO & HX & _); [done|done|].
    rewrite (first_winner_rename _ Backend.O lines (Backend.cons_cells _ Hc));
      [|done| |done].
    + by rewrite decide_True.
    + intros q Hq Hqx. by destruct q.
Qed.

Lemma rename_player_moves g n :
  Main.player_moves (rename g n)
  = <["Y" := Backend.move_history_o g]> (<["X" := Backend.move_history_x g]> ∅).
Proof. done. Qed.

Lemma lookup_moves_X (hx ho : list (Z * Z)) :
  (<["Y" := ho]> (<["X" := hx]> ∅) : gmap string (list (Z * Z))) !! "X" = Some hx.
Proof. exact (lookup_rename hx ho Backend.X ltac:(done)). Qed.

Lemma lookup_moves_Y (hx ho : list (Z * Z)) :
  (<["Y" := ho]> (<["X" := hx]> ∅) : gmap string (list (Z * Z))) !! "Y" = Some ho.
Proof. exact (lookup_rename hx ho Backend.O ltac:(done)). Qed.

Lemma lookup_moves_other (hx ho : list (Z * Z)) k :
  k ≠ "X" → k ≠ "Y" →
  (<["Y" := ho]> (<["X" := hx]> ∅) : gmap string (list (Z * Z))) !! k = None.
Proof. intros HX HY. by rewrite !lookup_insert_ne. Qed.

End RefinementMore.

(** ** Recorded outcome and winner *)

Lemma backend_x_won_reachable : Backend.reachable Backend.x_won.
Proof.
  by eapply (BackendFacts.play_reachable Backend.init
               [(0,0); (1,1); (0,1); (1,0); (0,2)]); [constructor|].
Qed.

(** X1. In every reachable state the recorded outcome is the one the board
    shows by itself: X_WINS exactly when X fills a line, O_WINS exactly when
    O does, IN_PROGRESS when nobody does, and never both players at once; in
    the second engine the status is the winner of the first won line, or
    'ongoing'. *)
Theorem X1_outcome_shown_by_board :
  (∀ self, Backend.reachable self →
     Backend.state self = Backend.shown (Backend.board self) ∧
     ¬ (has_line (Backend.board self) "X" ∧ has_line (Backend.board self) "O")) ∧
  (∀ self, Main.reachable self →
     Main.game_status self = Main.shown (Main.board self)).
Proof.
  split.
  - intros self Hr. by apply BackendMore.shown_spec.
  - intros self Hr.
    destruct (RefinementFacts.reachable_rename _ Hr) as (g & n & Hg & ->).
    by apply RefinementMore.rename_shown.
Qed.

Lemma X1_outcome_shown_by_board_witness :
  Backend.state Backend.x_won = Backend.shown (Backend.board Backend.x_won) ∧
  Main.game_status Main.x_won = Main.shown (Main.board Main.x_won).
Proof.
  destruct X1_outcome_shown_by_board as [HA HB]. split.
  - apply (HA Backend.x_won), backend_x_won_reachable.
  - apply (HB Main.x_won), main_x_won_reachable.
Defined.

(** X2. The turn is switched after a winning move like after any other:
    in a reachable state that records a win, the current player is the
    player who lost. *)
Theorem X2_loser_is_current_player :
  (∀ self, Backend.reachable self →
     (Backend.state self = Backend.X_WINS → Backend.current_player self = Backend.O) ∧
     (Backend.state self = Backend.O_WINS → Backend.current_player self = Backend.X)) ∧
  (∀ self, Main.reachable self →
     (Main.game_status self = "X_wins" → Main.current_player self = "Y") ∧
     (Main.game_status self = "Y_wins" → Main.current_player self = "X")).
Proof.
  assert (∀ g, Backend.reachable g →
     (Backend.state g = Backend.X_WINS → Backend.current_player g = Backend.O) ∧
     (Backend.state g = Backend.O_WINS → Backend.current_player g = Backend.X)) as HA.
  { intros g Hr. split; intros Hst.
    - by destruct (BackendMore.reachable_won_by g Backend.X Hr) as (_ & _ & ->).
    - by destruct (BackendMore.reachable_won_by g Backend.O Hr) as (_ & _ & ->). }
  split; [done|].
  intros self Hr.
  destruct (RefinementFacts.reachable_rename _ Hr) as (g & n & Hg & ->).
  destruct (HA g Hg) as [HX HO].
  cbn [Refinement.rename Main.game_status Main.current_player].
  split; intros Hst.
  - rewrite HX; [done|]. by destruct (Backend.state g).
  - rewrite HO; [done|]. by destruct (Backend.state g).
Qed.

Lemma X2_loser_is_current_player_witness :
  Backend.current_player Backend.x_won = Backend.O ∧
  Main.current_player Main.x_won = "Y".
Proof.
  destruct X2_loser_is_current_player as [HA HB]. split.
  - by apply (HA Backend.x_won backend_x_won_reachable).
  - by apply (HB Main.x_won main_x_won_reachable).
Defined.

(** X3. A player who has won holds exactly three pieces, and they are the
    cells of the line that player fills. *)
Theorem X3_winner_pieces_are_the_line :
  (∀ self p, Backend.reachable self → p ≠ Backend.EMPTY →
     Backend.state self = Backend.wins p →
     ∃ l, l ∈ lines ∧ owns (Backend.board self) (Backend.value p) l ∧
          Backend.get_move_history self p ≡ₚ l) ∧
  (∀ self w, Main.reachable self → w = "X" ∨ w = "Y" →
     Main.game_status self = w +:+ "_wins" →
     ∃ l h, l ∈ lines ∧ owns (Main.board self) (Some w) l ∧
            Main.player_moves self !! w = Some h ∧ h ≡ₚ l).
Proof.
  assert (∀ g p, Backend.reachable g → p ≠ Backend.EMPTY →
     Backend.state g = Backend.wins p →
     ∃ l, l ∈ lines ∧ owns (Backend.board g) (Backend.value p) l ∧
          Backend.get_move_history g p ≡ₚ l) as HA.
  { intros g p Hr Hp Hst.
    destruct (BackendMore.reachable_won_by g p Hr Hp Hst) as (Hl & _).
    apply BackendMore.line_is_history; [|done|done].
    by apply BackendFacts.reachable_consistent. }
  split; [done|].
  intros self w Hr Hw Hst.
  destruct (RefinementFacts.reachable_rename _ Hr) as (g & n & Hg & ->).
  cbn [Refinement.rename Main.game_status Main.board Main.player_moves] in *.
  assert (∃ p, p ≠ Backend.EMPTY ∧ w = Refinement.player_of p ∧
               Backend.state g = Backend.wins p) as (p & Hp & -> & Hwin).
  { destruct Hw as [-> | ->].
    - exists Backend.X. by destruct (Backend.state g).
    - exists Backend.O. by destruct (Backend.state g). }
  destruct (HA g p Hg Hp Hwin) as (l & Hl & Hown & Hperm).
  exists l, (Backend.get_move_history g p).
  split; [done|]. split; [by apply RefinementFacts.owns_rename|]. split; [|done].
  rewrite RefinementFacts.lookup_rename by done. by destruct p.
Qed.

Lemma X3_winner_pieces_are_the_line_witness :
  (∃ l, l ∈ lines ∧ owns (Backend.board Backend.x_won) "X" l ∧
        Backend.get_move_history Backend.x_won Backend.X ≡ₚ l) ∧
  (∃ l h, l ∈ lines ∧ owns (Main.board Main.x_won) (Some "X") l ∧
          Main.player_moves Main.x_won !! "X" = Some h ∧ h ≡ₚ l).
Proof.
  destruct X3_winner_pieces_are_the_line as [HA HB]. split.
  - by apply (HA Backend.x_won Backend.X backend_x_won_reachable).
  - apply (HB Main.x_won "X" main_x_won_reachable); [by left|done].
Defined.

(** ** The oldest piece *)

(** X4. [get_oldest_piece_position] on a reachable object, for X or O: it
    returns the first entry of that player's move history; it returns None
    exactly when no cell holds the player's symbol; a position it returns is
    on the board and holds the player's symbol.  Asked for [Player.EMPTY] it
    answers with O's oldest piece, where [get_move_history] gives the empty
    list. *)
Theorem X4_oldest_piece_position :
  ∀ self p, Backend.reachable self → p ≠ Backend.EMPTY →
    Backend.get_oldest_piece_position self p = head (Backend.get_move_history self p) ∧
    (Backend.get_oldest_piece_position self p = None ↔
       cells_with (Backend.board self) (Backend.value p) = []) ∧
    (∀ r c, Backend.get_oldest_piece_position self p = Some (r, c) →
       in_range r c ∧ Py.getitem2 (Backend.board self) r c = Some (Backend.value p)) ∧
    Backend.get_oldest_piece_position self Backend.EMPTY
      = Backend.get_oldest_piece_position self Backend.O ∧
    Backend.get_move_history self Backend.EMPTY = [].
Proof.
  intros self p Hr Hp. pose proof (BackendFacts.reachable_consistent _ Hr) as Hc.
  assert (Backend.get_oldest_piece_position self p
          = head (Backend.get_move_history self p)) as Hhead.
  { rewrite BackendMore.get_oldest_piece_position_head. by destruct p. }
  pose proof (BackendFacts.consistent_cells_with self p Hc Hp) as Hperm.
  split; [done|]. split; [|split; [|split]].
  - rewrite Hhead. split.
    + intros Hnone. apply Permutation_nil_r. rewrite Hperm.
      by destruct (Backend.get_move_history self p).
    + intros Hnil. rewrite Hnil in Hperm. apply Permutation_nil_l in Hperm.
      by rewrite <- Hperm.
  - intros r c. rewrite Hhead. intros Hrc.
    assert ((r, c) ∈ Backend.get_move_history self p) as Hin.
    { destruct (Backend.get_move_history self p) as [|e h]; [done|].
      injection Hrc as ->. by left. }
    pose proof (Backend.cons_range _ Hc p _ Hin) as Hrange. simpl in Hrange.
    split; [done|]. by apply (Backend.cons_marks _ Hc p r c Hp).
  - by rewrite !BackendMore.get_oldest_piece_position_head.
  - done.
Qed.

Lemma X4_oldest_piece_position_witness :
  Backend.get_oldest_piece_position Backend.six_moves Backend.O = Some (1, 1) ∧
  Py.getitem2 (Backend.board Backend.six_moves) 1 1 = Some "O".
Proof.
  destruct (X4_oldest_piece_position Backend.six_moves Backend.O
              backend_six_moves_reachable ltac:(done)) as (Hhead & _ & Hcell & _).
  split; [exact Hhead|]. by apply (Hcell 1 1).
Defined.

(** X5. What [get_oldest_piece_position] announces, against the next
    accepted move of the player [p] to move: with three pieces on the board
    the announced cell is emptied by the move and the player's next oldest
    piece is the second one; with one or two pieces the oldest piece stays
    the oldest; with none the piece just placed becomes the oldest.  The
    answer for the other player is not changed by the move. *)
Theorem X5_oldest_piece_vanishes_next :
  ∀ self row col self',
    Backend.reachable self → Backend.make_move self row col = Some (true, self') →
    let p := Backend.current_player self in
    let h := Backend.get_move_history self p in
    (length h = 3%nat →
       ∃ r c, Backend.get_oldest_piece_position self p = Some (r, c) ∧
              Py.getitem2 (Backend.board self') r c = Some (Backend.value Backend.EMPTY) ∧
              ((r, c) ∉ Backend.get_move_history self' p) ∧
              Backend.get_oldest_piece_position self' p = h !! 1%nat) ∧
    ((0 < length h < 3)%nat →
       Backend.get_oldest_piece_position self' p = Backend.get_oldest_piece_position self p) ∧
    (h = [] → Backend.get_oldest_piece_position self' p = Some (row, col)) ∧
    (∀ q, q ≠ Backend.EMPTY → q ≠ p →
       Backend.get_oldest_piece_position self' q = Backend.get_oldest_piece_position self q).
Proof.
  intros self row col self' Hr Hmv p h. unfold h. clear h.
  pose proof (BackendFacts.reachable_consistent _ Hr) as Hc.
  destruct (BackendFacts.make_move_cases self row col Hc)
    as [(_ & Heq)|(Hv & s & Heq & Hp)]; rewrite Heq in Hmv; [done|].
  injection Hmv as <-.
  assert (Backend.reachable s) as Hr' by (by eapply Backend.reachable_move).
  pose proof (BackendFacts.reachable_consistent _ Hr') as Hc'.
  pose proof (Backend.cons_player _ Hc) as Hne. fold p in Hne.
  assert (∀ g q, q ≠ Backend.EMPTY →
            Backend.get_oldest_piece_position g q = head (Backend.get_move_history g q))
    as Hhead.
  { intros g q Hq. rewrite BackendMore.get_oldest_piece_position_head. by destruct q. }
  pose proof (Backend.placed_mover _ _ _ _ Hp) as Hmover. fold p in Hmover.
  pose proof (BackendFacts.vanishing_kept self Hc) as Hvk. cbv zeta in Hvk.
  fold p in Hvk.
  split; [|split; [|split]].
  - intros Hlen.
    destruct Hvk as [(e & Hvan & Hh & _)|(_ & _ & Hlt)]; [|lia].
    destruct e as [r c]. exists r, c.
    rewrite !Hhead by done. rewrite Hh. split; [done|].
    assert ((r, c) ∈ Backend.get_move_history self p) as Hin by (rewrite Hh; by left).
    pose proof (Backend.cons_range _ Hc p _ Hin) as Hrange. simpl in Hrange.
    assert ((r, c) ≠ (row, col)) as Hneq.
    { intros [= -> ->]. destruct Hv as (_ & _ & Hempty).
      apply (Backend.cons_marks _ Hc p row col Hne Hrange) in Hin.
      rewrite Hin in Hempty. injection Hempty as Heq'.
      by apply (BackendFacts.value_inj p Backend.EMPTY) in Heq'. }
    assert (Py.getitem2 (Backend.board s) r c = Some (Backend.value Backend.EMPTY))
      as Hcell.
    { rewrite (Backend.placed_board _ _ _ _ Hp) by done.
      rewrite decide_False by done. by rewrite decide_True. }
    split; [done|]. split.
    + intros Hin'. apply (Backend.cons_marks _ Hc' p r c Hne Hrange) in Hin'.
      rewrite Hin' in Hcell. injection Hcell as Heq'.
      by apply (BackendFacts.value_inj p Backend.EMPTY) in Heq'.
    + rewrite Hmover. rewrite Hh in Hlen.
      destruct (Backend.kept self) as [|e1 k]; [done|]. done.
  - intros Hlen.
    destruct Hvk as [(e & _ & _ & Hlen3)|(_ & Hk & _)]; [lia|].
    rewrite !Hhead by done. rewrite Hmover, Hk.
    destruct (Backend.get_move_history self p); [simpl in Hlen; lia|done].
  - intros Hnil.
    destruct Hvk as [(e & _ & _ & Hlen3)|(_ & Hk & _)]; [by rewrite Hnil in Hlen3|].
    rewrite Hhead by done. by rewrite Hmover, Hk, Hnil.
  - intros q Hq Hqp. rewrite !Hhead by done.
    by rewrite (Backend.placed_other _ _ _ _ Hp).
Qed.

Lemma X5_oldest_piece_vanishes_next_witness :
  ∃ self',
    Backend.make_move Backend.six_moves 2 1 = Some (true, self') ∧
    Backend.get_oldest_piece_position Backend.six_moves Backend.X = Some (0, 0) ∧
    Py.getitem2 (Backend.board self') 0 0 = Some " " ∧
    Backend.get_oldest_piece_position self' Backend.X = Some (0, 1).
Proof.
  eexists. split; [reflexivity|].
  destruct (X5_oldest_piece_vanishes_next Backend.six_moves 2 1 _
              backend_six_moves_reachable eq_refl) as (H3 & _).
  destruct (H3 eq_refl) as (r & c & Hold & Hcell & _ & Hnext).
  split; [reflexivity|]. split; [reflexivity|]. exact Hnext.
Defined.

(** ** Counting pieces and moves *)

Lemma play_init_pieces moves oks self' :
  Backend.play Backend.init moves = Some (oks, self') →
  length (Backend.get_move_history self' Backend.X)
    = Nat.min ((successes oks + 1) / 2) 3 ∧
  length (Backend.get_move_history self' Backend.O)
    = Nat.min (successes oks / 2) 3.
Proof.
  intros Hpl. split.
  - by rewrite (BackendMore.play_lengths _ _ _ _ Backend.X
                  BackendFacts.init_consistent Hpl).
  - by rewrite (BackendMore.play_lengths _ _ _ _ Backend.O
                  BackendFacts.init_consistent Hpl).
Qed.

(** X6. Any sequence of attempts on a new game runs to its end, and with
    [n] of them accepted the board holds min((n+1)/2, 3) pieces of the first
    player and min(n/2, 3) pieces of the second (integer division).  Both
    engines. *)
Theorem X6_pieces_after_a_run :
  ∀ moves,
    (∃ oks self',
       Backend.play Backend.init moves = Some (oks, self') ∧
       length (cells_with (Backend.board self') "X")
         = Nat.min ((successes oks + 1) / 2) 3 ∧
       length (cells_with (Backend.board self') "O")
         = Nat.min (successes oks / 2) 3) ∧
    (∃ rs self',
       Main.play Main.init moves = Some (rs, self') ∧
       length (cells_with (Main.board self') (Some "X"))
         = Nat.min ((successes (Main.success <$> rs) + 1) / 2) 3 ∧
       length (cells_with (Main.board self') (Some "Y"))
         = Nat.min (successes (Main.success <$> rs) / 2) 3).
Proof.
  intros moves.
  destruct (RefinementFacts.sim_play Backend.init 0 moves BackendFacts.init_consistent)
    as (oks & g & rs & n & HA & HB & Hs).
  rewrite RefinementFacts.rename_init in HB.
  destruct (play_init_pieces _ _ _ HA) as [HX HO].
  assert (Backend.consistent g) as Hc.
  { apply BackendFacts.reachable_consistent.
    eapply BackendFacts.play_reachable; [constructor|done]. }
  pose proof (BackendFacts.consistent_cells_with g Backend.X Hc ltac:(done)) as HpX.
  pose proof (BackendFacts.consistent_cells_with g Backend.O Hc ltac:(done)) as HpO.
  split.
  - exists oks, g. split; [done|].
    change "X" with (Backend.value Backend.X).
    change "O" with (Backend.value Backend.O).
    by rewrite HpX, HpO.
  - exists rs, (Refinement.rename g n). split; [done|]. rewrite Hs.
    cbn [Refinement.rename Main.board].
    change (Some "X") with (Some (Refinement.player_of Backend.X)).
    change (Some "Y") with (Some (Refinement.player_of Backend.O)).
    rewrite !RefinementFacts.cells_with_rename by done.
    by rewrite HpX, HpO.
Qed.

(** X7. In a run on a new game the first player cannot have won before
    the fifth accepted move, nor the second player before the sixth; and
    since nothing is accepted after a win, the number of accepted moves is
    odd when X has won and even when O has. *)
Theorem X7_earliest_win :
  ∀ moves oks self',
    Backend.play Backend.init moves = Some (oks, self') →
    (Backend.state self' = Backend.X_WINS →
       (5 ≤ successes oks)%nat ∧ Nat.odd (successes oks) = true) ∧
    (Backend.state self' = Backend.O_WINS →
       (6 ≤ successes oks)%nat ∧ Nat.even (successes oks) = true).
Proof.
  intros moves oks self' Hpl.
  assert (Backend.reachable self') as Hr.
  { eapply BackendFacts.play_reachable; [constructor|done]. }
  pose proof (BackendFacts.reachable_consistent _ Hr) as Hc.
  destruct (play_init_pieces _ _ _ Hpl) as [HX HO].
  pose proof (BackendFacts.play_player _ _ _ _ BackendFacts.init_consistent Hpl) as Hcp.
  cbn [Backend.init Backend.current_player] in Hcp.
  rewrite BackendFacts.iter_switch_X in Hcp.
  assert (∀ p, p ≠ Backend.EMPTY → Backend.state self' = Backend.wins p →
            length (Backend.get_move_history self' p) = 3%nat ∧
            Backend.current_player self' = Backend.switch p) as Hwon.
  { intros p Hp Hst.
    destruct (BackendMore.reachable_won_by self' p Hr Hp Hst) as (Hl & _ & Hturn).
    split; [|done].
    destruct (BackendMore.line_is_history self' p Hc Hp Hl) as (l & Hin & _ & Hperm).
    rewrite Hperm. by apply BackendMore.lines_NoDup. }
  split; intros Hst.
  - destruct (Hwon Backend.X) as [Hlen Hturn]; [done|done|].
    rewrite Hlen in HX. rewrite Hturn in Hcp. rewrite <- Nat.negb_even.
    destruct (Nat.even (successes oks)); [done|]. split; [|done].
    revert HX. generalize (successes oks). intros n Hn.
    pose proof (Nat.div_mod_eq (n + 1) 2). pose proof (Nat.mod_upper_bound (n + 1) 2). lia.
  - destruct (Hwon Backend.O) as [Hlen Hturn]; [done|done|].
    rewrite Hlen in HO. rewrite Hturn in Hcp.
    destruct (Nat.even (successes oks)); [|done]. split; [|done].
    revert HO. generalize (successes oks). intros n Hn.
    pose proof (Nat.div_mod_eq n 2). pose proof (Nat.mod_upper_bound n 2). lia.
Qed.

Lemma X7_earliest_win_witness :
  (5 ≤ successes [true; true; true; true; true])%nat ∧
  Nat.odd (successes [true; true; true; true; true]) = true.
Proof.
  apply (X7_earliest_win [(0,0); (1,1); (0,1); (1,0); (0,2)] _ Backend.x_won);
    reflexivity.
Defined.

(** X8. The counter [total_moves] of the second engine goes up by one with
    every accepted move and by nothing with a rejected one, whatever the
    object; on a new game it is the number of moves accepted so far. *)
Theorem X8_total_moves_counts_accepted :
  (∀ self moves rs self',
     Main.play self moves = Some (rs, self') →
     Main.total_moves self'
       = Main.total_moves self + Z.of_nat (successes (Main.success <$> rs))) ∧
  (∀ moves, ∃ rs self',
     Main.play Main.init moves = Some (rs, self') ∧
     Main.total_moves self' = Z.of_nat (successes (Main.success <$> rs))).
Proof.
  split.
  - intros self moves rs self'. apply MainMore.play_total_moves.
  - intros moves.
    destruct (RefinementFacts.sim_play Backend.init 0 moves BackendFacts.init_consistent)
      as (oks & g & rs & n & _ & HB & _).
    rewrite RefinementFacts.rename_init in HB.
    exists rs, (Refinement.rename g n). split; [done|].
    by rewrite (MainMore.play_total_moves _ _ _ _ HB).
Qed.

Lemma X8_total_moves_counts_accepted_witness :
  Main.total_moves Main.six_moves = 6.
Proof.
  destruct X8_total_moves_counts_accepted as [H _].
  pose (moves := [(0,0); (1,1); (0,1); (2,2); (2,0); (1,0)]).
  exact (H Main.init moves (default ([], Main.init) (Main.play Main.init moves)).1
           Main.six_moves eq_refl).
Defined.

(** ** The piece queries of the second engine *)

Lemma rename_queries g n p :
  Backend.consistent g → p ≠ Backend.EMPTY →
  let self := Refinement.rename g n in
  let k := Refinement.player_of p in
  let h := Backend.get_move_history g p in
  Main.player_moves self !! k = Some h ∧
  cells_with (Main.board self) (Some k) ≡ₚ h ∧
  (length h ≤ 3)%nat ∧
  Main.will_remove_piece self k = Some (bool_decide (3 ≤ length h)%nat) ∧
  Main.get_oldest_piece_for_player self k = head h.
Proof.
  intros Hc Hp self k h.
  assert (Main.player_moves self !! k = Some h) as Hlook.
  { unfold self, k, h. cbn [Refinement.rename Main.player_moves].
    rewrite RefinementFacts.lookup_rename by done. by destruct p. }
  split; [done|]. split; [|split; [|split]].
  - unfold self, k, h. cbn [Refinement.rename Main.board].
    rewrite RefinementFacts.cells_with_rename by done.
    by apply BackendFacts.consistent_cells_with.
  - apply (Backend.cons_length _ Hc).
  - unfold Main.will_remove_piece. by rewrite Hlook.
  - unfold Main.get_oldest_piece_for_player. rewrite Hlook.
    destruct h as [|e h']; [done|].
    rewrite bool_decide_true by (simpl; lia). apply getitem_0.
Qed.

(** X9. The two queries behind the blur preview, on a reachable object.
    For a player that is neither 'X' nor 'Y', [will_remove_piece] raises
    (KeyError) while [get_oldest_piece_for_player] returns None.  For 'X' and
    'Y', [will_remove_piece] is true exactly when the player has three
    pieces on the board, and [get_oldest_piece_for_player] is None exactly
    when the player has none and otherwise names a cell of the board that
    holds the player's mark. *)
Theorem X9_piece_queries :
  ∀ self k, Main.reachable self →
    (Main.will_remove_piece self k = None ↔ k ≠ "X" ∧ k ≠ "Y") ∧
    (k ≠ "X" → k ≠ "Y" → Main.get_oldest_piece_for_player self k = None) ∧
    (k = "X" ∨ k = "Y" →
       Main.will_remove_piece self k
         = Some (bool_decide (length (cells_with (Main.board self) (Some k)) = 3%nat)) ∧
       (Main.get_oldest_piece_for_player self k = None ↔
          cells_with (Main.board self) (Some k) = []) ∧
       ∀ r c, Main.get_oldest_piece_for_player self k = Some (r, c) →
         in_range r c ∧ Py.getitem2 (Main.board self) r c = Some (Some k)).
Proof.
  intros self k Hr.
  destruct (RefinementFacts.reachable_rename _ Hr) as (g & n & Hg & ->).
  pose proof (BackendFacts.reachable_consistent _ Hg) as Hc.
  assert (k = "X" ∨ k = "Y" →
          ∃ p, p ≠ Backend.EMPTY ∧ k = Refinement.player_of p) as Hplayer.
  { intros [-> | ->]; [by exists Backend.X|by exists Backend.O]. }
  split; [|split].
  - split.
    + intros Hnone. split; intros ->.
      * destruct (rename_queries g n Backend.X Hc) as (_ & _ & _ & Hw & _); [done|].
        cbv zeta in Hw. change (Refinement.player_of Backend.X) with "X" in Hw.
        by rewrite Hw in Hnone.
      * destruct (rename_queries g n Backend.O Hc) as (_ & _ & _ & Hw & _); [done|].
        cbv zeta in Hw. change (Refinement.player_of Backend.O) with "Y" in Hw.
        by rewrite Hw in Hnone.
    + intros [HX HY]. unfold Main.will_remove_piece.
      cbn [Refinement.rename Main.player_moves].
      by rewrite RefinementMore.lookup_moves_other.
  - intros HX HY. unfold Main.get_oldest_piece_for_player.
    cbn [Refinement.rename Main.player_moves].
    by rewrite RefinementMore.lookup_moves_other.
  - intros Hk. destruct (Hplayer Hk) as (p & Hp & ->).
    destruct (rename_queries g n p Hc Hp) as (Hlook & Hperm & Hlen & Hw & Ho).
    cbv zeta in Hlook, Hperm, Hlen, Hw, Ho.
    split; [|split].
    + rewrite Hw. f_equal. apply bool_decide_ext. rewrite Hperm. lia.
    + rewrite Ho. split.
      * intros Hnone. apply Permutation_nil_r. rewrite Hperm.
        by destruct (Backend.get_move_history g p).
      * intros Hnil. rewrite Hnil in Hperm. apply Permutation_nil_l in Hperm.
        by rewrite <- Hperm.
    + intros r c. rewrite Ho. intros Hrc.
      assert ((r, c) ∈ cells_with (Main.board (Refinement.rename g n))
                         (Some (Refinement.player_of p))) as Hin.
      { rewrite Hperm. destruct (Backend.get_move_history g p) as [|e h]; [done|].
        injection Hrc as ->. by left. }
      unfold cells_with in Hin. apply list_elem_of_filter in Hin as [Hcell Hall].
      split; [by apply in_range_all_cells|done].
Qed.

Lemma X9_piece_queries_witness :
  Main.will_remove_piece Main.six_moves "O" = None ∧
  Main.get_oldest_piece_for_player Main.six_moves "O" = None ∧
  Main.will_remove_piece Main.six_moves "Y" = Some true.
Proof.
  destruct (X9_piece_queries Main.six_moves "O" main_six_moves_reachable)
    as (Hraise & Hnone & _).
  destruct (X9_piece_queries Main.six_moves "Y" main_six_moves_reachable)
    as (_ & _ & HY).
  split; [by apply Hraise|]. split; [by apply Hnone|].
  destruct HY as (Hw & _); [by right|]. exact Hw.
Defined.

(** ** Python dicts *)

Lemma filter_all {A} (P : A → Prop) `{!∀ x, Decision (P x)} (l : list A) :
  (∀ x, x ∈ l → P x) → filter P l = l.
Proof.
  induction l as [|a l IH]; intros Hall; [done|].
  rewrite filter_cons_True by (apply Hall; by left).
  f_equal. apply IH. intros x Hx. apply Hall. by right.
Qed.

Section Dict.
Context {K V : Type} `{!EqDecision K}.
Implicit Types (d : Py.dict K V) (k : K) (v : V).

Lemma contains_getitem d k : Py.contains d k = true ↔ is_Some (Py.dict_getitem d k).
Proof.
  induction d as [|[k' v'] d IH]; simpl.
  - split; [done|]. by intros [? ?].
  - case_decide; [|done]. split; [by eexists|done].
Qed.

Lemma contains_false d k : Py.contains d k = false ↔ Py.dict_getitem d k = None.
Proof.
  rewrite <- not_true_iff_false, contains_getitem, <- eq_None_not_Some. done.
Qed.

Lemma contains_keys d k : Py.contains d k = true ↔ k ∈ Py.keys d.
Proof.
  unfold Py.keys. induction d as [|[k' v'] d IH]; simpl.
  - split; [done|]. by intros ?%elem_of_nil.
  - rewrite elem_of_cons. case_decide as Hk; [by split; [left|]|].
    rewrite IH. split; [by right|]. by intros [Heq|Hin]; [destruct Hk|].
Qed.

Lemma getitem_setitem d k v : Py.dict_getitem (Py.dict_setitem d k v) k = Some v.
Proof.
  induction d as [|[k' v'] d IH]; simpl.
  - by rewrite decide_True.
  - case_decide; simpl; [by rewrite decide_True|]. by rewrite decide_False.
Qed.

Lemma getitem_setitem_ne d k k' v :
  k' ≠ k → Py.dict_getitem (Py.dict_setitem d k v) k' = Py.dict_getitem d k'.
Proof.
  intros Hne. induction d as [|[k0 v0] d IH]; simpl.
  - by rewrite decide_False.
  - destruct (decide (k0 = k)) as [->|]; simpl.
    + by rewrite !decide_False.
    + by rewrite IH.
Qed.

Lemma setitem_same d k v : Py.dict_getitem d k = Some v → Py.dict_setitem d k v = d.
Proof.
  induction d as [|[k0 v0] d IH]; simpl; [done|].
  case_decide; [by intros [= ->]; subst|]. intros H'. by rewrite IH.
Qed.

Lemma keys_setitem d k v :
  Py.keys (Py.dict_setitem d k v)
  = if Py.contains d k then Py.keys d else Py.keys d ++ [k].
Proof.
  unfold Py.keys. induction d as [|[k0 v0] d IH];
    cbn [Py.dict_setitem Py.contains]; [done|].
  case_decide; [done|]. rewrite !fmap_cons, IH.
  by destruct (Py.contains d k).
Qed.

Lemma NoDup_setitem d k v : NoDup (Py.keys d) → NoDup (Py.keys (Py.dict_setitem d k v)).
Proof.
  intros Hnd. rewrite keys_setitem.
  destruct (Py.contains d k) eqn:Hc; [done|].
  apply NoDup_app. split; [done|]. split; [|apply NoDup_singleton].
  intros x Hx ->%list_elem_of_singleton.
  apply contains_keys in Hx. congruence.
Qed.

Lemma delitem_is_Some d k : is_Some (Py.dict_delitem d k) ↔ Py.contains d k = true.
Proof.
  induction d as [|[k0 v0] d IH]; simpl.
  - split; [by intros [? ?]|done].
  - case_decide; [by split; [|eexists]|].
    rewrite <- IH. destruct (Py.dict_delitem d k); simpl; [by split; eexists|].
    split; by intros [? ?].
Qed.

Lemma keys_delitem d k d' :
  Py.dict_delitem d k = Some d' → NoDup (Py.keys d) →
  Py.keys d' = filter (λ k', k' ≠ k) (Py.keys d).
Proof.
  unfold Py.keys. revert d'.
  induction d as [|[k0 v0] d IH]; intros d'; cbn [Py.dict_delitem]; [done|].
  rewrite fmap_cons, NoDup_cons. cbn [fst]. case_decide as Hk.
  - intros [= <-] [Hnotin Hnd]. subst k0.
    rewrite filter_cons_False by (by intros Hne).
    symmetry. apply filter_all. by intros x Hx ->.
  - destruct (Py.dict_delitem d k) as [d''|]; cbn [mbind option_bind]; [|done].
    intros [= <-] [Hnotin Hnd]. rewrite filter_cons_True by done.
    rewrite fmap_cons. cbn [fst]. f_equal. by apply IH.
Qed.

Lemma getitem_delitem d k d' :
  Py.dict_delitem d k = Some d' → NoDup (Py.keys d) → Py.dict_getitem d' k = None.
Proof.
  intros Hdel Hnd. apply contains_false, not_true_iff_false.
  rewrite contains_keys, (keys_delitem d k d' Hdel Hnd), list_elem_of_filter.
  by intros [Hne _].
Qed.

Lemma getitem_delitem_ne d k k' d' :
  Py.dict_delitem d k = Some d' → k' ≠ k →
  Py.dict_getitem d' k' = Py.dict_getitem d k'.
Proof.
  intros Hdel Hne. revert d' Hdel.
  induction d as [|[k0 v0] d IH]; intros d'; simpl; [done|].
  case_decide as Hk.
  - intros [= <-]. subst k0. by rewrite decide_False.
  - destruct (Py.dict_delitem d k) as [d''|]; simpl; [|done].
    intros [= <-]. simpl. case_decide; [done|]. by apply IH.
Qed.

Lemma NoDup_delitem d k d' :
  Py.dict_delitem d k = Some d' → NoDup (Py.keys d) → NoDup (Py.keys d').
Proof.
  intros Hdel Hnd. rewrite (keys_delitem d k d' Hdel Hnd). by apply NoDup_filter.
Qed.

(** Storing under a key that is not there and deleting it again gives the
    dict back. *)
Lemma delitem_setitem d k v :
  Py.contains d k = false → Py.dict_delitem (Py.dict_setitem d k v) k = Some d.
Proof.
  induction d as [|[k0 v0] d IH]; simpl.
  - by rewrite decide_True.
  - case_decide; [done|]. intros Hc. simpl. rewrite decide_False by done.
    by rewrite IH.
Qed.

End Dict.

(** ** The API of src/backend/main.py *)

(** The examples run the handlers on the example engine. *)
#[local] Existing Instance Api.example_engine.

Module ApiFacts.
Import Api.

Section generic.
Context {T : Type} `{!Engine.VanishingTicTacToe T}.
Implicit Types (games : Py.dict string T) (game : T).

Lemma contains_true_getitem games game_id game :
  Py.dict_getitem games game_id = Some game → Py.contains games game_id = true.
Proof. intros Hg. apply contains_getitem. by eexists. Qed.

Lemma make_move_found games game_id move_request game :
  Py.dict_getitem games game_id = Some game →
  make_move games game_id move_request =
    let expected_player := Backend.value (Engine.get_current_player game) in
    if bool_decide (player move_request ≠ expected_player) then
      Some (games,
            HTTPException 400
              ("It's " +:+ expected_player +:+ "'s turn, not "
               +:+ player move_request +:+ "'s"))
    else
    '(move_successful, game') ←
       Engine.make_move game (row move_request) (col move_request);
    let games' := Py.dict_setitem games game_id game' in
    if negb move_successful then Some (games', HTTPException 400 "Invalid move")
    else Some (games', Returned (_build_game_response game_id game')).
Proof.
  intros Hg. unfold make_move.
  by rewrite (contains_true_getitem _ _ _ Hg), Hg.
Qed.

Lemma get_game_state_found games game_id game :
  Py.dict_getitem games game_id = Some game →
  get_game_state games game_id = Some (Returned (_build_game_response game_id game)).
Proof.
  intros Hg. unfold get_game_state.
  by rewrite (contains_true_getitem _ _ _ Hg), Hg.
Qed.


Lemma delete_game_found games game_id game :
  Py.dict_getitem games game_id = Some game →
  ∃ games', Py.dict_delitem games game_id = Some games' ∧
    delete_game games game_id =
      Some (games', Returned ("Game " +:+ game_id +:+ " deleted successfully")).
Proof.
  intros Hg. pose proof (contains_true_getitem _ _ _ Hg) as Hc.
  destruct (proj2 (delitem_is_Some games game_id) Hc) as [games' Hdel].
  exists games'. split; [done|]. unfold delete_game. by rewrite Hc, Hdel.
Qed.

(** What a request can do to the dict: nothing, store a game under the id
    it names, or delete that id. *)
Lemma handle_cases games request games' :
  handle games request = Some games' →
  games' = games ∨
  (∃ game_id game, target request = Some game_id ∧
                   games' = Py.dict_setitem games game_id game) ∨
  (∃ game_id, target request = Some game_id ∧
              Py.dict_delitem games game_id = Some games').
Proof.
  destruct request as [uuid4|game_id req|game_id|game_id| |game_id]; simpl.
  - intros [= <-]. right. left. by eexists _, _.
  - unfold make_move. destruct (Py.contains games game_id); simpl; [|by intros [= <-]; left].
    destruct (Py.dict_getitem games game_id) as [game|]; simpl; [|done].
    case_bool_decide; simpl; [by intros [= <-]; left|].
    destruct (Engine.make_move game _ _) as [[ok game']|]; simpl; [|done].
    destruct ok; simpl; intros [= <-]; right; left; by eexists _, _.
  - destruct (get_game_state games game_id); simpl; [|done]. intros [= <-]. by left.
  - unfold reset_game. destruct (Py.contains games game_id); simpl; [|by intros [= <-]; left].
    destruct (Py.dict_getitem games game_id) as [game|]; simpl; [|done].
    intros [= <-]. right. left. by eexists _, _.
  - intros [= <-]. by left.
  - unfold delete_game. destruct (Py.contains games game_id); simpl; [|by intros [= <-]; left].
    destruct (Py.dict_delitem games game_id) as [d|] eqn:Hdel; simpl; [|done].
    intros [= <-]. right. right. by eexists.
Qed.

Lemma handle_NoDup games request games' :
  NoDup (Py.keys games) → handle games request = Some games' → NoDup (Py.keys games').
Proof.
  intros Hnd Hh.
  destruct (handle_cases _ _ _ Hh) as [->|[(id & g & _ & ->)|(id & _ & Hdel)]].
  - done.
  - by apply NoDup_setitem.
  - by eapply NoDup_delitem.
Qed.

Lemma served_NoDup games : served games → NoDup (Py.keys games).
Proof.
  induction 1 as [|games request games' _ IH Hh]; [constructor|].
  by eapply handle_NoDup.
Qed.

Lemma handle_other games request games' other :
  handle games request = Some games' → target request ≠ Some other →
  Py.dict_getitem games' other = Py.dict_getitem games other.
Proof.
  intros Hh Hne.
  destruct (handle_cases _ _ _ Hh) as [->|[(id & g & Ht & ->)|(id & Ht & Hdel)]].
  - done.
  - apply getitem_setitem_ne. intros ->. by rewrite Ht in Hne.
  - eapply getitem_delitem_ne; [done|]. intros ->. by rewrite Ht in Hne.
Qed.

(** Every game the server holds is an object the engine class can
    produce. *)
Lemma handle_reachable games games' request :
  NoDup (Py.keys games) →
  (∀ game_id game, Py.dict_getitem games game_id = Some game → Engine.reachable game) →
  handle games request = Some games' →
  ∀ game_id game, Py.dict_getitem games' game_id = Some game → Engine.reachable game.
Proof.
  intros Hnd Hall Hh.
  assert (∀ id g, Engine.reachable g →
            ∀ game_id game, Py.dict_getitem (Py.dict_setitem games id g) game_id = Some game →
                            Engine.reachable game) as Hset.
  { intros id g Hg game_id game.
    destruct (decide (game_id = id)) as [->|Hne].
    - rewrite getitem_setitem. by intros [= <-].
    - rewrite getitem_setitem_ne by done. apply Hall. }
  destruct request as [uuid4|id req|id|id| |id]; simpl in Hh.
  - injection Hh as <-. apply Hset. constructor.
  - unfold make_move in Hh.
    destruct (Py.contains games id); simpl in Hh; [|by injection Hh as <-].
    destruct (Py.dict_getitem games id) as [g|] eqn:Hg; simpl in Hh; [|done].
    case_bool_decide; simpl in Hh; [by injection Hh as <-|].
    destruct (Engine.make_move g _ _) as [[ok g']|] eqn:Hmv; simpl in Hh; [|done].
    assert (Engine.reachable g') as Hg'.
    { eapply Engine.reachable_move; [|done]. by eapply Hall. }
    destruct ok; simpl in Hh; injection Hh as <-; by apply Hset.
  - destruct (get_game_state games id); simpl in Hh; [|done]. by injection Hh as <-.
  - unfold reset_game in Hh.
    destruct (Py.contains games id); simpl in Hh; [|by injection Hh as <-].
    destruct (Py.dict_getitem games id) as [g|] eqn:Hg; simpl in Hh; [|done].
    injection Hh as <-. apply Hset. apply Engine.reachable_reset. by eapply Hall.
  - by injection Hh as <-.
  - unfold delete_game in Hh.
    destruct (Py.contains games id); simpl in Hh; [|by injection Hh as <-].
    destruct (Py.dict_delitem games id) as [d|] eqn:Hdel; simpl in Hh; [|done].
    injection Hh as <-. intros game_id game.
    destruct (decide (game_id = id)) as [->|Hne].
    + by rewrite (getitem_delitem _ _ _ Hdel Hnd).
    + rewrite (getitem_delitem_ne _ _ _ _ Hdel Hne). apply Hall.
Qed.

Lemma served_reachable games :
  served games →
  ∀ game_id game, Py.dict_getitem games game_id = Some game → Engine.reachable game.
Proof.
  induction 1 as [|games request games' Hs IH Hh]; [done|].
  eapply handle_reachable; [|done|done]. by apply served_NoDup.
Qed.

End generic.

Lemma serve_served {T : Type} `{!Engine.VanishingTicTacToe T}
    (games games' : Py.dict string T) requests :
  served games → serve games requests = Some games' → served games'.
Proof.
  revert games. induction requests as [|request requests IH]; intros games Hs; simpl.
  - by intros [= <-].
  - destruct (handle games request) as [games1|] eqn:Hh; simpl; [|done].
    apply IH. by eapply served_request.
Qed.

Lemma two_games_served : served two_games.
Proof.
  apply (serve_served [] two_games
           [CreateNewGame "a"; CreateNewGame "b"; move "a" "X" 0 0; move "a" "O" 1 1;
            move "a" "X" 0 1; move "a" "O" 1 0; move "a" "X" 0 2]);
    [constructor|reflexivity].
Qed.

End ApiFacts.

(** X11. Sessions do not touch each other: whatever request is handled,
    the game stored under any id other than the one the request names is
    the same afterwards, and the state handler gives the same answer for
    it.  Whatever the engine. *)
Theorem X11_sessions_are_isolated :
  ∀ (T : Type) (E : Api.Engine.VanishingTicTacToe T)
    (games games' : Py.dict string T) (request : Api.Request) (other : string),
    Api.handle games request = Some games' →
    Api.target request ≠ Some other →
    Py.dict_getitem games' other = Py.dict_getitem games other ∧
    Api.get_game_state games' other = Api.get_game_state games other.
Proof.
  intros T E games games' request other Hh Hne.
  pose proof (ApiFacts.handle_other _ _ _ _ Hh Hne) as Heq.
  split; [done|]. unfold Api.get_game_state. rewrite Heq.
  destruct (Py.contains games other) eqn:Hc.
  - apply contains_getitem in Hc as Hg. rewrite <- Heq in Hg.
    apply contains_getitem in Hg. by rewrite Hg.
  - apply contains_false in Hc as Hg. rewrite <- Heq in Hg.
    apply contains_false in Hg. by rewrite Hg.
Qed.

Lemma X11_sessions_are_isolated_witness :
  ∃ games',
    Api.handle Api.two_games (Api.move "b" "X" 1 1) = Some games' ∧
    Py.dict_getitem games' "a" = Some Backend.x_won.
Proof.
  eexists. split; [reflexivity|].
  apply (X11_sessions_are_isolated _ _ Api.two_games _ (Api.move "b" "X" 1 1) "a");
    [reflexivity|done].
Defined.

(** X12. The move handler on a game the server holds, whatever the engine
    class.  The game is an object the engine can produce.  A request whose
    player is not the value of the engine's current player is refused
    with 400 and the turn message, and the dict is unchanged: the engine
    is not asked.  Otherwise the engine is asked once, with the row and
    the column of the request: the object as the call leaves it is stored
    under the same id, the ids and their order are unchanged, the answer
    is the response built from that object when the engine returned True
    and 400 'Invalid move' when it returned False, the state handler then
    answers with the response built from the stored object, and when the
    engine left the object as it was the dict is as it was; an exception of
    the engine leaves the handler. *)
Theorem X12_move_request_outcome :
  ∀ (T : Type) (E : Api.Engine.VanishingTicTacToe T)
    (games : Py.dict string T) game_id game move_request,
    Api.served games → Py.dict_getitem games game_id = Some game →
    let expected := Backend.value (Api.Engine.get_current_player game) in
    let row := Api.row move_request in
    let col := Api.col move_request in
    Api.Engine.reachable game ∧
    (Api.player move_request ≠ expected →
       Api.make_move games game_id move_request =
         Some (games,
               Api.HTTPException 400
                 ("It's " +:+ expected +:+ "'s turn, not "
                  +:+ Api.player move_request +:+ "'s"))) ∧
    (Api.player move_request = expected →
       Api.Engine.make_move game row col = None →
       Api.make_move games game_id move_request = None) ∧
    (Api.player move_request = expected →
       ∀ ok game',
         Api.Engine.make_move game row col = Some (ok, game') →
         let games' := Py.dict_setitem games game_id game' in
         Api.make_move games game_id move_request =
           Some (games',
                 if ok : bool
                 then Api.Returned (Api._build_game_response game_id game')
                 else Api.HTTPException 400 "Invalid move") ∧
         Api.served games' ∧ Api.Engine.reachable game' ∧
         Py.keys games' = Py.keys games ∧
         Api.get_game_state games' game_id =
           Some (Api.Returned (Api._build_game_response game_id game')) ∧
         (game' = game → games' = games)).
Proof.
  intros T E games game_id game req Hs Hg expected row col.
  pose proof (ApiFacts.served_reachable games Hs _ _ Hg) as Hr.
  pose proof (ApiFacts.make_move_found games game_id req game Hg) as Hmv.
  cbv zeta in Hmv. fold expected row col in Hmv.
  split; [done|]. split; [|split].
  - intros Hp. by rewrite Hmv, bool_decide_true.
  - intros Hp Hnone. rewrite Hmv, bool_decide_false by (by intros ?).
    by rewrite Hnone.
  - intros Hp ok game' Hok. cbv zeta.
    assert (Api.make_move games game_id req =
              Some (Py.dict_setitem games game_id game',
                    if ok then Api.Returned (Api._build_game_response game_id game')
                    else Api.HTTPException 400 "Invalid move")) as Hres.
    { rewrite Hmv, bool_decide_false by (by intros ?). rewrite Hok.
      cbn [mbind option_bind]. by destruct ok. }
    split; [done|]. split.
    { apply (Api.served_request games (Api.MakeMove game_id req)); [done|].
      cbn [Api.handle]. by rewrite Hres. }
    split; [by eapply Api.Engine.reachable_move|]. split.
    { by rewrite keys_setitem, (ApiFacts.contains_true_getitem _ _ _ Hg). }
    split; [apply ApiFacts.get_game_state_found, getitem_setitem|].
    intros ->. by apply setitem_same.
Qed.

Lemma X12_move_request_outcome_witness :
  Api.make_move Api.two_games "b" (Api.mkMoveRequest 1 1 "O") =
    Some (Api.two_games, Api.HTTPException 400 "It's X's turn, not O's") ∧
  Api.make_move Api.two_games "b" (Api.mkMoveRequest 3 1 "X") =
    Some (Api.two_games, Api.HTTPException 400 "Invalid move").
Proof.
  pose proof (X12_move_request_outcome _ _ Api.two_games "b" Backend.init) as H.
  split.
  - destruct (H (Api.mkMoveRequest 1 1 "O") ApiFacts.two_games_served eq_refl)
      as (_ & Hturn & _).
    by apply Hturn.
  - destruct (H (Api.mkMoveRequest 3 1 "X") ApiFacts.two_games_served eq_refl)
      as (_ & _ & _ & Hasked).
    destruct (Hasked eq_refl false Backend.init eq_refl) as (Hmv & _).
    exact Hmv.
Defined.

(** X13. Requests that are refused change nothing, for any engine class
    that leaves an object as it was when it refuses a move on it: whenever
    the move handler raises HTTPException the dict after the request is the
    dict before it, the status code is 404 when the id is not in the dict
    and 400 otherwise.  If the engine moreover refuses every move on an
    object whose state is not IN_PROGRESS, then every move request on a
    concluded game the server holds is answered with 400, with 'Invalid
    move' exactly when the request names the engine's current player. *)
Theorem X13_refused_requests_change_nothing :
  ∀ (T : Type) (E : Api.Engine.VanishingTicTacToe T),
    (∀ game row col game',
       Api.Engine.reachable game →
       Api.Engine.make_move game row col = Some (false, game') → game' = game) →
    (∀ (games games' : Py.dict string T) game_id move_request status_code detail,
       Api.served games →
       Api.make_move games game_id move_request
         = Some (games', Api.HTTPException status_code detail) →
       games' = games ∧
       status_code = (if Py.contains games game_id then 400 else 404)) ∧
    ((∀ game row col,
        Api.Engine.reachable game →
        Api.Engine.get_game_state game ≠ Backend.IN_PROGRESS →
        ∃ game', Api.Engine.make_move game row col = Some (false, game')) →
     ∀ (games : Py.dict string T) game_id game move_request,
       Api.served games → Py.dict_getitem games game_id = Some game →
       Api.Engine.get_game_state game ≠ Backend.IN_PROGRESS →
       let expected := Backend.value (Api.Engine.get_current_player game) in
       Api.make_move games game_id move_request =
         Some (games,
               Api.HTTPException 400
                 (if bool_decide (Api.player move_request = expected)
                  then "Invalid move"
                  else "It's " +:+ expected +:+ "'s turn, not "
                       +:+ Api.player move_request +:+ "'s"))).
Proof.
  intros T E Hsame. split.
  - intros games games' game_id req code detail Hs. unfold Api.make_move.
    destruct (Py.contains games game_id) eqn:Hc; cbn [negb]; [|by intros [= <- <- _]].
    destruct (Py.dict_getitem games game_id) as [game|] eqn:Hg;
      cbn [mbind option_bind]; [|done].
    case_bool_decide; [by intros [= <- <- _]|].
    destruct (Api.Engine.make_move game _ _) as [[ok game']|] eqn:Hmv;
      cbn [mbind option_bind]; [|done].
    destruct ok; cbn [negb]; [done|]. intros [= <- <- _]. split; [|done].
    rewrite (Hsame _ _ _ _ (ApiFacts.served_reachable games Hs _ _ Hg) Hmv).
    by apply setitem_same.
  - intros Hrefuse games game_id game req Hs Hg Hst. cbv zeta.
    pose proof (ApiFacts.served_reachable games Hs _ _ Hg) as Hr.
    rewrite (ApiFacts.make_move_found games game_id req game Hg). cbv zeta.
    destruct (decide (Api.player req
                      = Backend.value (Api.Engine.get_current_player game))) as [Hp|Hp].
    + rewrite (bool_decide_true _ Hp). rewrite bool_decide_false by (by intros ?).
      destruct (Hrefuse game (Api.row req) (Api.col req) Hr Hst) as [game' Hmv].
      rewrite Hmv. cbn [mbind option_bind negb].
      rewrite (Hsame _ _ _ _ Hr Hmv). by rewrite (setitem_same _ _ _ Hg).
    + rewrite (bool_decide_false _ Hp). by rewrite (bool_decide_true _ Hp).
Qed.

Lemma X13_refused_requests_change_nothing_witness :
  Api.make_move Api.two_games "a" (Api.mkMoveRequest 2 2 "O") =
    Some (Api.two_games, Api.HTTPException 400 "Invalid move") ∧
  Api.make_move Api.two_games "a" (Api.mkMoveRequest 2 2 "X") =
    Some (Api.two_games, Api.HTTPException 400 "It's O's turn, not X's").
Proof.
  destruct (X13_refused_requests_change_nothing _ Api.example_engine) as [_ Hconcluded].
  { intros game row col game' _. apply BackendFacts.make_move_false. }
  assert (∀ req, Api.make_move Api.two_games "a" req =
            Some (Api.two_games,
                  Api.HTTPException 400
                    (if bool_decide (Api.player req = "O") then "Invalid move"
                     else "It's O's turn, not " +:+ Api.player req +:+ "'s"))) as H.
  { intros req.
    apply (Hconcluded
             ltac:(intros game row col _ Hst; exists game;
                   by apply BackendFacts.make_move_concluded)
             Api.two_games "a" Backend.x_won req ApiFacts.two_games_served eq_refl).
    done. }
  split; apply H.
Defined.

(** X14. Creating a game stores a new game under the drawn id and the state
    handler then answers with the response that was returned.  If the id
    was not in use it is added last and deleting it again gives back the
    dict as it was; if the id was in use the game stored there is replaced
    and the ids stay as they were.  Whatever the engine. *)
Theorem X14_create_then_state_then_delete :
  ∀ (T : Type) (E : Api.Engine.VanishingTicTacToe T)
    (games : Py.dict string T) (uuid4 : string),
    let games' := (Api.create_new_game games uuid4).1 in
    let response := (Api.create_new_game games uuid4).2 in
    Py.dict_getitem games' uuid4 = Some Api.Engine.new ∧
    Api.get_game_state games' uuid4 = Some (Api.Returned response) ∧
    (Py.contains games uuid4 = false →
       Py.keys games' = Py.keys games ++ [uuid4] ∧
       Api.delete_game games' uuid4 =
         Some (games, Api.Returned ("Game " +:+ uuid4 +:+ " deleted successfully"))) ∧
    (Py.contains games uuid4 = true → Py.keys games' = Py.keys games).
Proof.
  intros T E games uuid4. cbv zeta. cbn [Api.create_new_game fst snd].
  pose proof (getitem_setitem games uuid4 Api.Engine.new) as Hg.
  split; [done|]. split; [by apply ApiFacts.get_game_state_found|]. split.
  - intros Hc. rewrite keys_setitem, Hc. split; [done|].
    unfold Api.delete_game.
    rewrite (ApiFacts.contains_true_getitem _ _ _ Hg). simpl.
    by rewrite delitem_setitem.
  - intros Hc. by rewrite keys_setitem, Hc.
Qed.

(** X15. On a dict the server can hold, the listing and the other handlers
    agree: the listed ids have no repetition, their count is the number
    reported, and an id is listed exactly when the state handler answers
    for it with a response; after a game is deleted the state handler
    answers 404 for its id, the id is gone from the listing, the other ids
    keep their order and the count is one less.  Whatever the engine. *)
Theorem X15_listing_and_delete :
  ∀ (T : Type) (E : Api.Engine.VanishingTicTacToe T) (games : Py.dict string T),
    Api.served games →
    let listing := Api.list_active_games games in
    NoDup (Api.game_ids listing) ∧
    Api.total_games listing = Z.of_nat (length (Api.game_ids listing)) ∧
    (∀ game_id,
       game_id ∈ Api.game_ids listing ↔
       ∃ response, Api.get_game_state games game_id = Some (Api.Returned response)) ∧
    (∀ game_id games' message,
       Api.delete_game games game_id = Some (games', Api.Returned message) →
       Api.get_game_state games' game_id = Some (Api.HTTPException 404 "Game not found") ∧
       Api.game_ids (Api.list_active_games games')
         = filter (λ k, k ≠ game_id) (Api.game_ids listing) ∧
       Api.total_games (Api.list_active_games games') = Api.total_games listing - 1).
Proof.
  intros T E games Hs. cbv zeta. cbn [Api.list_active_games Api.game_ids Api.total_games].
  pose proof (ApiFacts.served_NoDup games Hs) as Hnd.
  split; [done|]. split; [done|]. split.
  - intros game_id. rewrite <- contains_keys. unfold Api.get_game_state. split.
    + intros Hc. rewrite Hc. apply contains_getitem in Hc as [game ->]. by eexists.
    + destruct (Py.contains games game_id); [done|]. by intros [? [=]].
  - intros game_id games' message. unfold Api.delete_game.
    destruct (Py.contains games game_id) eqn:Hc; simpl; [|done].
    destruct (Py.dict_delitem games game_id) as [d|] eqn:Hdel; simpl; [|done].
    intros [= <- <-].
    pose proof (keys_delitem _ _ _ Hdel Hnd) as Hkeys.
    split; [|split; [done|]].
    + unfold Api.get_game_state.
      pose proof (getitem_delitem _ _ _ Hdel Hnd) as Hnone.
      apply contains_false in Hnone. by rewrite Hnone.
    + rewrite Hkeys. apply contains_keys in Hc.
      pose proof (length_filter_lt (λ k, k ≠ game_id) (Py.keys games) game_id Hc
                    ltac:(by intros ?)) as Hlt.
      assert (length (Py.keys games)
              ≤ S (length (filter (λ k, k ≠ game_id) (Py.keys games))))%nat as Hle.
      { clear Hlt Hkeys Hdel. revert Hnd Hc. generalize (Py.keys games). intros l.
        induction l as [|k l IH]; [by intros _ ?%elem_of_nil|].
        rewrite NoDup_cons, elem_of_cons. intros [Hnotin Hnd] Hin.
        destruct (decide (k = game_id)) as [->|Hne].
        - rewrite filter_cons_False by (by intros ?).
          rewrite filter_all; [done|]. by intros x Hx ->.
        - rewrite filter_cons_True by done. simpl.
          destruct Hin as [->|Hin]; [done|]. specialize (IH Hnd Hin). lia. }
      lia.
Qed.

Lemma X15_listing_and_delete_witness :
  ∃ games',
    Api.delete_game Api.two_games "a" = Some (games', Api.Returned "Game a deleted successfully") ∧
    Api.game_ids (Api.list_active_games games') = ["b"] ∧
    Api.get_game_state games' "a" = Some (Api.HTTPException 404 "Game not found").
Proof.
  eexists. split; [reflexivity|].
  destruct (X15_listing_and_delete _ _ Api.two_games ApiFacts.two_games_served)
    as (_ & _ & _ & Hdel).
  destruct (Hdel "a" _ _ eq_refl) as (H404 & Hids & _).
  split; [exact Hids|exact H404].
Defined.

(** X16. What the server answers describes a game its engine can produce,
    whatever the engine class: on any dict the server can hold, a
    response of the state handler, of the move handler or of the reset
    handler carries the id that was asked for and is the response built
    from the object stored under that id after the request, and that
    object is one the engine class produces from a new one by calls of
    [make_move] and [reset]. *)
Theorem X16_responses_show_reachable_games :
  ∀ (T : Type) (E : Api.Engine.VanishingTicTacToe T) (games : Py.dict string T) game_id,
    Api.served games →
    (∀ response,
       Api.get_game_state games game_id = Some (Api.Returned response) →
       Api.game_id response = game_id ∧
       ∃ game, Py.dict_getitem games game_id = Some game ∧ Api.Engine.reachable game ∧
               response = Api._build_game_response game_id game) ∧
    (∀ games' response,
       (∃ move_request,
          Api.make_move games game_id move_request = Some (games', Api.Returned response)) ∨
       Api.reset_game games game_id = Some (games', Api.Returned response) →
       Api.game_id response = game_id ∧ Api.served games' ∧
       Api.get_game_state games' game_id = Some (Api.Returned response) ∧
       ∃ game, Py.dict_getitem games' game_id = Some game ∧ Api.Engine.reachable game ∧
               response = Api._build_game_response game_id game).
Proof.
  intros T E games game_id Hs. split.
  - intros response. unfold Api.get_game_state.
    destruct (Py.contains games game_id); cbn [negb]; [|done].
    destruct (Py.dict_getitem games game_id) as [game|] eqn:Hg;
      cbn [mbind option_bind]; [|done].
    intros [= <-]. split; [done|]. exists game. split; [done|]. split; [|done].
    by apply (ApiFacts.served_reachable games Hs game_id).
  - intros games' response Hreq.
    assert (∃ request game,
              Api.handle games request = Some games' ∧
              Py.dict_getitem games' game_id = Some game ∧
              response = Api._build_game_response game_id game)
      as (request & game & Hh & Hg' & ->).
    { destruct Hreq as [[req Hmv]|Hreset].
      - exists (Api.MakeMove game_id req). cbn [Api.handle]. rewrite Hmv.
        revert Hmv. unfold Api.make_move.
        destruct (Py.contains games game_id); cbn [negb]; [|done].
        destruct (Py.dict_getitem games game_id) as [game|];
          cbn [mbind option_bind]; [|done].
        case_bool_decide; [done|].
        destruct (Api.Engine.make_move game _ _) as [[ok game']|];
          cbn [mbind option_bind]; [|done].
        destruct ok; cbn [negb]; [|done]. intros [= <- <-].
        exists game'. split; [done|]. split; [apply getitem_setitem|done].
      - exists (Api.ResetGame game_id). cbn [Api.handle]. rewrite Hreset.
        revert Hreset. unfold Api.reset_game.
        destruct (Py.contains games game_id); cbn [negb]; [|done].
        destruct (Py.dict_getitem games game_id) as [game|];
          cbn [mbind option_bind]; [|done].
        intros [= <- <-].
        eexists. split; [done|]. split; [apply getitem_setitem|done]. }
    assert (Api.served games') as Hs' by (by eapply Api.served_request).
    split; [done|]. split; [done|].
    split; [by apply ApiFacts.get_game_state_found|].
    exists game. split; [done|]. split; [|done].
    by apply (ApiFacts.served_reachable games' Hs' game_id).
Qed.

Lemma X16_responses_show_reachable_games_witness :
  ∃ response,
    Api.get_game_state Api.two_games "a" = Some (Api.Returned response) ∧
    Api.game_id response = "a" ∧
    response = Api._build_game_response "a" Backend.x_won.
Proof.
  eexists. split; [reflexivity|].
  destruct (X16_responses_show_reachable_games _ _ Api.two_games "a"
              ApiFacts.two_games_served) as [Hstate _].
  destruct (Hstate _ eq_refl) as (Hid & game & Hg & _ & Hresp).
  split; [exact Hid|]. injection Hg as <-. exact Hresp.
Defined.



(** ** The move counter of the second engine as a summary of the game *)

Lemma main_reachable_counted self :
  Main.reachable self →
  ∃ g n,
    Backend.reachable g ∧ self = Refinement.rename g n ∧ 0 ≤ n ∧
    Backend.current_player g = (if Z.even n then Backend.X else Backend.O) ∧
    Z.of_nat (length (Backend.get_move_history g Backend.X)) = Z.min ((n + 1) / 2) 3 ∧
    Z.of_nat (length (Backend.get_move_history g Backend.O)) = Z.min (n / 2) 3.
Proof.
  induction 1 as [|self row col r self' _ (g & n & Hg & -> & Hn & Hcp & HX & HO) Hmv
                  |self _ _].
  - exists Backend.init, 0. split; [constructor|]. by rewrite RefinementFacts.rename_init.
  - pose proof (BackendFacts.reachable_consistent _ Hg) as Hc.
    destruct (RefinementFacts.main_step_inv g n row col r self' Hc Hmv)
      as [(_ & -> & _)|(Hv & g' & HA & Hp & -> & _)].
    + by exists g, n.
    + exists g', (n + 1). split; [by eapply Backend.reachable_move|].
      split; [done|]. split; [lia|].
      pose proof (BackendMore.placed_length _ _ _ _ Hc Hp) as Hlen.
      pose proof (Backend.placed_other _ _ _ _ Hp) as Hother.
      rewrite (Backend.placed_player _ _ _ _ Hp), Hcp.
      rewrite Hcp in Hlen, Hother.
      replace (n + 1) with (Z.succ n) by lia. rewrite Z.even_succ, <- Z.negb_even.
      destruct (Z.even n) eqn:Heven.
      * apply Z.even_spec in Heven as [k ->].
        rewrite (Hother Backend.O) by done. rewrite Hlen.
        split; [done|]. split; Z.div_mod_to_equations; lia.
      * rewrite <- Z.negb_odd in Heven. apply negb_false_iff, Z.odd_spec in Heven as [k ->].
        rewrite (Hother Backend.X) by done. rewrite Hlen.
        split; [done|]. split; Z.div_mod_to_equations; lia.
  - exists Backend.init, 0. split; [constructor|]. done.
Qed.

(** X18. In every reachable state of the second engine the counter
    [total_moves] tells the rest: it is not negative, the player to move is
    'X' when it is even and 'Y' when it is odd, and the board holds
    min((n+1)//2, 3) marks of X and min(n//2, 3) marks of Y for
    n = total_moves. *)
Theorem X18_total_moves_summarises_game :
  ∀ self, Main.reachable self →
    let n := Main.total_moves self in
    0 ≤ n ∧
    Main.current_player self = (if Z.even n then "X" else "Y") ∧
    Z.of_nat (length (cells_with (Main.board self) (Some "X"))) = Z.min ((n + 1) / 2) 3 ∧
    Z.of_nat (length (cells_with (Main.board self) (Some "Y"))) = Z.min (n / 2) 3.
Proof.
  intros self Hr. cbv zeta.
  destruct (main_reachable_counted self Hr) as (g & n & Hg & -> & Hn & Hcp & HX & HO).
  pose proof (BackendFacts.reachable_consistent _ Hg) as Hc.
  cbn [Refinement.rename Main.total_moves Main.current_player Main.board].
  split; [done|]. split; [rewrite Hcp; by destruct (Z.even n)|].
  change (Some "X") with (Some (Refinement.player_of Backend.X)).
  change (Some "Y") with (Some (Refinement.player_of Backend.O)).
  rewrite !RefinementFacts.cells_with_rename by done.
  rewrite (BackendFacts.consistent_cells_with g Backend.X Hc) by done.
  rewrite (BackendFacts.consistent_cells_with g Backend.O Hc) by done.
  done.
Qed.

Lemma X18_total_moves_summarises_game_witness :
  Main.current_player Main.x_won = "Y" ∧
  Z.of_nat (length (cells_with (Main.board Main.x_won) (Some "X"))) = 3.
Proof.
  destruct (X18_total_moves_summarises_game Main.x_won main_x_won_reachable)
    as (_ & Hcp & HX & _).
  split; [exact Hcp|exact HX].
Defined.

(** ** The views of src/Back-End-Game-Logic/flask_app.py *)

Module FlaskFacts.
Import Flask.

(** The queries on the player to move, on a reachable object. *)
Lemma reachable_mover self :
  Main.reachable self →
  ∃ h : list (Z * Z),
    Main.player_moves self !! Main.current_player self = Some h ∧
    cells_with (Main.board self) (Some (Main.current_player self)) ≡ₚ h ∧
    (length h ≤ 3)%nat ∧
    Main.will_remove_piece self (Main.current_player self)
      = Some (bool_decide (3 ≤ length h)%nat) ∧
    Main.get_oldest_piece_for_player self (Main.current_player self) = head h ∧
    ∀ row col result self',
      Main.make_move self row col = Some (result, self') →
      Main.success result = true →
      Main.reachable self' ∧
      in_range row col ∧ Py.getitem2 (Main.board self) row col = Some None ∧
      Main.game_status self = "ongoing" ∧
      ∃ msg b cp st w,
        result = Main.Success msg b
                   (if bool_decide (3 ≤ length h)%nat then head h else None) cp st w.
Proof.
  intros Hr.
  destruct (RefinementFacts.reachable_rename _ Hr) as (g & n & Hg & ->).
  pose proof (BackendFacts.reachable_consistent _ Hg) as Hc.
  pose proof (Backend.cons_player _ Hc) as Hp.
  destruct (rename_queries g n (Backend.current_player g) Hc Hp)
    as (Hlook & Hperm & Hlen & Hw & Ho).
  cbv zeta in Hlook, Hperm, Hlen, Hw, Ho.
  exists (Backend.get_move_history g (Backend.current_player g)).
  split; [done|]. split; [done|]. split; [done|]. split; [done|]. split; [done|].
  intros row col result self' Hmv Hok.
  split; [by eapply Main.reachable_move|].
  destruct (RefinementFacts.main_step_inv g n row col result self' Hc Hmv)
    as [(_ & _ & msg & ->)|(Hv & g' & HA & Hpl & -> & ->)]; [done|].
  destruct Hv as (Hst & Hin & Hempty).
  split; [done|]. split.
  { cbn [Refinement.rename Main.board]. rewrite getitem2_fmap, Hempty. done. }
  split; [cbn [Refinement.rename Main.game_status]; by rewrite Hst|].
  by eexists _, _, _, _, _.
Qed.

Lemma get_game_state_rename g n :
  Backend.consistent g →
  Main.get_game_state (Refinement.rename g n) =
    Some {| Main.State.board := Main.board (Refinement.rename g n);
            Main.State.current_player := Refinement.player_of (Backend.current_player g);
            Main.State.game_status := Refinement.status_of (Backend.state g);
            Main.State.player_moves := Main.player_moves (Refinement.rename g n);
            Main.State.total_moves := n;
            Main.State.oldest_pieces :=
              (head (Backend.move_history_x g), head (Backend.move_history_o g));
            Main.State.will_remove_next :=
              (bool_decide (3 ≤ length (Backend.move_history_x g))%nat,
               bool_decide (3 ≤ length (Backend.move_history_o g))%nat) |}.
Proof.
  intros Hc.
  destruct (rename_queries g n Backend.X Hc ltac:(done)) as (_ & _ & _ & HwX & HoX).
  destruct (rename_queries g n Backend.O Hc ltac:(done)) as (_ & _ & _ & HwO & HoO).
  cbv zeta in HwX, HoX, HwO, HoO.
  unfold Main.get_game_state.
  change "X" with (Refinement.player_of Backend.X) at 1 2.
  change "Y" with (Refinement.player_of Backend.O) at 1 2.
  rewrite HwX, HwO, HoX, HoO. cbn [mbind option_bind].
  by rewrite MainFacts._get_board_state_id.
Qed.

End FlaskFacts.

(** X19. The blur preview on a reachable game.  The view answers 200, never
    500.  It names the player to move; [pieces_on_board] is the number of
    that player's marks on the board, between 0 and 3; [should_blur] is
    true exactly when it is 3; [piece_to_blur] is None exactly when it is 0.
    And the preview is right: a move the engine then accepts removes
    [piece_to_blur] when [should_blur] is true and nothing otherwise. *)
Theorem X19_blur_preview_is_right :
  ∀ game, Main.reachable game →
    ∃ data,
      Flask.get_blur_preview game = Flask.Data data 200 ∧
      Flask.Preview.current_player data = Main.current_player game ∧
      Flask.Preview.pieces_on_board data
        = Z.of_nat (length (cells_with (Main.board game)
                                       (Some (Main.current_player game)))) ∧
      0 ≤ Flask.Preview.pieces_on_board data ≤ 3 ∧
      Flask.Preview.should_blur data
        = bool_decide (Flask.Preview.pieces_on_board data = 3) ∧
      (Flask.Preview.piece_to_blur data = None ↔ Flask.Preview.pieces_on_board data = 0) ∧
      ∀ row col result game',
        Main.make_move game row col = Some (result, game') →
        Main.success result = true →
        ∃ msg b cp st w,
          result = Main.Success msg b
                     (if Flask.Preview.should_blur data
                      then Flask.Preview.piece_to_blur data else None) cp st w.
Proof.
  intros game Hr.
  destruct (FlaskFacts.reachable_mover game Hr)
    as (h & Hlook & Hperm & Hlen & Hw & Ho & Hnext).
  eexists. unfold Flask.get_blur_preview. cbv zeta.
  rewrite Hw, Hlook, Ho. cbn [mbind option_bind].
  split; [reflexivity|].
  cbn [Flask.Preview.current_player Flask.Preview.pieces_on_board
       Flask.Preview.should_blur Flask.Preview.piece_to_blur].
  split; [done|]. split; [by rewrite Hperm|]. split; [lia|]. split.
  { apply bool_decide_ext. lia. }
  split.
  { destruct h; simpl; split; try done; lia. }
  intros row col result game' Hmv Hok.
  by destruct (Hnext row col result game' Hmv Hok) as (_ & _ & _ & _ & Hres).
Qed.

Lemma X19_blur_preview_is_right_witness :
  ∃ data,
    Flask.get_blur_preview Main.six_moves = Flask.Data data 200 ∧
    Flask.Preview.should_blur data = true ∧
    Flask.Preview.piece_to_blur data = Some (0, 0).
Proof.
  destruct (X19_blur_preview_is_right Main.six_moves main_six_moves_reachable)
    as (data & Hview & _).
  exists data. split; [exact Hview|].
  injection Hview as <-. by split.
Defined.

(** The cases in which the view answers without asking the engine. *)
Ltac refused_by_body game :=
  exists game; cbn [fst snd Flask.status_code];
  split; [done|]; split; [done|]; split; [done|]; split;
  [ split; [done|];
    let Hb := fresh in let Ht := fresh in let Hr := fresh in
    let Hc := fresh in let Hco := fresh in
    intros (? & ? & ? & Hb & Ht & Hr & Hc & Hco & _);
    try discriminate Hb; injection Hb as <-; congruence
  | done ].

(** X20. The move view on a reachable game, whatever the type of the
    request body.  The engine never raises, so the game after the call is
    known and reachable.  The answer is 200 exactly when the body is a true
    value that has the keys 'row' and 'col', both convert to integers, and
    the position is on the board, empty, and the game ongoing; with any
    other answer the game is as it was.  A 200 answer carries the engine's
    result of that move and a [next_blur_info] that is what the preview
    view then says about the game. *)
Theorem X20_move_view_outcome :
  ∀ (V : Type) (PV : Flask.PyValue V) game (body : Flask.Try V),
    Main.reachable game →
    let response := (Flask.make_move game body).1 in
    ∃ game',
      (Flask.make_move game body).2 = Some game' ∧ Main.reachable game' ∧
      (Flask.status_code response ≠ 200 → game' = game) ∧
      (Flask.status_code response = 200 ↔
         ∃ data row col,
           body = Flask.Fine data ∧ Flask.truth data = true ∧
           Flask.has_key "row" data = Flask.Fine true ∧
           Flask.has_key "col" data = Flask.Fine true ∧
           Flask.coordinates data = Flask.Fine (row, col) ∧
           in_range row col ∧ Py.getitem2 (Main.board game) row col = Some None ∧
           Main.game_status game = "ongoing") ∧
      (Flask.status_code response = 200 →
         ∃ data row col moved info preview,
           body = Flask.Fine data ∧ Flask.coordinates data = Flask.Fine (row, col) ∧
           Main.make_move game row col = Some (Flask.result moved, game') ∧
           response = Flask.Data moved 200 ∧
           Flask.next_blur_info moved = Some info ∧
           Flask.get_blur_preview game' = Flask.Data preview 200 ∧
           Flask.Preview.current_player preview = Flask.BlurInfo.current_player info ∧
           Flask.Preview.should_blur preview = Flask.BlurInfo.should_blur info ∧
           Flask.Preview.piece_to_blur preview = Flask.BlurInfo.piece_to_blur info).
Proof.
  intros V PV game body Hr. cbv zeta. unfold Flask.make_move. cbv zeta.
  destruct body as [data|e]; [|refused_by_body game].
  destruct (Flask.truth data) eqn:Htruth; cbn [negb]; [|refused_by_body game].
  destruct (Flask.has_key "row" data) as [[|]|e] eqn:Hrow;
    [|refused_by_body game|refused_by_body game].
  destruct (Flask.has_key "col" data) as [[|]|e] eqn:Hcol;
    [|refused_by_body game|refused_by_body game].
  destruct (Flask.coordinates data) as [[row col]|[|]] eqn:Hco;
    [|refused_by_body game|refused_by_body game].
  destruct (RefinementFacts.reachable_rename _ Hr) as (g & n & Hg & Heq).
  pose proof (BackendFacts.reachable_consistent _ Hg) as Hc.
  destruct (RefinementFacts.sim_step g n row col Hc)
    as (ok & g1 & res & n1 & _ & Hstep & _ & _).
  rewrite <- Heq in Hstep. rewrite Hstep.
  assert (Main.reachable (Refinement.rename g1 n1)) as Hr1
    by (by eapply Main.reachable_move).
  destruct (Main.success res) eqn:Hok.
  - destruct (FlaskFacts.reachable_mover game Hr) as (h0 & _ & _ & _ & _ & _ & Hnext).
    destruct (Hnext row col res _ Hstep Hok) as (_ & Hin & Hempty & Hst & _).
    destruct (FlaskFacts.reachable_mover _ Hr1) as (h & Hlook & _ & _ & Hw & Ho & _).
    rewrite Hw. exists (Refinement.rename g1 n1). cbn [fst snd Flask.status_code].
    split; [done|]. split; [done|]. split; [done|]. split.
    + split; [intros _|done]. by exists data, row, col.
    + intros _. eexists data, row, col, (Flask.mkMoveData res (Some _)), _, _.
      split; [done|]. split; [done|]. split; [exact Hstep|].
      split; [reflexivity|]. split; [reflexivity|].
      unfold Flask.get_blur_preview. cbv zeta.
      rewrite Hw, Hlook. cbn [mbind option_bind].
      split; [reflexivity|]. done.
  - pose proof (MainFacts.make_move_failure _ _ _ _ _ Hstep Hok) as Hsame.
    rewrite Hsame. exists game. cbn [fst snd Flask.status_code].
    split; [done|]. split; [done|]. split; [done|]. split; [|done].
    split; [done|].
    intros (data' & row' & col' & [= <-] & _ & _ & _ & Hco' & Hin & Hempty & Hst).
    rewrite Hco in Hco'. injection Hco' as <- <-.
    destruct (RefinementFacts.main_step_inv g n row col res _ Hc
                ltac:(by rewrite <- Heq)) as [(Hnv & _)|(_ & g' & _ & _ & _ & Hres)];
      [|by rewrite Hres in Hok].
    destruct Hnv. rewrite Heq in Hempty, Hst.
    by apply (RefinementFacts.rename_valid g n).
Qed.

Lemma X20_move_view_outcome_witness :
  Flask.status_code (Flask.make_move Main.six_moves (Flask.body_of 2 1)).1 = 200 ∧
  Flask.status_code (Flask.make_move Main.six_moves (Flask.body_of 0 0)).1 = 400 ∧
  (Flask.make_move Main.six_moves (Flask.body_of 0 0)).2 = Some Main.six_moves.
Proof.
  destruct (X20_move_view_outcome _ _ Main.six_moves (Flask.body_of 2 1)
              main_six_moves_reachable) as (g1 & _ & _ & _ & H200 & _).
  destruct (X20_move_view_outcome _ _ Main.six_moves (Flask.body_of 0 0)
              main_six_moves_reachable) as (g2 & Hafter & _ & Hsame & _).
  split.
  - apply H200. exists (Flask.Object [("row", Some 2); ("col", Some 1)]), 2, 1.
    repeat split; try reflexivity; done.
  - split; [reflexivity|]. rewrite Hafter. f_equal. by apply Hsame.
Defined.

(** X21. The state view and the players view on a reachable game answer
    200, never 500, and what the players view reports follows from the
    counter n = total_moves it reports: the player to move is 'X' when n is
    even and 'Y' when it is odd; the piece counts are min((n+1)//2, 3) for
    X and min(n//2, 3) for Y; will_remove_next is true for X from n = 5 on
    and for Y from n = 6 on; the oldest piece of X is None only for n = 0
    and that of Y only for n <= 1.  Both views report the same oldest
    pieces and removal flags. *)
Theorem X21_players_view_follows_counter :
  ∀ game, Main.reachable game →
    ∃ state players,
      Flask.get_game_state game = Flask.Data state 200 ∧
      Flask.get_players_info game = Flask.Data players 200 ∧
      Main.State.board state = Main.board game ∧
      Main.State.total_moves state = Flask.Players.total_moves players ∧
      Main.State.oldest_pieces state = Flask.Players.oldest_pieces players ∧
      Main.State.will_remove_next state = Flask.Players.will_remove_next players ∧
      let n := Flask.Players.total_moves players in
      n = Main.total_moves game ∧
      Flask.Players.current_player players = (if Z.even n then "X" else "Y") ∧
      Flask.Players.player_piece_counts players
        = (Z.min ((n + 1) / 2) 3, Z.min (n / 2) 3) ∧
      Flask.Players.will_remove_next players = (bool_decide (5 ≤ n), bool_decide (6 ≤ n)) ∧
      ((Flask.Players.oldest_pieces players).1 = None ↔ n = 0) ∧
      ((Flask.Players.oldest_pieces players).2 = None ↔ n ≤ 1).
Proof.
  intros game Hr.
  destruct (main_reachable_counted game Hr) as (g & n & Hg & -> & Hn & Hcp & HX & HO).
  pose proof (BackendFacts.reachable_consistent _ Hg) as Hc.
  pose proof (FlaskFacts.get_game_state_rename g n Hc) as Hstate.
  change (Backend.get_move_history g Backend.X) with (Backend.move_history_x g) in HX.
  change (Backend.get_move_history g Backend.O) with (Backend.move_history_o g) in HO.
  eexists _, _. unfold Flask.get_game_state, Flask.get_players_info.
  rewrite Hstate. cbn [mbind option_bind Main.State.player_moves].
  cbn [Refinement.rename Main.player_moves].
  rewrite RefinementMore.lookup_moves_X, RefinementMore.lookup_moves_Y.
  cbn [mbind option_bind].
  split; [reflexivity|]. split; [reflexivity|].
  cbn [Main.State.board Main.State.total_moves Main.State.oldest_pieces
       Main.State.will_remove_next Main.State.current_player
       Flask.Players.total_moves Flask.Players.oldest_pieces
       Flask.Players.will_remove_next Flask.Players.current_player
       Flask.Players.player_piece_counts Main.total_moves fst snd].
  split; [done|]. split; [done|]. split; [done|]. split; [done|]. split; [done|].
  split; [rewrite Hcp; by destruct (Z.even n)|].
  split; [by rewrite HX, HO|]. split; [|split].
  - f_equal; apply bool_decide_ext.
    + revert HX. generalize (length (Backend.move_history_x g)). intros k Hk.
      Z.div_mod_to_equations. lia.
    + revert HO. generalize (length (Backend.move_history_o g)). intros k Hk.
      Z.div_mod_to_equations. lia.
  - revert HX. destruct (Backend.move_history_x g) as [|e hx]; simpl; intros HX.
    + split; [intros _|done]. Z.div_mod_to_equations. lia.
    + split; [done|]. intros ->. revert HX. Z.div_mod_to_equations. lia.
  - revert HO. destruct (Backend.move_history_o g) as [|e ho]; simpl; intros HO.
    + split; [intros _|done]. Z.div_mod_to_equations. lia.
    + split; [done|]. intros Hle. revert HO. Z.div_mod_to_equations. lia.
Qed.

Lemma X21_players_view_follows_counter_witness :
  ∃ players,
    Flask.get_players_info Main.six_moves = Flask.Data players 200 ∧
    Flask.Players.player_piece_counts players = (3, 3) ∧
    Flask.Players.will_remove_next players = (true, true).
Proof.
  destruct (X21_players_view_follows_counter Main.six_moves main_six_moves_reachable)
    as (state & players & _ & Hview & _ & _ & _ & _ & Hn & _ & Hcounts & Hwill & _).
  exists players. split; [exact Hview|].
  injection Hview as <-. by split.
Defined.
